(** * Advanced camera control prompt generator: model and properties

    A shallow embedding of [advanced_camera_control_node.py]
    (class [AdvancedCameraControlNode]).

    Numbers.  Python floats are read as real numbers: every arithmetic
    operation of the source is the exact operation on [R], [math.sqrt],
    [math.atan] and [math.tan] are the functions of the Standard Library,
    and [math.atan2] is the usual two-argument arctangent defined from
    [atan].  Comparisons are the order of [R]; they are turned into
    booleans so that the Python conditions read as in the source.
    Python keeps integers and floats apart when it prints them; the few
    places where the source can hold either carry a tag ([pynum]).
    The reading knows neither rounding nor overflow, and it does not
    tell -0.0 from 0.0: [math.atan2(-0.0, x)] is -pi for a negative [x],
    where [atan2 0 x] is [PI].

    Dictionaries.  A position or target is a [gmap string R]; a missing
    key is read with [.get(key, 0)].  [camera_info] has the three keys of
    its contract, each of them optional.

    Builtins.  [str] of a float and [json.dumps] are parameters of the
    model; the record is described by the value handed to [json.dumps]. *)

From Stdlib Require Import Reals Lra Lia ZArith List Ascii String DecimalString.
From stdpp Require Import base option gmap strings.

Open Scope R_scope.

(** ** Python numbers *)

Module PyNum.

(** A value that Python holds either as an [int] or as a [float]. *)
Inductive pynum : Type :=
| PyInt (n : Z)
| PyFloat (x : R).

Definition num_val (v : pynum) : R :=
  match v with
  | PyInt n => IZR n
  | PyFloat x => x
  end.

Definition Rleb (x y : R) : bool := if Rle_dec x y then true else false.
Definition Rltb (x y : R) : bool := if Rlt_dec x y then true else false.
Definition Rgeb (x y : R) : bool := Rleb y x.
Definition Rgtb (x y : R) : bool := Rltb y x.

(** Truth value of a float: [x] is true unless it is zero. *)
Definition Rtruthy (x : R) : bool := if Req_dec_T x 0 then false else true.

(** [lo <= v <= hi], the test of every range table. *)
Definition in_range (rng : R * R) (v : R) : bool :=
  Rleb (fst rng) v && Rleb v (snd rng).

(** [int(x)]: truncation towards zero. *)
Definition py_int (x : R) : Z :=
  if Rleb 0 x then Int_part x else (- Int_part (- x))%Z.

(** The integer nearest to [x], ties to the even one. *)
Definition round_half_even (x : R) : Z :=
  let f := Int_part x in
  let r := x - IZR f in
  if Rltb r (1 / 2) then f
  else if Rltb (1 / 2) r then (f + 1)%Z
  else if Z.even f then f else (f + 1)%Z.

(** [round(x, ndigits)] on a float. *)
Definition py_round (x : R) (ndigits : nat) : R :=
  IZR (round_half_even (x * 10 ^ ndigits)) / 10 ^ ndigits.

(** [round(v, ndigits)] with [ndigits >= 0]: an [int] is returned as it is. *)
Definition py_round_num (v : pynum) (ndigits : nat) : pynum :=
  match v with
  | PyInt n => PyInt n
  | PyFloat x => PyFloat (py_round x ndigits)
  end.

Definition py_abs_num (v : pynum) : pynum :=
  match v with
  | PyInt n => PyInt (Z.abs n)
  | PyFloat x => PyFloat (Rabs x)
  end.

(** [str(n)] for an [int]. *)
Definition Z_to_string (n : Z) : string := NilZero.string_of_int (Z.to_int n).

(** [f"{x:.1f}"]: fixed notation with one decimal. *)
Definition format_1f (x : R) : string :=
  let n := round_half_even (Rabs x * 10) in
  (if Rltb x 0 then "-" else "")
    +:+ Z_to_string (n / 10) +:+ "." +:+ Z_to_string (n mod 10).

(** [math.degrees] and [math.radians]. *)
Definition degrees (x : R) : R := x * (180 / PI).
Definition radians (x : R) : R := x * (PI / 180).

(** [math.atan2(y, x)]. *)
Definition atan2 (y x : R) : R :=
  if Rltb 0 x then atan (y / x)
  else if Rltb x 0 then
    (if Rleb 0 y then atan (y / x) + PI else atan (y / x) - PI)
  else if Rltb 0 y then PI / 2
  else if Rltb y 0 then - (PI / 2)
  else 0.

End PyNum.
Export PyNum.

(** ** Python strings

    A string is read as its bytes; [strip] removes the ASCII white space
    of [str.strip()]. *)

Module PyStr.

Definition is_space (a : ascii) : bool :=
  let n := nat_of_ascii a in
  ((9 <=? n)%nat && (n <=? 13)%nat) || ((28 <=? n)%nat && (n <=? 32)%nat).

Fixpoint lstrip (s : string) : string :=
  match s with
  | EmptyString => EmptyString
  | String a s' => if is_space a then lstrip s' else s
  end.

Fixpoint rstrip (s : string) : string :=
  match s with
  | EmptyString => EmptyString
  | String a s' =>
      match rstrip s' with
      | EmptyString => if is_space a then EmptyString else String a EmptyString
      | r => String a r
      end
  end.

(** [s.strip()] *)
Definition strip (s : string) : string := rstrip (lstrip s).

(** [c in s] for a one-character [c]. *)
Fixpoint contains (c : ascii) (s : string) : bool :=
  match s with
  | EmptyString => false
  | String a s' => Ascii.eqb a c || contains c s'
  end.

(** [s.split(c)] for a one-character separator. *)
Fixpoint split (c : ascii) (s : string) : list string :=
  match s with
  | EmptyString => [EmptyString]
  | String a s' =>
      if Ascii.eqb a c then EmptyString :: split c s'
      else match split c s' with
           | [] => [String a EmptyString]
           | w :: ws => String a w :: ws
           end
  end.

Fixpoint map_string (f : ascii -> ascii) (s : string) : string :=
  match s with
  | EmptyString => EmptyString
  | String a s' => String (f a) (map_string f s')
  end.

(** [s.replace(old, new)] for one-character [old] and [new]. *)
Definition replace (old new : ascii) (s : string) : string :=
  map_string (fun a => if Ascii.eqb a old then new else a) s.

Definition lower_ascii (a : ascii) : ascii :=
  let n := nat_of_ascii a in
  if (65 <=? n)%nat && (n <=? 90)%nat then ascii_of_nat (n + 32) else a.

(** [s.lower()] *)
Definition lower (s : string) : string := map_string lower_ascii s.

(** [sep.join(parts)] *)
Definition join (sep : string) (parts : list string) : string :=
  String.concat sep parts.

(** Truth value of a string: true unless it is empty. *)
Definition truthy (s : string) : bool :=
  match s with
  | EmptyString => false
  | String _ _ => true
  end.

End PyStr.

(** ** Data model *)

(** A position or a target: a dictionary of coordinates. *)
Abbreviation Point3 := (gmap string R).

(** [d.get(k, dflt)] *)
Definition get (d : Point3) (k : string) (dflt : R) : R := default dflt (d !! k).

(** [not d] for a dictionary: it has no key. *)
Definition is_empty (d : Point3) : bool :=
  match map_to_list d with
  | [] => true
  | _ :: _ => false
  end.

(** The [camera_info] dictionary, with the keys of its contract. *)
Record CameraInfo : Type := {
  ci_position : option Point3;
  ci_target : option Point3;
  ci_zoom : option pynum
}.

(** [not camera_info]: [None], or a dictionary without keys. *)
Definition not_camera_info (camera_info : option CameraInfo) : bool :=
  match camera_info with
  | None => true
  | Some ci =>
      match ci_position ci, ci_target ci, ci_zoom ci with
      | None, None, None => true
      | _, _, _ => false
      end
  end.

(** The value handed to [json.dumps]. *)
#[local] Set Warnings "-register-all".
Inductive json : Type :=
| JNull
| JInt (n : Z)
| JFloat (x : R)
| JStr (s : string)
| JObj (fields : list (string * json)).

Definition json_of_num (v : pynum) : json :=
  match v with
  | PyInt n => JInt n
  | PyFloat x => JFloat x
  end.

(** [obj[key]] on a JSON object. *)
Fixpoint json_lookup (key : string) (fields : list (string * json)) : option json :=
  match fields with
  | [] => None
  | (k, v) :: rest => if String.eqb k key then Some v else json_lookup key rest
  end.

(** An entry of [CAMERA_SHOTS]. *)
Record Shot : Type := {
  shot_name : string;
  shot_distance_m : R * R;
  shot_focal_length_mm : R * R;
  shot_fov_deg : R * R
}.

(** An entry of [CAMERA_ANGLES]: it has a ["tilt_deg"] or a ["roll_deg"] key. *)
Record Angle : Type := {
  angle_name : string;
  angle_tilt_deg : option (R * R);
  angle_roll_deg : option (R * R)
}.

(** Multiplying every coordinate of a point by [c]. *)
Definition scale_point (c : R) (p : Point3) : Point3 := Rmult c <$> p.

(** * The node *)

Module AdvancedCameraControlNode.

Definition EYE_LEVEL_HEIGHT : R := 0.425.
Definition DEFAULT_POSITION : Point3 :=
  <["x" := 0.0]> (<["y" := EYE_LEVEL_HEIGHT]> (<["z" := 0.5]> ∅)).
Definition DEFAULT_TARGET : Point3 :=
  <["x" := 0.0]> (<["y" := EYE_LEVEL_HEIGHT]> (<["z" := 0.0]> ∅)).
Definition GRID_TO_METERS : R := 4.0.

Definition SENSOR_WIDTH_MM : R := 36.0.
Definition SENSOR_HEIGHT_MM : R := 24.0.

Definition FRAMING_THRESHOLDS : list (string * (R * R)) :=
  [ ("extreme close-up", (90, 1000));
    ("close-up", (60, 90));
    ("medium close-up", (45, 60));
    ("medium shot", (30, 60));
    ("medium long shot", (20, 30));
    ("full shot", (15, 30));
    ("wide shot", (5, 15));
    ("extreme wide shot", (0, 5)) ].

Definition CAMERA_SHOTS : list Shot :=
  [ Build_Shot "Extreme Close-Up" (0.3, 0.6) (85, 135) (10, 20);
    Build_Shot "Close-Up" (0.6, 1.2) (50, 85) (20, 30);
    Build_Shot "Medium Close-Up" (1.0, 1.8) (35, 50) (30, 40);
    Build_Shot "Medium Shot" (1.5, 3.0) (28, 50) (35, 45);
    Build_Shot "Medium Long Shot" (2.5, 4.0) (24, 35) (45, 55);
    Build_Shot "Full Shot" (3.0, 5.0) (24, 35) (50, 60);
    Build_Shot "Wide Shot" (5.0, 10.0) (18, 24) (60, 90);
    Build_Shot "Extreme Wide Shot" (10, 50) (14, 20) (90, 120) ].

Definition CAMERA_ANGLES : list Angle :=
  [ Build_Angle "Eye Level" (Some (-5, 5)) None;
    Build_Angle "High Angle" (Some (-20, -45)) None;
    Build_Angle "Slight Low Angle" (Some (5, 15)) None;
    Build_Angle "Standard Low Angle" (Some (15, 30)) None;
    Build_Angle "Deep Low Angle" (Some (30, 45)) None;
    Build_Angle "Extreme Low Angle" (Some (45, 90)) None;
    Build_Angle "Bird's Eye" (Some (-80, -90)) None;
    Build_Angle "Dutch Angle" None (Some (5, 30));
    Build_Angle "Dutch Low Angle" None (Some (10, 45)) ].

Definition EYE_LEVEL_TOLERANCE : R := 5.0.
Definition DUTCH_ANGLE_ROLL_MIN : R := 5.0.
Definition HIGH_ANGLE_MIN : R := 15.0.
Definition BIRD_EYE_MIN : R := 75.0.
Definition LOW_ANGLE_MAX : R := -15.0.
Definition WORM_EYE_MAX : R := -75.0.

Definition EXTREME_CLOSE_UP_MAX : R := 0.6.
Definition CLOSE_UP_MAX : R := 1.2.
Definition MEDIUM_SHOT_MAX : R := 3.0.
Definition FULL_SHOT_MAX : R := 5.0.
Definition WIDE_SHOT_MAX : R := 10.0.

(** *** Geometry

    [generate_prompt] reads position and target with
    [camera_info.get(key, {})]: an absent one arrives here as the empty
    dictionary. *)

Definition _calculate_distance (position target : Point3) : R :=
  if is_empty position || is_empty target then 0
  else
    let dx := get position "x" 0 - get target "x" 0 in
    let dy := get position "y" 0 - get target "y" 0 in
    let dz := get position "z" 0 - get target "z" 0 in
    sqrt (dx * dx + dy * dy + dz * dz).

Definition _calculate_camera_angles (position target : Point3)
  : pynum * pynum * pynum :=
  if is_empty position || is_empty target then (PyInt 0, PyInt 0, PyInt 0)
  else
    let pos_x := get position "x" 0 in
    let pos_y := get position "y" 0 in
    let pos_z := get position "z" 0 in
    let tgt_x := get target "x" 0 in
    let tgt_y := get target "y" 0 in
    let tgt_z := get target "z" 0 in
    let dx := pos_x - tgt_x in
    let dy := pos_y - tgt_y in
    let dz := pos_z - tgt_z in
    let horizontal_dist := sqrt (dx * dx + dz * dz) in
    let pitch :=
      if Rgtb horizontal_dist 0.001 then degrees (atan2 dy horizontal_dist)
      else if Rgtb dy 0 then 90.0 else -90.0 in
    let yaw :=
      if Rgtb (Rabs dz) 0.001 then degrees (atan2 dx (- dz))
      else 0.0 in
    let roll := 0.0 in
    (PyFloat pitch, PyFloat yaw, PyFloat roll).

(** *** Angle classification *)

(** The [if]/[elif] chain on [angle["name"]] inside the tilt loop; a name
    outside the chain returns nothing and the loop goes on. *)
Definition angle_label (angle_name : string) : option string :=
  if String.eqb angle_name "High Angle" then Some "high angle"
  else if String.eqb angle_name "Slight Low Angle" then Some "slight low angle"
  else if String.eqb angle_name "Standard Low Angle" then Some "standard low angle"
  else if String.eqb angle_name "Deep Low Angle" then Some "deep low angle"
  else if String.eqb angle_name "Extreme Low Angle" then Some "extreme low angle"
  else if String.eqb angle_name "Bird's Eye" then Some "bird's eye view"
  else None.

(** The first loop of [_get_angle_type_name], over the entries named
    ["Dutch Low Angle"] that have a ["roll_deg"] key. *)
Fixpoint scan_dutch_low (roll : R) (angles : list Angle) : option string :=
  match angles with
  | [] => None
  | angle :: rest =>
      match String.eqb (angle_name angle) "Dutch Low Angle", angle_roll_deg angle with
      | true, Some roll_range =>
          if in_range roll_range (Rabs roll) then Some "dutch low angle"
          else scan_dutch_low roll rest
      | _, _ => scan_dutch_low roll rest
      end
  end.

(** The second loop of [_get_angle_type_name], over the entries that have
    a ["tilt_deg"] key. *)
Fixpoint scan_tilt (pitch : R) (angles : list Angle) : option string :=
  match angles with
  | [] => None
  | angle :: rest =>
      match angle_tilt_deg angle with
      | Some tilt_range =>
          let tilt_value := - pitch in
          if in_range tilt_range tilt_value then
            match angle_label (angle_name angle) with
            | Some name => Some name
            | None => scan_tilt pitch rest
            end
          else scan_tilt pitch rest
      | None => scan_tilt pitch rest
      end
  end.

(** The chain of thresholds that ends [_get_angle_type_name]. *)
Definition angle_fallback (pitch : R) : string :=
  if Rgeb pitch BIRD_EYE_MIN then "bird's eye view"
  else if Rgeb pitch HIGH_ANGLE_MIN then "high angle"
  else if Rleb pitch WORM_EYE_MAX then "extreme low angle"
  else if Rleb pitch (-45) then "deep low angle"
  else if Rleb pitch (-30) then "standard low angle"
  else if Rleb pitch (-15) then "slight low angle"
  else if Rgtb pitch 0 then "high angle"
  else "low angle".

Definition _get_angle_type_name (pitch roll : R) : string :=
  match (if Rgeb (Rabs roll) 10 && Rltb pitch 0
         then scan_dutch_low roll CAMERA_ANGLES else None) with
  | Some name => name
  | None =>
      if Rgeb (Rabs roll) DUTCH_ANGLE_ROLL_MIN then "dutch angle"
      else
        match scan_tilt pitch CAMERA_ANGLES with
        | Some name => name
        | None => angle_fallback pitch
        end
  end.

(** *** Lens *)

Definition _estimate_fov_from_distance (distance : R) : R :=
  let distance_meters := distance * GRID_TO_METERS in
  if Rltb distance_meters EXTREME_CLOSE_UP_MAX then 15.0
  else if Rltb distance_meters CLOSE_UP_MAX then 25.0
  else if Rltb distance_meters MEDIUM_SHOT_MAX then 37.5
  else if Rltb distance_meters FULL_SHOT_MAX then 52.5
  else if Rltb distance_meters WIDE_SHOT_MAX then 70.0
  else 100.0.

Definition _calculate_fov_from_focal_length (focal_length_mm : R)
  (use_horizontal : bool) : option R :=
  if Rleb focal_length_mm 0 then None
  else
    let sensor_dim := if use_horizontal then SENSOR_WIDTH_MM else SENSOR_HEIGHT_MM in
    let fov_rad := 2.0 * atan (sensor_dim / (2.0 * focal_length_mm)) in
    Some (degrees fov_rad).

Definition _estimate_focal_length (fov : R) : option R :=
  if Rtruthy fov && Rgtb fov 0 then
    let fov_rad := radians fov in
    let focal_length := 18.0 / tan (fov_rad / 2.0) in
    Some (Rmax 14.0 (Rmin 200.0 focal_length))
  else None.

(** *** Shot classification *)

(** The loop of [_calculate_framing_shot_type] over the items of
    [FRAMING_THRESHOLDS]. *)
Fixpoint scan_framing (percent_of_frame : R) (items : list (string * (R * R)))
  : option string :=
  match items with
  | [] => None
  | (shot_name, (min_pct, max_pct)) :: rest =>
      if (Rleb min_pct percent_of_frame && Rltb percent_of_frame max_pct)
         || (Rgeb max_pct 1000 && Rgeb percent_of_frame min_pct)
      then Some shot_name
      else scan_framing percent_of_frame rest
  end.

Definition _calculate_framing_shot_type (object_scale_meters : option R)
  (distance_meters focal_length_mm : R) (use_horizontal : bool) : option string :=
  match object_scale_meters with
  | None => None
  | Some object_scale =>
      if Rleb object_scale 0 then None
      else if Rleb distance_meters 0 || Rleb focal_length_mm 0 then None
      else
        let projected_mm := focal_length_mm * (object_scale / distance_meters) in
        let sensor_dim_mm :=
          if use_horizontal then SENSOR_WIDTH_MM else SENSOR_HEIGHT_MM in
        let percent_of_frame := 100.0 * projected_mm / sensor_dim_mm in
        match scan_framing percent_of_frame FRAMING_THRESHOLDS with
        | Some shot_name => Some shot_name
        | None =>
            if Rgeb percent_of_frame 100 then Some "extreme close-up"
            else if Rltb percent_of_frame 0.1 then Some "extreme wide shot"
            else None
        end
  end.

(** The [if]/[elif] chain on [shot["name"]] inside the three table loops
    of [_get_shot_type_prompt]. *)
Definition shot_label (shot_name : string) : option string :=
  if String.eqb shot_name "Extreme Close-Up" then Some "extreme close-up"
  else if String.eqb shot_name "Close-Up" then Some "close-up"
  else if String.eqb shot_name "Medium Close-Up" then Some "medium close-up"
  else if String.eqb shot_name "Medium Shot" then Some "medium shot"
  else if String.eqb shot_name "Medium Long Shot" then Some "medium long shot"
  else if String.eqb shot_name "Full Shot" then Some "full shot"
  else if String.eqb shot_name "Wide Shot" then Some "wide shot"
  else if String.eqb shot_name "Extreme Wide Shot" then Some "extreme wide shot"
  else None.

(** One table loop of [_get_shot_type_prompt]: the first entry whose
    range [key] contains [value] decides, and the loop breaks there. *)
Fixpoint scan_shots (key : Shot -> R * R) (value : R) (shots : list Shot)
  : option string :=
  match shots with
  | [] => None
  | shot :: rest =>
      if in_range (key shot) value then shot_label (shot_name shot)
      else scan_shots key value rest
  end.

(** The last tier of [_get_shot_type_prompt]: thresholds on the distance. *)
Definition distance_fallback (distance_meters : R) : string :=
  if Rltb distance_meters EXTREME_CLOSE_UP_MAX then "extreme close-up"
  else if Rltb distance_meters CLOSE_UP_MAX then "close-up"
  else if Rltb distance_meters MEDIUM_SHOT_MAX then "medium shot"
  else if Rltb distance_meters FULL_SHOT_MAX then "full shot"
  else if Rltb distance_meters WIDE_SHOT_MAX then "wide shot"
  else "extreme wide shot".

(** The value of [estimated_focal] in [_get_shot_type_prompt]. *)
Definition estimated_focal_of (fov focal_length_mm : option R) : option R :=
  match focal_length_mm, fov with
  | None, Some fov_value => _estimate_focal_length fov_value
  | _, _ => focal_length_mm
  end.

(** The first tier: the value of [shot_type] when the table loops start. *)
Definition framing_tier (distance_meters : R)
  (estimated_focal object_scale_meters : option R) : option string :=
  match object_scale_meters, estimated_focal with
  | Some _, Some focal =>
      _calculate_framing_shot_type object_scale_meters distance_meters focal false
  | _, _ => None
  end.

(** The value of [shot_type] when [_get_shot_type_prompt] builds its
    result: the tiers in the order of the source, each one run only when
    [shot_type] is still [None]. *)
Definition shot_type_of (distance_meters : R)
  (fov estimated_focal object_scale_meters : option R) : string :=
  let shot_type := framing_tier distance_meters estimated_focal object_scale_meters in
  let shot_type :=
    match shot_type with
    | None => scan_shots shot_distance_m distance_meters CAMERA_SHOTS
    | Some _ => shot_type
    end in
  let shot_type :=
    match shot_type, fov with
    | None, Some fov_deg => scan_shots shot_fov_deg fov_deg CAMERA_SHOTS
    | _, _ => shot_type
    end in
  let shot_type :=
    match shot_type, estimated_focal with
    | None, Some focal => scan_shots shot_focal_length_mm focal CAMERA_SHOTS
    | _, _ => shot_type
    end in
  match shot_type with
  | Some name => name
  | None => distance_fallback distance_meters
  end.

Definition _get_shot_type_prompt (distance : R) (zoom : pynum)
  (fov focal_length_mm object_scale_meters : option R) : string :=
  let distance_meters := distance * GRID_TO_METERS in
  let distance_str := format_1f distance_meters +:+ " m" in
  let estimated_focal := estimated_focal_of fov focal_length_mm in
  let shot_type := shot_type_of distance_meters fov estimated_focal object_scale_meters in
  let camera_info_parts := ["camera distance " +:+ distance_str] in
  let focal_to_display :=
    match focal_length_mm with
    | Some _ => focal_length_mm
    | None => estimated_focal
    end in
  let camera_info_parts :=
    match focal_to_display with
    | Some focal => camera_info_parts ++ [Z_to_string (py_int focal) +:+ "mm"]
    | None => camera_info_parts
    end in
  let camera_info_parts :=
    match fov with
    | Some fov_value =>
        let fov_deg := py_int fov_value in
        if (fov_deg =? 0)%Z then camera_info_parts
        else camera_info_parts ++ ["FOV " +:+ Z_to_string fov_deg +:+ "°"]
    | None => camera_info_parts
    end in
  let camera_info := PyStr.join " " camera_info_parts in
  shot_type +:+ " (" +:+ camera_info +:+ ")".

(** *** Position phrase *)

(** The local function [safe_float] of [_get_camera_position_prompt]: a
    coordinate is a float, so the [isinstance] test holds and the value
    is returned as it is. *)
Definition safe_float (value default : R) : R := value.

Definition _get_camera_position_prompt (position target : Point3)
  (pitch yaw : R) : string :=
  if is_empty position || is_empty target then ""
  else
    let pos_x := safe_float (get position "x" 0) 0.0 - safe_float (get target "x" 0) 0.0 in
    let pos_y := safe_float (get position "y" 0) 0.0 - safe_float (get target "y" 0) 0.0 in
    let pos_z := safe_float (get position "z" 0) 0.0 - safe_float (get target "z" 0) 0.0 in
    let horizontal_dist := sqrt (pos_x * pos_x + pos_z * pos_z) in
    if Rltb horizontal_dist 0.001 then
      (if Rgtb pos_y 0 then "above object" else "below object")
    else
      let angle_deg := degrees (atan2 pos_x pos_z) in
      let angle_deg := if Rltb angle_deg 0 then angle_deg + 360 else angle_deg in
      let angle_int := py_int angle_deg in
      let angle_str := Z_to_string angle_int in
      let is_directly_front :=
        ((Z.abs angle_int <? 2)%Z || (Z.abs (angle_int - 360) <? 2)%Z)
        && Rgtb pos_z 0.1 in
      if is_directly_front then ""
      else if Rltb pos_z (-0.1) then
        let parts :=
          if Rltb (Rabs pos_x) 0.1 then ["looking from behind"]
          else if (90 <=? angle_int)%Z && (angle_int <=? 180)%Z then
            ["Pan the camera " +:+ angle_str +:+ " degrees to the right-back side"]
          else if (180 <? angle_int)%Z && (angle_int <=? 270)%Z then
            ["Pan the camera " +:+ angle_str +:+ " degrees to the left-back side"]
          else ["looking from behind at " +:+ angle_str +:+ " degree"] in
        PyStr.join ", " parts
      else if Rltb (Rabs pos_x) 0.1 then
        (if Rgtb pos_z 0.1 then ""
         else PyStr.join ", " ["looking from behind"])
      else
        let parts :=
          if Rgtb pos_x 0.1 then
            ["Pan the camera " +:+ angle_str +:+ " degrees to the right"]
          else if Rltb pos_x (-0.1) then
            (if (270 <=? angle_int)%Z then
               let left_angle := (360 - angle_int)%Z in
               ["Pan the camera " +:+ Z_to_string left_angle +:+ " degrees to the left"]
             else if (180 <? angle_int)%Z then
               let left_angle := angle_int in
               ["Pan the camera " +:+ Z_to_string left_angle +:+ " degrees to the left"]
             else
               ["Pan the camera " +:+ angle_str +:+ " degrees to the left"])
          else [] in
        PyStr.join ", " parts.

(** *** The prompt and the record *)

(** The value of [angle_type] in [generate_prompt]. *)
Definition angle_type_of (pitch roll : pynum) : option string :=
  if Rgtb (Rabs (num_val pitch)) EYE_LEVEL_TOLERANCE
  then Some (_get_angle_type_name (num_val pitch) (num_val roll))
  else None.

(** Truth value of [angle_type] or [shot_type_name]. *)
Definition opt_truthy (s : option string) : bool :=
  match s with
  | Some text => PyStr.truthy text
  | None => false
  end.

(** The value of [vertical_angle_text] in [generate_prompt]. *)
Definition vertical_angle_text_of (pitch : pynum) (angle_type : option string)
  : option string :=
  if Rgtb (Rabs (num_val pitch)) EYE_LEVEL_TOLERANCE && opt_truthy angle_type then
    let pitch_deg := py_int (Rabs (num_val pitch)) in
    Some (if Rgtb (num_val pitch) 0
          then "tilt down at " +:+ Z_to_string pitch_deg +:+ " degree"
          else "tilt up at " +:+ Z_to_string pitch_deg +:+ " degree")
  else None.

(** The values of [shot_type_name] and [camera_info_text] in
    [generate_prompt]. *)
Definition split_shot_prompt (shot_prompt : string) : option string * option string :=
  if PyStr.truthy shot_prompt then
    if PyStr.contains "(" shot_prompt then
      let pieces := PyStr.split "(" shot_prompt in
      (Some (PyStr.strip (nth 0 pieces "")),
       Some ("(" +:+ PyStr.strip (nth 1 pieces "")))
    else (Some (PyStr.strip shot_prompt), None)
  else (None, None).

(** The list [prompt_parts] of [generate_prompt], joined. *)
Definition assemble_prompt (camera_position_text vertical_angle_text
  angle_type shot_type_name camera_info_text : option string)
  (custom_description : string) : string :=
  let movement_parts :=
    (match camera_position_text with
     | Some text => if PyStr.truthy text then [text] else []
     | None => []
     end)
    ++ (match vertical_angle_text with
        | Some text => if PyStr.truthy text then [text] else []
        | None => []
        end) in
  let angle_shot_parts :=
    (match angle_type with
     | Some text => if PyStr.truthy text then [text] else []
     | None => []
     end)
    ++ (match shot_type_name with
        | Some text => if PyStr.truthy text then [text] else []
        | None => []
        end) in
  let description_parts :=
    match movement_parts, angle_shot_parts with
    | _ :: _, _ :: _ =>
        [PyStr.join " and " movement_parts +:+ ", " +:+ PyStr.join " " angle_shot_parts]
    | _ :: _, [] => [PyStr.join " and " movement_parts +:+ "."]
    | [], _ :: _ => [PyStr.join " " angle_shot_parts +:+ "."]
    | [], [] => []
    end in
  let prompt_parts :=
    match description_parts with
    | [] => []
    | _ :: _ => [PyStr.join " " description_parts]
    end in
  let prompt_parts :=
    match camera_info_text with
    | Some text => if PyStr.truthy text then prompt_parts ++ [text] else prompt_parts
    | None => prompt_parts
    end in
  let prompt_parts :=
    if PyStr.truthy custom_description && PyStr.truthy (PyStr.strip custom_description)
    then prompt_parts ++ [PyStr.strip custom_description]
    else prompt_parts in
  PyStr.join " " prompt_parts.

Section Builtins.

(** [str(x)] of a float and [json.dumps(value, indent=4)] belong to
    Python, not to the node. *)
Variable float_repr : R -> string.
Variable json_dumps : json -> string.

Definition num_str (v : pynum) : string :=
  match v with
  | PyInt n => Z_to_string n
  | PyFloat x => float_repr x
  end.

(** The dictionary [camera_data] of [_generate_camera_json]. *)
Definition camera_data (pitch yaw roll : pynum) (distance_meters focal_length_mm : R)
  (shot_type_name : option string) : list (string * json) :=
  let shot_type_json :=
    match shot_type_name with
    | Some name =>
        if PyStr.truthy name
        then JStr (PyStr.lower (PyStr.replace "-" "_" (PyStr.replace " " "_" name)))
        else JNull
    | None => JNull
    end in
  let tilt_deg_value := py_round_num pitch 1 in
  let tilt_deg_str :=
    if Rgtb (num_val pitch) 0 then "tilt down " +:+ num_str (py_abs_num tilt_deg_value)
    else if Rltb (num_val pitch) 0 then "tilt up " +:+ num_str (py_abs_num tilt_deg_value)
    else "tilt " +:+ num_str tilt_deg_value in
  let pan_deg_value := py_round_num yaw 1 in
  let pan_deg_str :=
    if Rgtb (num_val yaw) 0 then "pan to right " +:+ num_str (py_abs_num pan_deg_value)
    else if Rltb (num_val yaw) 0 then "pan to left " +:+ num_str (py_abs_num pan_deg_value)
    else "pan " +:+ num_str pan_deg_value in
  [ ("focal_length_mm",
      if Rtruthy focal_length_mm then JInt (py_int focal_length_mm) else JNull);
    ("sensor_width_mm", JInt (py_int SENSOR_WIDTH_MM));
    ("sensor_height_mm", JInt (py_int SENSOR_HEIGHT_MM));
    ("distance_m", JFloat (py_round distance_meters 2));
    ("tilt_deg", JStr tilt_deg_str);
    ("pan_deg", JStr pan_deg_str);
    ("roll_deg", json_of_num (py_round_num roll 1));
    ("shot_type", shot_type_json) ].

Definition _generate_camera_json (position target : Point3) (pitch yaw roll : pynum)
  (distance_meters focal_length_mm : R) (fov : option R)
  (shot_type_name : option string) : string :=
  json_dumps
    (JObj [("camera",
            JObj (camera_data pitch yaw roll distance_meters focal_length_mm
                    shot_type_name))]).

Definition generate_prompt (camera_info : option CameraInfo) (focal_length_mm : R)
  (object_scale_meters : option R) (custom_description : string) : string * string :=
  if not_camera_info camera_info then ("", "{}")
  else
    let position := default ∅ (camera_info ≫= ci_position) in
    let target := default ∅ (camera_info ≫= ci_target) in
    let zoom := default (PyInt 1) (camera_info ≫= ci_zoom) in
    let distance := _calculate_distance position target in
    let distance_meters := distance * GRID_TO_METERS in
    let '(pitch, yaw, roll) := _calculate_camera_angles position target in
    let fov := _calculate_fov_from_focal_length focal_length_mm true in
    let angle_type := angle_type_of pitch roll in
    let shot_prompt :=
      _get_shot_type_prompt distance zoom fov (Some focal_length_mm)
        object_scale_meters in
    let position_prompt :=
      _get_camera_position_prompt position target (num_val pitch) (num_val yaw) in
    let camera_position_text :=
      if PyStr.truthy position_prompt then Some position_prompt else None in
    let vertical_angle_text := vertical_angle_text_of pitch angle_type in
    let '(shot_type_name, camera_info_text) := split_shot_prompt shot_prompt in
    let final_prompt :=
      assemble_prompt camera_position_text vertical_angle_text angle_type
        shot_type_name camera_info_text custom_description in
    let camera_json :=
      _generate_camera_json position target pitch yaw roll distance_meters
        focal_length_mm fov shot_type_name in
    (final_prompt, camera_json).

End Builtins.

End AdvancedCameraControlNode.

Import AdvancedCameraControlNode.

(** * Statements of the specification, as definitions *)

Module Spec.

(** The numeric fallback of the angle classifier, as the specification
    lists it. *)
Definition angle_thresholds (pitch : R) : string :=
  if Rleb 75 pitch then "bird's eye view"
  else if Rleb 15 pitch then "high angle"
  else if Rleb pitch (-75) then "extreme low angle"
  else if Rleb pitch (-45) then "deep low angle"
  else if Rleb pitch (-30) then "standard low angle"
  else if Rleb pitch (-15) then "slight low angle"
  else if Rltb 0 pitch then "high angle"
  else "low angle".

(** The fixed lowercase name of each category of the tilt table. *)
Definition lowercase_names : list (string * string) :=
  [ ("High Angle", "high angle");
    ("Slight Low Angle", "slight low angle");
    ("Standard Low Angle", "standard low angle");
    ("Deep Low Angle", "deep low angle");
    ("Extreme Low Angle", "extreme low angle");
    ("Bird's Eye", "bird's eye view") ]%string.

Definition lowercase_name (category : string) : option string :=
  snd <$> List.find (fun entry => String.eqb (fst entry) category) lowercase_names.

(** The entry has a tilt range and the range contains [- pitch], both
    ends included. *)
Definition tilt_range_contains (pitch : R) (angle : Angle) : bool :=
  let tilt_value := - pitch in
  match angle_tilt_deg angle with
  | Some tilt_range => in_range tilt_range tilt_value
  | None => false
  end.

(** The angle classifier of the specification without roll: the first
    entry of the declared table whose tilt range contains [- pitch],
    under its lowercase name, and the numeric fallback when no entry
    matches.  There is no answer when the first match has no lowercase
    name. *)
Definition classify_angle (pitch : R) : option string :=
  match List.find (tilt_range_contains pitch) CAMERA_ANGLES with
  | Some angle => lowercase_name (angle_name angle)
  | None => Some (angle_thresholds pitch)
  end.

(** The offset [position - target] on one axis, a missing coordinate
    being 0. *)
Definition offset (position target : Point3) (axis : string) : R :=
  get position axis 0 - get target axis 0.

(** The Euclidean norm of a vector of the space. *)
Definition euclidean_norm (dx dy dz : R) : R := sqrt (Rsqr dx + Rsqr dy + Rsqr dz).

(** A non-negative number whose square is the sum of the squares. *)
Definition is_euclidean_norm (dx dy dz d : R) : Prop :=
  0 <= d /\ d * d = dx * dx + dy * dy + dz * dz.

(** The horizontal distance between position and target. *)
Definition horizontal (position target : Point3) : R :=
  sqrt (Rsqr (offset position target "x") + Rsqr (offset position target "z")).

(** The pitch of the specification: a relation between the offsets and
    the angle in degrees. *)
Definition pitch_spec (position target : Point3) (pitch : R) : Prop :=
  let dy := offset position target "y" in
  let h := horizontal position target in
  (h > 0.001 -> pitch = degrees (atan2 dy h))
  /\ (h <= 0.001 -> dy > 0 -> pitch = 90)
  /\ (h <= 0.001 -> dy <= 0 -> pitch = -90).

(** The yaw of the specification. *)
Definition yaw_spec (position target : Point3) (yaw : R) : Prop :=
  let dx := offset position target "x" in
  let dz := offset position target "z" in
  (Rabs dz > 0.001 -> yaw = degrees (atan2 dx (- dz)))
  /\ (Rabs dz <= 0.001 -> yaw = 0).



End Spec.

(** * Inputs used as examples *)

(** The default pose: position (0, 0.425, 0.5) looking at (0, 0.425, 0). *)
Definition default_camera_info : option CameraInfo :=
  Some {| ci_position := Some DEFAULT_POSITION;
          ci_target := Some DEFAULT_TARGET;
          ci_zoom := None |}.

(** A camera 0.3125 grid units to the right of its target. *)
Definition side_camera_info : option CameraInfo :=
  Some {| ci_position := Some {[ "x"%string := 0.3125 ]};
          ci_target := Some {[ "x"%string := 0 ]};
          ci_zoom := None |}.

(** A camera in front of the origin, 0.09 to the right and 0.11 ahead. *)
Definition oblique_position : Point3 :=
  <["x"%string := 0.09]> (<["y"%string := 0]> (<["z"%string := 0.11]> ∅)).
Definition origin_target : Point3 :=
  <["x"%string := 0]> (<["y"%string := 0]> (<["z"%string := 0]> ∅)).

(** A camera 0.002 grid units in front of its target. *)
Definition close_position : Point3 := {[ "z"%string := 0.002 ]}.
Definition close_target : Point3 := {[ "z"%string := 0 ]}.

(** * Names and further inputs *)

Module Cover.

(** The names [_get_angle_type_name] has a [return] for. *)
Definition angle_names : list string :=
  [ "dutch low angle"; "dutch angle"; "high angle"; "slight low angle";
    "standard low angle"; "deep low angle"; "extreme low angle";
    "bird's eye view"; "low angle" ]%string.

(** The names [_get_shot_type_prompt] and [_calculate_framing_shot_type]
    have for a shot. *)
Definition shot_names : list string :=
  [ "extreme close-up"; "close-up"; "medium close-up"; "medium shot";
    "medium long shot"; "full shot"; "wide shot"; "extreme wide shot" ]%string.

(** The names that [_generate_camera_json] writes for them. *)
Definition shot_type_json_names : list string :=
  [ "extreme_close_up"; "close_up"; "medium_close_up"; "medium_shot";
    "medium_long_shot"; "full_shot"; "wide_shot"; "extreme_wide_shot" ]%string.

(** The value of [camera_info] in [_get_shot_type_prompt]: the text that
    the function puts between parentheses. *)
Definition camera_info_text (distance : R) (fov focal_length_mm : option R) : string :=
  let distance_meters := distance * GRID_TO_METERS in
  let distance_str := format_1f distance_meters +:+ " m" in
  let estimated_focal := estimated_focal_of fov focal_length_mm in
  let camera_info_parts := ["camera distance " +:+ distance_str] in
  let focal_to_display :=
    match focal_length_mm with
    | Some _ => focal_length_mm
    | None => estimated_focal
    end in
  let camera_info_parts :=
    match focal_to_display with
    | Some focal => camera_info_parts ++ [Z_to_string (py_int focal) +:+ "mm"]
    | None => camera_info_parts
    end in
  let camera_info_parts :=
    match fov with
    | Some fov_value =>
        let fov_deg := py_int fov_value in
        if (fov_deg =? 0)%Z then camera_info_parts
        else camera_info_parts ++ ["FOV " +:+ Z_to_string fov_deg +:+ "°"]
    | None => camera_info_parts
    end in
  PyStr.join " " camera_info_parts.

End Cover.

(** A camera 5 grid units straight above the origin. *)
Definition overhead_position : Point3 :=
  <["x"%string := 0]> (<["y"%string := 5]> (<["z"%string := 0]> ∅)).

(** A camera 0.05 grid units in front of the origin, on the axis. *)
Definition near_front_position : Point3 :=
  <["x"%string := 0]> (<["y"%string := 0]> (<["z"%string := 0.05]> ∅)).

(** A camera_info that holds a zoom and neither position nor target. *)
Definition zoom_only_camera_info : option CameraInfo :=
  Some {| ci_position := None; ci_target := None; ci_zoom := Some (PyInt 1) |}.

(** Cameras one grid unit to the right, to the left and to the right
    behind a target at the origin, and one with a lateral offset of 0.1. *)
Definition right_position : Point3 := {[ "x"%string := 1 ]}.
Definition edge_position : Point3 := {[ "x"%string := 0.1 ]}.

(** * Auxiliary facts *)

(** ** Comparisons *)

Lemma Rleb_true (x y : R) : x <= y -> Rleb x y = true.
Proof. intros H. unfold Rleb. destruct (Rle_dec x y); [reflexivity | contradiction]. Qed.

Lemma Rleb_false (x y : R) : y < x -> Rleb x y = false.
Proof. intros H. unfold Rleb. destruct (Rle_dec x y); [lra | reflexivity]. Qed.

Lemma Rltb_true (x y : R) : x < y -> Rltb x y = true.
Proof. intros H. unfold Rltb. destruct (Rlt_dec x y); [reflexivity | contradiction]. Qed.

Lemma Rltb_false (x y : R) : y <= x -> Rltb x y = false.
Proof. intros H. unfold Rltb. destruct (Rlt_dec x y); [lra | reflexivity]. Qed.

(** The named constants of the class, unfolded to their values. *)
Ltac unfold_constants :=
  unfold EYE_LEVEL_TOLERANCE, DUTCH_ANGLE_ROLL_MIN, HIGH_ANGLE_MIN, BIRD_EYE_MIN,
    LOW_ANGLE_MAX, WORM_EYE_MAX, EXTREME_CLOSE_UP_MAX, CLOSE_UP_MAX,
    MEDIUM_SHOT_MAX, FULL_SHOT_MAX, WIDE_SHOT_MAX, GRID_TO_METERS,
    SENSOR_WIDTH_MM, SENSOR_HEIGHT_MM, EYE_LEVEL_HEIGHT in *.

(** Decides every comparison of the goal that linear arithmetic settles. *)
Ltac decide_cmp :=
  unfold Rgeb, Rgtb in *;
  repeat match goal with
    | |- context [Rleb ?a ?b] =>
        first [ rewrite (Rleb_true a b) by lra | rewrite (Rleb_false a b) by lra ]
    | |- context [Rltb ?a ?b] =>
        first [ rewrite (Rltb_true a b) by lra | rewrite (Rltb_false a b) by lra ]
    end.

(** ** Integer parts and rounding *)

Lemma Int_part_eq (x : R) (n : Z) : IZR n <= x < IZR n + 1 -> Int_part x = n.
Proof. intros [H1 H2]. symmetry. apply Int_part_spec. lra. Qed.

Lemma py_int_eq (x : R) (n : Z) : (0 <= n)%Z -> IZR n <= x < IZR n + 1 -> py_int x = n.
Proof.
  intros Hn [H1 H2]. unfold py_int.
  assert (0 <= IZR n) by (apply IZR_le in Hn; exact Hn).
  rewrite Rleb_true by lra. apply Int_part_eq. lra.
Qed.

Lemma round_half_even_near (x : R) (n : Z) :
  IZR n - 1 / 2 < x < IZR n + 1 / 2 -> round_half_even x = n.
Proof.
  intros [H1 H2]. unfold round_half_even.
  destruct (Rle_lt_dec (IZR n) x) as [Hge | Hlt].
  - rewrite (Int_part_eq x n) by lra. rewrite Rltb_true by lra. reflexivity.
  - assert (Hf : Int_part x = (n - 1)%Z).
    { apply Int_part_eq. rewrite minus_IZR. lra. }
    rewrite Hf, minus_IZR. rewrite Rltb_false by lra. rewrite Rltb_true by lra.
    lia.
Qed.

Lemma round_half_even_tie (x : R) (n : Z) :
  x = IZR n + 1 / 2 -> round_half_even x = if Z.even n then n else (n + 1)%Z.
Proof.
  intros ->. unfold round_half_even.
  rewrite (Int_part_eq (IZR n + 1 / 2) n) by lra.
  rewrite Rltb_false by lra. rewrite Rltb_false by lra. reflexivity.
Qed.

Lemma py_round_near (x : R) (ndigits : nat) (n : Z) :
  IZR n - 1 / 2 < x * 10 ^ ndigits < IZR n + 1 / 2 ->
  py_round x ndigits = IZR n / 10 ^ ndigits.
Proof. intros H. unfold py_round. rewrite (round_half_even_near _ n H). reflexivity. Qed.

Lemma py_round_0 (ndigits : nat) : py_round 0 ndigits = 0.
Proof.
  rewrite (py_round_near 0 ndigits 0) by (rewrite Rmult_0_l; lra).
  unfold Rdiv. apply Rmult_0_l.
Qed.

Lemma format_1f_near (x : R) (n : Z) :
  0 <= x -> IZR n - 1 / 2 < x * 10 < IZR n + 1 / 2 ->
  format_1f x = Z_to_string (n / 10) +:+ "." +:+ Z_to_string (n mod 10).
Proof.
  intros Hx H. unfold format_1f.
  rewrite Rabs_pos_eq by exact Hx.
  rewrite (round_half_even_near _ n H).
  rewrite Rltb_false by lra. reflexivity.
Qed.

(** ** Strings *)

Example split_shot_clause :
  PyStr.split "(" "medium shot (camera distance 2.0 m)"
  = ["medium shot "; "camera distance 2.0 m)"]%string.
Proof. reflexivity. Qed.

Example strip_spaces_and_newline :
  PyStr.strip (String " " (String "010" "wide lens, dusk  ")) = "wide lens, dusk"%string.
Proof. reflexivity. Qed.

Example shot_type_json_name :
  PyStr.lower (PyStr.replace "-" "_" (PyStr.replace " " "_" "extreme close-up"))
  = "extreme_close_up"%string.
Proof. reflexivity. Qed.

Example Z_to_string_examples :
  Z_to_string 0 = "0"%string /\ Z_to_string 39 = "39"%string
  /\ Z_to_string (-7) = "-7"%string.
Proof. repeat split; reflexivity. Qed.

(** ** Dictionaries *)

Lemma is_empty_true (d : Point3) : is_empty d = true <-> d = ∅.
Proof.
  unfold is_empty. rewrite <- map_to_list_empty_iff.
  destruct (map_to_list d); split; intros; auto; discriminate.
Qed.

Lemma is_empty_false (d : Point3) : is_empty d = false <-> d <> ∅.
Proof.
  rewrite <- is_empty_true. destruct (is_empty d); split; intros; auto; try discriminate.
  exfalso; auto.
Qed.

Lemma is_empty_scale (c : R) (d : Point3) : is_empty (scale_point c d) = is_empty d.
Proof.
  destruct (is_empty d) eqn:E.
  - apply is_empty_true in E. subst d. apply is_empty_true. apply fmap_empty.
  - apply is_empty_false in E. apply is_empty_false. intros H. apply E.
    apply (fmap_empty_inv _ _ H).
Qed.

Lemma scale_non_empty (c : R) (d : Point3) : d <> ∅ -> scale_point c d <> ∅.
Proof. intros H. apply is_empty_false. rewrite is_empty_scale. apply is_empty_false, H. Qed.

Lemma get_scale (c : R) (d : Point3) (k : string) :
  get (scale_point c d) k 0 = c * get d k 0.
Proof.
  unfold get, scale_point. rewrite lookup_fmap.
  destruct (d !! k); simpl; lra.
Qed.

Lemma get_empty (k : string) : get ∅ k 0 = 0.
Proof. unfold get. rewrite lookup_empty. reflexivity. Qed.

Lemma get_singleton (k k' : string) (v : R) :
  get {[ k := v ]} k' 0 = if String.eqb k k' then v else 0.
Proof.
  unfold get. destruct (String.eqb_spec k k') as [-> | Hne].
  - rewrite lookup_singleton_eq. reflexivity.
  - rewrite lookup_singleton_ne by exact Hne. reflexivity.
Qed.

Lemma either_empty (position target : Point3) :
  position = ∅ \/ target = ∅ -> is_empty position || is_empty target = true.
Proof.
  intros [H | H]; apply is_empty_true in H; rewrite H; [reflexivity | apply orb_true_r].
Qed.

Lemma neither_empty (position target : Point3) :
  position <> ∅ -> target <> ∅ -> is_empty position || is_empty target = false.
Proof.
  intros H1 H2. apply is_empty_false in H1, H2. rewrite H1, H2. reflexivity.
Qed.

(** ** Degrees and the arctangent *)

Lemma PI_pos : 0 < PI.
Proof. exact PI_RGT_0. Qed.

Lemma degrees_0 : degrees 0 = 0.
Proof. unfold degrees. lra. Qed.

Lemma degrees_PI : degrees PI = 180.
Proof. unfold degrees. field. pose proof PI_pos. lra. Qed.


Lemma degrees_lt_90 (x : R) : - PI / 2 < x < PI / 2 -> -90 < degrees x < 90.
Proof.
  intros [H1 H2]. unfold degrees. pose proof PI_pos as Hpi.
  assert (Hk : 0 < 180 / PI) by (apply Rdiv_lt_0_compat; lra).
  assert (E : PI / 2 * (180 / PI) = 90) by (field; lra).
  split.
  - replace (-90) with (- (PI / 2) * (180 / PI)) by lra.
    apply Rmult_lt_compat_r; [assumption | lra].
  - rewrite <- E. apply Rmult_lt_compat_r; assumption.
Qed.

Lemma atan2_pos (y x : R) : 0 < x -> atan2 y x = atan (y / x).
Proof. intros H. unfold atan2. rewrite Rltb_true by exact H. reflexivity. Qed.

Lemma atan2_zero_ahead (x : R) : 0 < x -> atan2 0 x = 0.
Proof.
  intros H. rewrite atan2_pos by exact H.
  replace (0 / x) with 0 by (unfold Rdiv; ring). apply atan_0.
Qed.

Lemma atan2_zero_behind (x : R) : x < 0 -> atan2 0 x = PI.
Proof.
  intros H. unfold atan2.
  rewrite (Rltb_false 0 x), (Rltb_true x 0), (Rleb_true 0 0) by lra.
  replace (0 / x) with 0 by (unfold Rdiv; ring). rewrite atan_0. ring.
Qed.

Lemma degrees_atan2_lt_90 (y x : R) : 0 < x -> -90 < degrees (atan2 y x) < 90.
Proof.
  intros H. rewrite atan2_pos by exact H. apply degrees_lt_90, atan_bound.
Qed.



Lemma atan_series_bounds (x : R) (N : nat) :
  0 < x < 1 ->
  sum_f_R0 (tg_alt (Ratan_seq x)) (S (2 * N)) <= atan x
  <= sum_f_R0 (tg_alt (Ratan_seq x)) (2 * N).
Proof.
  intros Hx.
  assert (Hx' : 0 <= x <= 1) by lra.
  rewrite (atan_eq_ps_atan x Hx). unfold ps_atan.
  destruct (Ratan.in_int x) as [Hin | Hout]; [| exfalso; apply Hout; lra].
  destruct (ps_atan_exists_1 x Hin) as [v Hv].
  apply alternated_series_ineq.
  - apply Ratan_seq_decreasing. exact Hx'.
  - apply Ratan_seq_converging. exact Hx'.
  - exact Hv.
Qed.

Lemma PI_bounds : 3.135 < PI < 3.143.
Proof.
  pose proof (PI_2_3_7_ineq 0) as [L _].
  pose proof (PI_2_3_7_ineq 1) as [_ U].
  unfold sum_f_R0, tg_alt, PI_2_3_7_tg, Ratan_seq in L, U. simpl in L, U.
  split; lra.
Qed.

Lemma degrees_bounds (a lo hi : R) :
  0 < a -> lo * 3.143 <= 180 * a -> 180 * a < hi * 3.135 -> 0 <= lo ->
  lo <= degrees a < hi.
Proof.
  intros Ha Hlo Hhi Hl0. pose proof PI_bounds as [P1 P2]. unfold degrees.
  assert (E : a * (180 / PI) * PI = 180 * a) by (field; lra).
  set (k := a * (180 / PI)) in *.
  split.
  - destruct (Rle_lt_dec lo k) as [|Hc]; [assumption | exfalso]. nra.
  - destruct (Rlt_le_dec k hi) as [|Hc]; [assumption | exfalso].
    assert (0 <= k) by (unfold k; apply Rmult_le_pos; [lra | apply Rlt_le, Rdiv_lt_0_compat; lra]).
    nra.
Qed.

Lemma atan_036_bounds : 0.3444 < atan 0.36 < 0.3457.
Proof.
  assert (H : 0 < 0.36 < 1) by lra.
  pose proof (atan_series_bounds 0.36 0 H) as [L _].
  pose proof (atan_series_bounds 0.36 1 H) as [_ U].
  unfold sum_f_R0, tg_alt, Ratan_seq in L, U. simpl in L, U.
  split; lra.
Qed.

Lemma atan_9_11_bounds : 0.683 < atan (0.09 / 0.11) < 0.69.
Proof.
  replace (0.09 / 0.11) with (9 / 11) by lra.
  assert (H : 0 < 9 / 11 < 1) by lra.
  pose proof (atan_series_bounds (9 / 11) 3 H) as [L _].
  pose proof (atan_series_bounds (9 / 11) 4 H) as [_ U].
  unfold sum_f_R0, tg_alt, Ratan_seq in L, U. simpl in L, U.
  split; lra.
Qed.

Lemma oblique_bearing :
  39 <= degrees (atan2 0.09 0.11) < 40.
Proof.
  rewrite atan2_pos by lra.
  pose proof atan_9_11_bounds as [A1 A2].
  apply degrees_bounds; lra.
Qed.

(** ** Distance and angles *)

Lemma sqrt_of_square (x s : R) : 0 <= x -> s = x * x -> sqrt s = x.
Proof. intros Hx ->. apply sqrt_square. exact Hx. Qed.

Lemma distance_unfold (position target : Point3) :
  position <> ∅ -> target <> ∅ ->
  _calculate_distance position target
  = Spec.euclidean_norm (Spec.offset position target "x")
      (Spec.offset position target "y") (Spec.offset position target "z").
Proof.
  intros H1 H2. unfold _calculate_distance. rewrite (neither_empty _ _ H1 H2).
  reflexivity.
Qed.

Lemma offset_scale (c : R) (position target : Point3) (axis : string) :
  Spec.offset (scale_point c position) (scale_point c target) axis
  = c * Spec.offset position target axis.
Proof. unfold Spec.offset. rewrite !get_scale. lra. Qed.

Lemma horizontal_nonneg (position target : Point3) : 0 <= Spec.horizontal position target.
Proof. unfold Spec.horizontal. apply sqrt_pos. Qed.

Lemma horizontal_scale (c : R) (position target : Point3) :
  c > 0 ->
  Spec.horizontal (scale_point c position) (scale_point c target)
  = c * Spec.horizontal position target.
Proof.
  intros Hc. unfold Spec.horizontal. rewrite !offset_scale.
  set (dx := Spec.offset position target "x").
  set (dz := Spec.offset position target "z").
  replace (Rsqr (c * dx) + Rsqr (c * dz)) with (Rsqr c * (Rsqr dx + Rsqr dz))
    by (unfold Rsqr; ring).
  rewrite sqrt_mult.
  - rewrite sqrt_Rsqr by lra. reflexivity.
  - apply Rle_0_sqr.
  - apply Rplus_le_le_0_compat; apply Rle_0_sqr.
Qed.


(** The result of [_calculate_camera_angles] on non-empty dictionaries,
    in terms of the offsets and the horizontal distance. *)
Lemma camera_angles_unfold (position target : Point3) :
  position <> ∅ -> target <> ∅ ->
  _calculate_camera_angles position target
  = (PyFloat (if Rltb 0.001 (Spec.horizontal position target)
              then degrees (atan2 (Spec.offset position target "y")
                              (Spec.horizontal position target))
              else if Rltb 0 (Spec.offset position target "y") then 90 else -90),
     PyFloat (if Rltb 0.001 (Rabs (Spec.offset position target "z"))
              then degrees (atan2 (Spec.offset position target "x")
                              (- Spec.offset position target "z"))
              else 0),
     PyFloat 0).
Proof.
  intros H1 H2. unfold _calculate_camera_angles. rewrite (neither_empty _ _ H1 H2).
  cbv zeta. unfold Spec.horizontal, Spec.offset, Rsqr, Rgtb.
  replace 90.0 with 90 by lra. replace (-90.0) with (-90) by lra.
  replace 0.0 with 0 by lra. reflexivity.
Qed.



Lemma camera_roll_is_zero (position target : Point3) :
  snd (_calculate_camera_angles position target) = PyFloat 0
  \/ snd (_calculate_camera_angles position target) = PyInt 0.
Proof.
  unfold _calculate_camera_angles.
  destruct (is_empty position || is_empty target); cbn [snd]; [right | left].
  - reflexivity.
  - replace 0.0 with 0 by lra. reflexivity.
Qed.

(** ** The angle classifier *)

(** Evaluates the angle classifier at a pitch and a roll given by
    numerals. *)
Ltac eval_angle_name :=
  unfold _get_angle_type_name, CAMERA_ANGLES, angle_fallback;
  cbn [scan_dutch_low scan_tilt angle_name angle_tilt_deg angle_roll_deg
         String.eqb Ascii.eqb Bool.eqb];
  unfold in_range; cbn [fst snd]; unfold_constants;
  repeat first [ rewrite Rabs_R0 | rewrite Rabs_pos_eq by lra | rewrite Rabs_left by lra ];
  decide_cmp; reflexivity.

Example slight_low_angle_at_15 : _get_angle_type_name (-15) 0 = "slight low angle"%string.
Proof. eval_angle_name. Qed.

Example high_angle_by_fallback : _get_angle_type_name 30 0 = "high angle"%string.
Proof. eval_angle_name. Qed.

Example dutch_angle_with_roll : _get_angle_type_name 20 6 = "dutch angle"%string.
Proof. eval_angle_name. Qed.

Example dutch_low_angle_with_roll : _get_angle_type_name (-20) 30 = "dutch low angle"%string.
Proof. eval_angle_name. Qed.

Lemma angle_fallback_thresholds (pitch : R) :
  angle_fallback pitch = Spec.angle_thresholds pitch.
Proof.
  unfold angle_fallback, Spec.angle_thresholds, Rgeb, Rgtb. unfold_constants.
  replace 75.0 with 75 by lra. replace 15.0 with 15 by lra.
  replace (-75.0) with (-75) by lra. reflexivity.
Qed.

Lemma eye_level_excluded (pitch : R) :
  Rabs pitch > 5 -> in_range (-5, 5) (- pitch) = false.
Proof.
  intros H. unfold in_range. cbn [fst snd].
  destruct (Rle_lt_dec 0 pitch) as [Hp | Hp].
  - rewrite Rabs_pos_eq in H by exact Hp.
    rewrite (Rleb_false (-5) (- pitch)) by lra. reflexivity.
  - rewrite Rabs_left in H by exact Hp.
    rewrite (Rleb_false (- pitch) 5) by lra. apply andb_false_r.
Qed.

Lemma angle_name_not_dutch (pitch : R) :
  _get_angle_type_name pitch 0 <> "dutch angle"%string
  /\ _get_angle_type_name pitch 0 <> "dutch low angle"%string.
Proof.
  unfold _get_angle_type_name.
  rewrite Rabs_R0. unfold_constants. decide_cmp. cbn [andb].
  unfold CAMERA_ANGLES. cbn [scan_tilt angle_tilt_deg angle_name].
  repeat match goal with
         | |- context [in_range ?r ?v] => destruct (in_range r v)
         end; cbn [angle_label String.eqb Ascii.eqb Bool.eqb];
    try (split; discriminate).
  all: unfold angle_fallback, Rgeb, Rgtb.
  all: repeat match goal with
         | |- context [Rleb ?a ?b] => destruct (Rleb a b)
         | |- context [Rltb ?a ?b] => destruct (Rltb a b)
         end;
    split; discriminate.
Qed.

Lemma angle_type_without_roll (pitch roll : pynum) :
  num_val roll = 0 ->
  angle_type_of pitch roll <> Some "dutch angle"%string
  /\ angle_type_of pitch roll <> Some "dutch low angle"%string.
Proof.
  intros Hr. unfold angle_type_of. rewrite Hr.
  destruct (Rgtb _ _); [| split; discriminate].
  destruct (angle_name_not_dutch (num_val pitch)) as [H1 H2].
  split; intros H; injection H as H; contradiction.
Qed.

(** ** The shot classifier *)

Lemma scan_distance_extreme_close_up (distance_meters : R) :
  0.3 <= distance_meters <= 0.6 ->
  scan_shots shot_distance_m distance_meters CAMERA_SHOTS = Some "extreme close-up"%string.
Proof.
  intros [H1 H2]. unfold CAMERA_SHOTS. cbn [scan_shots shot_distance_m shot_name].
  unfold in_range; cbn [fst snd]. decide_cmp. reflexivity.
Qed.

Lemma scan_distance_close_up (distance_meters : R) :
  0.6 < distance_meters <= 1.2 ->
  scan_shots shot_distance_m distance_meters CAMERA_SHOTS = Some "close-up"%string.
Proof.
  intros [H1 H2]. unfold CAMERA_SHOTS. cbn [scan_shots shot_distance_m shot_name].
  unfold in_range; cbn [fst snd]. decide_cmp. reflexivity.
Qed.

Lemma scan_distance_medium_shot (distance_meters : R) :
  1.8 < distance_meters <= 3.0 ->
  scan_shots shot_distance_m distance_meters CAMERA_SHOTS = Some "medium shot"%string.
Proof.
  intros [H1 H2]. unfold CAMERA_SHOTS. cbn [scan_shots shot_distance_m shot_name].
  unfold in_range; cbn [fst snd]. decide_cmp. reflexivity.
Qed.

Lemma shot_type_of_distance_tier (distance_meters : R)
  (fov estimated_focal object_scale_meters : option R) (name : string) :
  framing_tier distance_meters estimated_focal object_scale_meters = None ->
  scan_shots shot_distance_m distance_meters CAMERA_SHOTS = Some name ->
  shot_type_of distance_meters fov estimated_focal object_scale_meters = name.
Proof.
  intros Hf Hs. unfold shot_type_of. rewrite Hf, Hs.
  destruct fov, estimated_focal; reflexivity.
Qed.

Lemma fov_50mm_bounds :
  exists fov : R,
    _calculate_fov_from_focal_length 50 true = Some fov /\ 39 <= fov < 40.
Proof.
  eexists. split.
  - unfold _calculate_fov_from_focal_length. rewrite Rleb_false by lra. reflexivity.
  - cbv zeta. unfold SENSOR_WIDTH_MM.
    replace (36.0 / (2.0 * 50)) with 0.36 by lra.
    pose proof atan_036_bounds as [A1 A2].
    apply degrees_bounds; lra.
Qed.

(** ** The position phrase *)

Lemma horizontal_ge_dz (dx dz : R) : 0 <= dz -> dz <= sqrt (dx * dx + dz * dz).
Proof.
  intros H. rewrite <- (sqrt_square dz H) at 1.
  apply sqrt_le_1_alt. nra.
Qed.

(** ** The prompt and the record *)

Lemma generate_prompt_json (float_repr : R -> string) (json_dumps : json -> string)
  (camera_info : option CameraInfo) (focal_length_mm : R)
  (object_scale_meters : option R) (custom_description : string) :
  not_camera_info camera_info = false ->
  let position := default ∅ (camera_info ≫= ci_position) in
  let target := default ∅ (camera_info ≫= ci_target) in
  let zoom := default (PyInt 1) (camera_info ≫= ci_zoom) in
  let distance := _calculate_distance position target in
  let angles := _calculate_camera_angles position target in
  let fov := _calculate_fov_from_focal_length focal_length_mm true in
  let shot_prompt :=
    _get_shot_type_prompt distance zoom fov (Some focal_length_mm) object_scale_meters in
  snd (generate_prompt float_repr json_dumps camera_info focal_length_mm
         object_scale_meters custom_description)
  = json_dumps
      (JObj [("camera"%string,
              JObj (camera_data float_repr (fst (fst angles)) (snd (fst angles))
                      (snd angles) (distance * GRID_TO_METERS) focal_length_mm
                      (fst (split_shot_prompt shot_prompt))))]).
Proof.
  intros H. cbv zeta. unfold generate_prompt. rewrite H.
  destruct (_calculate_camera_angles _ _) as [[pitch yaw] roll].
  destruct (split_shot_prompt _) as [shot_type_name camera_info_text].
  reflexivity.
Qed.

Lemma generate_prompt_text (float_repr : R -> string) (json_dumps : json -> string)
  (camera_info : option CameraInfo) (focal_length_mm : R)
  (object_scale_meters : option R) (custom_description : string) :
  not_camera_info camera_info = false ->
  let position := default ∅ (camera_info ≫= ci_position) in
  let target := default ∅ (camera_info ≫= ci_target) in
  let zoom := default (PyInt 1) (camera_info ≫= ci_zoom) in
  let distance := _calculate_distance position target in
  let angles := _calculate_camera_angles position target in
  let pitch := fst (fst angles) in
  let yaw := snd (fst angles) in
  let roll := snd angles in
  let fov := _calculate_fov_from_focal_length focal_length_mm true in
  let angle_type := angle_type_of pitch roll in
  let shot_prompt :=
    _get_shot_type_prompt distance zoom fov (Some focal_length_mm) object_scale_meters in
  let position_prompt :=
    _get_camera_position_prompt position target (num_val pitch) (num_val yaw) in
  fst (generate_prompt float_repr json_dumps camera_info focal_length_mm
         object_scale_meters custom_description)
  = assemble_prompt
      (if PyStr.truthy position_prompt then Some position_prompt else None)
      (vertical_angle_text_of pitch angle_type) angle_type
      (fst (split_shot_prompt shot_prompt)) (snd (split_shot_prompt shot_prompt))
      custom_description.
Proof.
  intros H. cbv zeta. unfold generate_prompt. rewrite H.
  destruct (_calculate_camera_angles _ _) as [[pitch yaw] roll].
  destruct (split_shot_prompt _) as [shot_type_name camera_info_text].
  reflexivity.
Qed.

(** ** The default pose *)

Lemma default_offset_x : Spec.offset DEFAULT_POSITION DEFAULT_TARGET "x" = 0.
Proof.
  unfold Spec.offset.
  change (get DEFAULT_POSITION "x" 0) with 0.0.
  change (get DEFAULT_TARGET "x" 0) with 0.0. lra.
Qed.

Lemma default_offset_y : Spec.offset DEFAULT_POSITION DEFAULT_TARGET "y" = 0.
Proof.
  unfold Spec.offset.
  change (get DEFAULT_POSITION "y" 0) with EYE_LEVEL_HEIGHT.
  change (get DEFAULT_TARGET "y" 0) with EYE_LEVEL_HEIGHT. lra.
Qed.

Lemma default_offset_z : Spec.offset DEFAULT_POSITION DEFAULT_TARGET "z" = 0.5.
Proof.
  unfold Spec.offset.
  change (get DEFAULT_POSITION "z" 0) with 0.5.
  change (get DEFAULT_TARGET "z" 0) with 0.0. lra.
Qed.

Lemma default_horizontal : Spec.horizontal DEFAULT_POSITION DEFAULT_TARGET = 0.5.
Proof.
  unfold Spec.horizontal. rewrite default_offset_x, default_offset_z.
  apply sqrt_of_square; [lra | unfold Rsqr; lra].
Qed.

Lemma default_distance : _calculate_distance DEFAULT_POSITION DEFAULT_TARGET = 0.5.
Proof.
  rewrite distance_unfold by apply insert_non_empty.
  rewrite default_offset_x, default_offset_y, default_offset_z.
  unfold Spec.euclidean_norm. apply sqrt_of_square; [lra | unfold Rsqr; lra].
Qed.

Lemma default_angles :
  _calculate_camera_angles DEFAULT_POSITION DEFAULT_TARGET
  = (PyFloat 0, PyFloat 180, PyFloat 0).
Proof.
  rewrite camera_angles_unfold by apply insert_non_empty.
  rewrite default_horizontal, default_offset_x, default_offset_y, default_offset_z.
  rewrite (Rltb_true 0.001 0.5) by lra.
  rewrite (Rabs_pos_eq 0.5), (Rltb_true 0.001 0.5) by lra.
  rewrite atan2_zero_ahead by lra.
  rewrite atan2_zero_behind by lra.
  rewrite degrees_0, degrees_PI. reflexivity.
Qed.

Lemma default_position_prompt (pitch yaw : R) :
  _get_camera_position_prompt DEFAULT_POSITION DEFAULT_TARGET pitch yaw = ""%string.
Proof.
  unfold _get_camera_position_prompt, safe_float.
  rewrite neither_empty by apply insert_non_empty.
  fold (Spec.offset DEFAULT_POSITION DEFAULT_TARGET "x").
  fold (Spec.offset DEFAULT_POSITION DEFAULT_TARGET "y").
  fold (Spec.offset DEFAULT_POSITION DEFAULT_TARGET "z").
  rewrite default_offset_x, default_offset_y, default_offset_z.
  cbv zeta.
  rewrite (sqrt_of_square 0.5 (0 * 0 + 0.5 * 0.5)) by lra.
  rewrite (Rltb_false 0.5 0.001) by lra.
  rewrite atan2_zero_ahead by lra. rewrite degrees_0.
  rewrite (Rltb_false 0 0) by lra.
  rewrite (py_int_eq 0 0) by (try lia; lra).
  unfold Rgtb. rewrite (Rltb_true 0.1 0.5) by lra.
  reflexivity.
Qed.

Lemma default_shot_prompt (zoom : pynum) (fov : R) :
  39 <= fov < 40 ->
  _get_shot_type_prompt 0.5 zoom (Some fov) (Some 50) None
  = "medium shot (camera distance 2.0 m 50mm FOV 39°)"%string.
Proof.
  intros Hfov. unfold _get_shot_type_prompt.
  replace (0.5 * GRID_TO_METERS) with 2 by (unfold GRID_TO_METERS; lra).
  cbv zeta.
  rewrite (shot_type_of_distance_tier 2 _ _ _ "medium shot")
    by (try reflexivity; apply scan_distance_medium_shot; lra).
  rewrite (format_1f_near 2 20) by lra.
  rewrite (py_int_eq 50 50) by (try lia; lra).
  rewrite (py_int_eq fov 39) by (try lia; lra).
  reflexivity.
Qed.

Lemma default_prompt (float_repr : R -> string) (json_dumps : json -> string) :
  fst (generate_prompt float_repr json_dumps default_camera_info 50 None "")
  = "medium shot. (camera distance 2.0 m 50mm FOV 39°)"%string.
Proof.
  rewrite generate_prompt_text by reflexivity.
  unfold default_camera_info.
  cbn [mbind option_bind ci_position ci_target ci_zoom default from_option Datatypes.id].
  rewrite default_distance, default_angles.
  cbn [fst snd num_val].
  rewrite default_position_prompt.
  destruct fov_50mm_bounds as (fov & -> & Hfov).
  rewrite default_shot_prompt by exact Hfov.
  unfold angle_type_of, vertical_angle_text_of. cbn [num_val].
  rewrite Rabs_R0. unfold Rgtb, EYE_LEVEL_TOLERANCE.
  rewrite (Rltb_false 5.0 0) by lra.
  reflexivity.
Qed.
(** * Properties *)

(** ** C1 *)

(** C1, as the code has it: when the framing tier gives nothing and
    [distance_meters] is exactly 0.6, the distance tier selects
    "extreme close-up".  The ranges of the table include both ends and the
    first match wins, so 0.6 is the inclusive upper bound of 0.3-0.6;
    "close-up" is selected above 0.6 and up to 1.2. *)
Theorem shot_at_distance_06 (distance : R) (zoom : pynum)
  (fov focal_length_mm object_scale_meters : option R) :
  distance * GRID_TO_METERS = 0.6 ->
  framing_tier 0.6 (estimated_focal_of fov focal_length_mm) object_scale_meters = None ->
  shot_type_of 0.6 fov (estimated_focal_of fov focal_length_mm) object_scale_meters
  = "extreme close-up"%string
  /\ (exists info : string,
        _get_shot_type_prompt distance zoom fov focal_length_mm object_scale_meters
        = "extreme close-up (" +:+ info +:+ ")")
  /\ (forall distance_meters : R,
        0.6 < distance_meters <= 1.2 ->
        framing_tier distance_meters (estimated_focal_of fov focal_length_mm)
          object_scale_meters = None ->
        shot_type_of distance_meters fov (estimated_focal_of fov focal_length_mm)
          object_scale_meters = "close-up"%string).
Proof.
  intros Hd Hf.
  assert (H06 : shot_type_of 0.6 fov (estimated_focal_of fov focal_length_mm)
                  object_scale_meters = "extreme close-up"%string).
  { apply shot_type_of_distance_tier; [exact Hf |].
    apply scan_distance_extreme_close_up. lra. }
  split; [exact H06 | split].
  - unfold _get_shot_type_prompt. rewrite Hd. cbv zeta. rewrite H06.
    eexists. reflexivity.
  - intros distance_meters Hr Hf'.
    apply shot_type_of_distance_tier; [exact Hf' |].
    apply scan_distance_close_up. exact Hr.
Qed.

Lemma shot_at_distance_06_witness :
  0.15 * GRID_TO_METERS = 0.6
  /\ framing_tier 0.6 (estimated_focal_of None None) None = None
  /\ shot_type_of 0.6 None (estimated_focal_of None None) None
     = "extreme close-up"%string.
Proof.
  assert (Hd : 0.15 * GRID_TO_METERS = 0.6) by (unfold GRID_TO_METERS; lra).
  assert (Hf : framing_tier 0.6 (estimated_focal_of None None) None = None)
    by reflexivity.
  split; [exact Hd | split; [exact Hf |]].
  exact (proj1 (shot_at_distance_06 0.15 (PyInt 1) None None None Hd Hf)).
Defined.

(** C1 as the specification states it fails: a grid distance of 0.15 is
    0.6 m, no object scale is given, and the classifier answers
    "extreme close-up", not "close-up". *)
Lemma shot_at_distance_06_not_close_up :
  _get_shot_type_prompt 0.15 (PyInt 1) None None None
  = "extreme close-up (camera distance 0.6 m)"%string.
Proof.
  unfold _get_shot_type_prompt.
  replace (0.15 * GRID_TO_METERS) with 0.6 by (unfold GRID_TO_METERS; lra).
  cbv zeta. unfold shot_type_of, framing_tier, estimated_focal_of.
  rewrite scan_distance_extreme_close_up by lra.
  rewrite (format_1f_near 0.6 6) by lra.
  reflexivity.
Qed.

(** ** C2 *)

(** C2: for a pitch beyond the eye-level tolerance and no roll, the name
    returned by [_get_angle_type_name] is the lowercase name of the first
    entry of the tilt table, in the order of declaration, whose range
    contains [- pitch], both ends included; when no range contains it,
    the name is the one of the numeric fallback. *)
Theorem angle_name_is_first_table_match (pitch : R) :
  Rabs pitch > 5 ->
  Spec.classify_angle pitch = Some (_get_angle_type_name pitch 0).
Proof.
  intros H. unfold _get_angle_type_name, Spec.classify_angle.
  rewrite Rabs_R0. unfold_constants. decide_cmp. cbn [andb].
  rewrite angle_fallback_thresholds.
  unfold CAMERA_ANGLES, Spec.tilt_range_contains.
  cbn [scan_tilt List.find angle_tilt_deg angle_name].
  rewrite (eye_level_excluded pitch H).
  repeat match goal with
         | |- context [in_range ?r ?v] => destruct (in_range r v)
         end; reflexivity.
Qed.

Lemma angle_name_is_first_table_match_witness :
  Rabs (-20) > 5
  /\ Spec.classify_angle (-20) = Some (_get_angle_type_name (-20) 0).
Proof.
  assert (H : Rabs (-20) > 5) by (rewrite Rabs_left; lra).
  split; [exact H | exact (angle_name_is_first_table_match (-20) H)].
Defined.

(** ** C3 *)

(** C3: with no [camera_info], or an empty one, [generate_prompt] returns
    the empty prompt and the document [{}], whatever the other
    arguments. *)
Theorem generate_prompt_without_camera_info (float_repr : R -> string)
  (json_dumps : json -> string) (focal_length_mm : R)
  (object_scale_meters : option R) (custom_description : string) :
  generate_prompt float_repr json_dumps None focal_length_mm object_scale_meters
    custom_description = (""%string, "{}"%string)
  /\ generate_prompt float_repr json_dumps
       (Some {| ci_position := None; ci_target := None; ci_zoom := None |})
       focal_length_mm object_scale_meters custom_description
     = (""%string, "{}"%string).
Proof. split; reflexivity. Qed.

(** ** C4 *)

(** C4, as the code has it: when position and target are both non-empty,
    pitch and yaw are floats that follow the formulas of the
    specification (the arctangent in degrees above the threshold 0.001,
    else 90 or -90 for the pitch and 0 for the yaw) and roll is 0.0; when
    one of them is empty or absent the result is (0, 0, 0).  Roll is 0 in
    every case. *)
Theorem camera_angles_formula (position target : Point3) :
  (position = ∅ \/ target = ∅ ->
     _calculate_camera_angles position target = (PyInt 0, PyInt 0, PyInt 0))
  /\ (position <> ∅ -> target <> ∅ ->
      exists pitch yaw : R,
        _calculate_camera_angles position target
        = (PyFloat pitch, PyFloat yaw, PyFloat 0)
        /\ Spec.pitch_spec position target pitch
        /\ Spec.yaw_spec position target yaw)
  /\ num_val (snd (_calculate_camera_angles position target)) = 0.
Proof.
  split; [| split].
  - intros H. unfold _calculate_camera_angles. rewrite (either_empty _ _ H). reflexivity.
  - intros H1 H2. unfold _calculate_camera_angles. rewrite (neither_empty _ _ H1 H2).
    cbv zeta. eexists. eexists. split.
    + replace 0.0 with 0 by lra. reflexivity.
    + unfold Spec.pitch_spec, Spec.yaw_spec, Spec.horizontal, Spec.offset, Rsqr, Rgtb.
      cbv zeta.
      repeat split; intros;
        repeat match goal with
          | |- context [Rltb ?a ?b] =>
              first [ rewrite (Rltb_true a b) by lra | rewrite (Rltb_false a b) by lra ]
          end; try reflexivity; lra.
  - unfold _calculate_camera_angles.
    destruct (is_empty position || is_empty target); simpl; lra.
Qed.

Lemma camera_angles_formula_witness :
  exists pitch yaw : R,
    _calculate_camera_angles DEFAULT_POSITION DEFAULT_TARGET
    = (PyFloat pitch, PyFloat yaw, PyFloat 0)
    /\ Spec.pitch_spec DEFAULT_POSITION DEFAULT_TARGET pitch
    /\ Spec.yaw_spec DEFAULT_POSITION DEFAULT_TARGET yaw.
Proof.
  exact (proj1 (proj2 (camera_angles_formula DEFAULT_POSITION DEFAULT_TARGET))
           (insert_non_empty _ _ _) (insert_non_empty _ _ _)).
Defined.

(** C4 as the specification states it fails: for an empty position and
    an empty target the offsets are all 0, so the formula of the
    specification asks for a pitch of -90; the code returns (0, 0, 0),
    and 0 is not a pitch the formula allows. *)
Lemma camera_angles_of_empty_dicts :
  _calculate_camera_angles ∅ ∅ = (PyInt 0, PyInt 0, PyInt 0)
  /\ Spec.pitch_spec ∅ ∅ (-90)
  /\ ~ Spec.pitch_spec ∅ ∅ (num_val (PyInt 0)).
Proof.
  assert (Hh : Spec.horizontal ∅ ∅ = 0).
  { unfold Spec.horizontal, Spec.offset. rewrite !get_empty.
    replace (Rsqr (0 - 0) + Rsqr (0 - 0)) with 0 by (unfold Rsqr; lra).
    apply sqrt_0. }
  assert (Hy : Spec.offset ∅ ∅ "y" = 0).
  { unfold Spec.offset. rewrite !get_empty. lra. }
  split; [reflexivity | split].
  - unfold Spec.pitch_spec. cbv zeta. rewrite Hh, Hy.
    repeat split; intros; lra.
  - unfold Spec.pitch_spec. cbv zeta. rewrite Hh, Hy. simpl.
    intros (_ & _ & H). specialize (H ltac:(lra) ltac:(lra)). lra.
Qed.

(** ** C5 *)

(** C5, as the code has it: the [distance_m] field of the record is the
    grid distance multiplied by 4 and rounded to 2 decimal places. *)
Theorem json_distance_m_rounding (float_repr : R -> string)
  (camera_info : option CameraInfo) (focal_length_mm : R)
  (object_scale_meters : option R) (custom_description : string) :
  not_camera_info camera_info = false ->
  let position := default ∅ (camera_info ≫= ci_position) in
  let target := default ∅ (camera_info ≫= ci_target) in
  exists fields : list (string * json),
    (forall json_dumps : json -> string,
        snd (generate_prompt float_repr json_dumps camera_info focal_length_mm
               object_scale_meters custom_description)
        = json_dumps (JObj [("camera"%string, JObj fields)]))
    /\ json_lookup "distance_m" fields
       = Some (JFloat (py_round (_calculate_distance position target * 4) 2)).
Proof.
  intros H. cbv zeta. eexists. split.
  - intros json_dumps. apply (generate_prompt_json _ _ _ _ _ _ H).
  - cbn [camera_data json_lookup String.eqb Ascii.eqb Bool.eqb].
    unfold GRID_TO_METERS. replace 4.0 with 4 by lra. reflexivity.
Qed.

Lemma json_distance_m_rounding_witness :
  not_camera_info side_camera_info = false
  /\ exists fields : list (string * json),
      (forall json_dumps : json -> string,
          snd (generate_prompt (fun _ => ""%string) json_dumps side_camera_info 50 None "")
          = json_dumps (JObj [("camera"%string, JObj fields)]))
      /\ json_lookup "distance_m" fields
         = Some (JFloat (py_round
                           (_calculate_distance
                              (default ∅ (side_camera_info ≫= ci_position))
                              (default ∅ (side_camera_info ≫= ci_target)) * 4) 2)).
Proof.
  assert (H : not_camera_info side_camera_info = false) by reflexivity.
  split; [exact H |].
  exact (json_distance_m_rounding (fun _ => ""%string) side_camera_info 50 None "" H).
Defined.

Lemma side_camera_distance :
  _calculate_distance (default ∅ (side_camera_info ≫= ci_position))
    (default ∅ (side_camera_info ≫= ci_target)) = 0.3125.
Proof.
  unfold _calculate_distance, side_camera_info.
  cbn [mbind option_bind ci_position ci_target default from_option Datatypes.id].
  rewrite neither_empty by apply insert_non_empty.
  rewrite !get_singleton. cbn [String.eqb Ascii.eqb Bool.eqb].
  apply sqrt_of_square; lra.
Qed.

(** C5 as the specification states it fails: a camera 0.3125 grid units
    from its target is 1.25 m away, and the record holds 1.25; rounded to
    1 decimal place it would hold 1.2. *)
Lemma json_distance_m_not_one_decimal :
  (forall float_repr : R -> string,
      exists fields : list (string * json),
        (forall json_dumps : json -> string,
            snd (generate_prompt float_repr json_dumps side_camera_info 50 None "")
            = json_dumps (JObj [("camera"%string, JObj fields)]))
        /\ json_lookup "distance_m" fields = Some (JFloat 1.25))
  /\ py_round 1.25 1 = 1.2
  /\ 1.25 <> 1.2.
Proof.
  split; [| split].
  - intros float_repr. eexists. split.
    + intros json_dumps.
      apply (generate_prompt_json float_repr json_dumps side_camera_info 50 None "").
      reflexivity.
    + cbn [camera_data json_lookup String.eqb Ascii.eqb Bool.eqb].
      do 2 f_equal. rewrite side_camera_distance. unfold GRID_TO_METERS.
      rewrite (py_round_near _ 2 125) by (simpl; lra).
      simpl. lra.
  - unfold py_round. rewrite (round_half_even_tie _ 12) by (simpl; lra).
    simpl. lra.
  - lra.
Qed.

(** ** C6 *)

(** C6: [_calculate_distance] returns 0 when the position or the target
    is empty or absent, and otherwise the Euclidean norm of
    [position - target], a missing coordinate being 0: the square root of
    the sum of the squared offsets, which is the non-negative number whose
    square is that sum. *)
Theorem distance_is_euclidean_norm (position target : Point3) :
  (position = ∅ \/ target = ∅ -> _calculate_distance position target = 0)
  /\ (position <> ∅ -> target <> ∅ ->
      _calculate_distance position target
      = Spec.euclidean_norm (Spec.offset position target "x")
          (Spec.offset position target "y") (Spec.offset position target "z")
      /\ Spec.is_euclidean_norm (Spec.offset position target "x")
           (Spec.offset position target "y") (Spec.offset position target "z")
           (_calculate_distance position target)).
Proof.
  split.
  - intros H. unfold _calculate_distance. rewrite (either_empty _ _ H). reflexivity.
  - intros H1 H2. rewrite (distance_unfold _ _ H1 H2).
    split; [reflexivity |].
    unfold Spec.is_euclidean_norm, Spec.euclidean_norm, Rsqr. split.
    + apply sqrt_pos.
    + apply sqrt_sqrt. nra.
Qed.

Lemma distance_is_euclidean_norm_witness :
  Spec.is_euclidean_norm (Spec.offset DEFAULT_POSITION DEFAULT_TARGET "x")
    (Spec.offset DEFAULT_POSITION DEFAULT_TARGET "y")
    (Spec.offset DEFAULT_POSITION DEFAULT_TARGET "z")
    (_calculate_distance DEFAULT_POSITION DEFAULT_TARGET).
Proof.
  exact (proj2 (proj2 (distance_is_euclidean_norm DEFAULT_POSITION DEFAULT_TARGET)
                  (insert_non_empty _ _ _) (insert_non_empty _ _ _))).
Defined.

(** ** C7 *)



(** The exception at work: 0.002 in front of the target the pitch
    is 0 and the yaw 180; scaled by 0.1 the horizontal distance and |dz|
    fall below 0.001, and the pitch becomes -90 and the yaw 0. *)
Example scaling_across_the_threshold :
  _calculate_camera_angles close_position close_target
  = (PyFloat 0, PyFloat 180, PyFloat 0)
  /\ _calculate_camera_angles (scale_point 0.1 close_position)
       (scale_point 0.1 close_target)
     = (PyFloat (-90), PyFloat 0, PyFloat 0).
Proof.
  assert (Ex : Spec.offset close_position close_target "x" = 0).
  { unfold Spec.offset, close_position, close_target. rewrite !get_singleton.
    cbn [String.eqb Ascii.eqb Bool.eqb]. lra. }
  assert (Ey : Spec.offset close_position close_target "y" = 0).
  { unfold Spec.offset, close_position, close_target. rewrite !get_singleton.
    cbn [String.eqb Ascii.eqb Bool.eqb]. lra. }
  assert (Ez : Spec.offset close_position close_target "z" = 0.002).
  { unfold Spec.offset, close_position, close_target. rewrite !get_singleton.
    cbn [String.eqb Ascii.eqb Bool.eqb]. lra. }
  assert (Eh : Spec.horizontal close_position close_target = 0.002).
  { unfold Spec.horizontal. rewrite Ex, Ez.
    apply sqrt_of_square; [lra | unfold Rsqr; lra]. }
  assert (Np : close_position <> ∅) by apply insert_non_empty.
  assert (Nt : close_target <> ∅) by apply insert_non_empty.
  split.
  - rewrite (camera_angles_unfold _ _ Np Nt). rewrite Eh, Ex, Ey, Ez.
    rewrite (Rabs_pos_eq 0.002) by lra.
    rewrite (Rltb_true 0.001 0.002) by lra.
    rewrite atan2_zero_ahead, atan2_zero_behind by lra.
    rewrite degrees_0, degrees_PI. reflexivity.
  - rewrite (camera_angles_unfold _ _ (scale_non_empty 0.1 _ Np) (scale_non_empty 0.1 _ Nt)).
    rewrite horizontal_scale, !offset_scale by lra. rewrite Eh, Ex, Ey, Ez.
    rewrite (Rabs_pos_eq (0.1 * 0.002)) by lra.
    rewrite (Rltb_false 0.001 (0.1 * 0.002)) by lra.
    rewrite (Rltb_false 0 (0.1 * 0)) by lra.
    reflexivity.
Qed.

(** ** C8 *)

(** C8: for position (0, 0.425, 0.5), target (0, 0.425, 0), a focal
    length of 50 mm and no object scale, the grid distance is 0.5 and the
    record holds a distance of 2.0; the pitch is 0, so there is neither an
    angle name nor a tilt phrase; the bearing is 0 with z above 0.1 and
    the position phrase is empty; the field of view of the 36 mm sensor
    truncates to 39; and the prompt is the shot clause alone,
    "medium shot. (camera distance 2.0 m 50mm FOV 39°)". *)
Theorem default_pose_scenario (float_repr : R -> string) :
  _calculate_distance DEFAULT_POSITION DEFAULT_TARGET = 0.5
  /\ _calculate_camera_angles DEFAULT_POSITION DEFAULT_TARGET
     = (PyFloat 0, PyFloat 180, PyFloat 0)
  /\ angle_type_of (PyFloat 0) (PyFloat 0) = None
  /\ vertical_angle_text_of (PyFloat 0) None = None
  /\ degrees (atan2 (Spec.offset DEFAULT_POSITION DEFAULT_TARGET "x")
                (Spec.offset DEFAULT_POSITION DEFAULT_TARGET "z")) = 0
  /\ Spec.offset DEFAULT_POSITION DEFAULT_TARGET "z" > 0.1
  /\ _get_camera_position_prompt DEFAULT_POSITION DEFAULT_TARGET 0 180 = ""%string
  /\ (exists fov : R,
        _calculate_fov_from_focal_length 50 true = Some fov
        /\ fov = degrees (2 * atan (36 / (2 * 50)))
        /\ py_int fov = 39%Z)
  /\ (forall json_dumps : json -> string,
        fst (generate_prompt float_repr json_dumps default_camera_info 50 None "")
        = "medium shot. (camera distance 2.0 m 50mm FOV 39°)"%string)
  /\ (exists fields : list (string * json),
        (forall json_dumps : json -> string,
            snd (generate_prompt float_repr json_dumps default_camera_info 50 None "")
            = json_dumps (JObj [("camera"%string, JObj fields)]))
        /\ json_lookup "distance_m" fields = Some (JFloat 2)).
Proof.
  repeat apply conj.
  - exact default_distance.
  - exact default_angles.
  - unfold angle_type_of. cbn [num_val]. rewrite Rabs_R0.
    unfold Rgtb, EYE_LEVEL_TOLERANCE. rewrite (Rltb_false 5.0 0) by lra. reflexivity.
  - unfold vertical_angle_text_of. cbn [num_val]. rewrite Rabs_R0.
    unfold Rgtb, EYE_LEVEL_TOLERANCE. rewrite (Rltb_false 5.0 0) by lra. reflexivity.
  - rewrite default_offset_x, default_offset_z.
    rewrite atan2_zero_ahead by lra. apply degrees_0.
  - rewrite default_offset_z. lra.
  - apply default_position_prompt.
  - destruct fov_50mm_bounds as (fov & Hfov & Hb).
    exists fov. split; [exact Hfov | split].
    + unfold _calculate_fov_from_focal_length in Hfov.
      rewrite Rleb_false in Hfov by lra. injection Hfov as <-.
      unfold SENSOR_WIDTH_MM. f_equal. replace 2.0 with 2 by lra.
      replace 36.0 with 36 by lra. reflexivity.
    + apply py_int_eq; [lia | lra].
  - intros json_dumps. apply default_prompt.
  - eexists. split.
    + intros json_dumps.
      apply (generate_prompt_json float_repr json_dumps default_camera_info 50 None "").
      reflexivity.
    + cbn [camera_data json_lookup String.eqb Ascii.eqb Bool.eqb].
      do 2 f_equal. unfold default_camera_info.
      cbn [mbind option_bind ci_position ci_target default from_option Datatypes.id].
      rewrite default_distance. unfold GRID_TO_METERS.
      rewrite (py_round_near _ 2 200) by (simpl; lra).
      simpl. lra.
Qed.

(** ** C9 *)

(** C9, as the code has it: whatever the camera_info, the roll that
    [generate_prompt] gets from the angle computation is 0 and the angle
    name that goes into the prompt is neither "dutch angle" nor
    "dutch low angle".  The [roll_deg] field is not always 0.0: an absent
    or empty camera_info gives the document [{}], which has no field at
    all; otherwise the field is the float 0.0 when position and target
    are both non-empty, and the integer 0 when one of them is empty or
    absent. *)
Theorem dutch_angle_unreachable (float_repr : R -> string)
  (camera_info : option CameraInfo) (focal_length_mm : R)
  (object_scale_meters : option R) (custom_description : string) :
  let position := default ∅ (camera_info ≫= ci_position) in
  let target := default ∅ (camera_info ≫= ci_target) in
  let angles := _calculate_camera_angles position target in
  let angle_type := angle_type_of (fst (fst angles)) (snd angles) in
  num_val (snd angles) = 0
  /\ angle_type <> Some "dutch angle"%string
  /\ angle_type <> Some "dutch low angle"%string
  /\ (not_camera_info camera_info = true ->
      forall json_dumps : json -> string,
        generate_prompt float_repr json_dumps camera_info focal_length_mm
          object_scale_meters custom_description
        = (""%string, "{}"%string))
  /\ (not_camera_info camera_info = false ->
      (exists camera_position_text vertical_angle_text shot_type_name camera_info_text,
          forall json_dumps : json -> string,
            fst (generate_prompt float_repr json_dumps camera_info focal_length_mm
                   object_scale_meters custom_description)
            = assemble_prompt camera_position_text vertical_angle_text angle_type
                shot_type_name camera_info_text custom_description)
      /\ (exists fields : list (string * json),
            (forall json_dumps : json -> string,
                snd (generate_prompt float_repr json_dumps camera_info focal_length_mm
                       object_scale_meters custom_description)
                = json_dumps (JObj [("camera"%string, JObj fields)]))
            /\ (position <> ∅ /\ target <> ∅ ->
                json_lookup "roll_deg" fields = Some (JFloat 0))
            /\ (position = ∅ \/ target = ∅ ->
                json_lookup "roll_deg" fields = Some (JInt 0)))).
Proof.
  cbv zeta.
  set (position := default ∅ (camera_info ≫= ci_position)).
  set (target := default ∅ (camera_info ≫= ci_target)).
  assert (Hroll : num_val (snd (_calculate_camera_angles position target)) = 0).
  { destruct (camera_roll_is_zero position target) as [-> | ->]; reflexivity. }
  destruct (angle_type_without_roll
              (fst (fst (_calculate_camera_angles position target))) _ Hroll)
    as [Hd Hdl].
  split; [exact Hroll | split; [exact Hd | split; [exact Hdl | split]]].
  - intros H json_dumps. unfold generate_prompt. rewrite H. reflexivity.
  - intros H. split.
    + do 4 eexists. intros json_dumps.
      apply (generate_prompt_text _ _ _ _ _ _ H).
    + eexists. split; [| split].
      * intros json_dumps. apply (generate_prompt_json _ _ _ _ _ _ H).
      * intros [Hp Ht].
        cbn [camera_data json_lookup String.eqb Ascii.eqb Bool.eqb].
        fold position target. unfold _calculate_camera_angles.
        rewrite (neither_empty _ _ Hp Ht). cbn [snd py_round_num json_of_num].
        replace 0.0 with 0 by lra. rewrite py_round_0. reflexivity.
      * intros He.
        cbn [camera_data json_lookup String.eqb Ascii.eqb Bool.eqb].
        fold position target. unfold _calculate_camera_angles.
        rewrite (either_empty _ _ He). reflexivity.
Qed.

Lemma dutch_angle_unreachable_witness :
  not_camera_info default_camera_info = false
  /\ angle_type_of
       (fst (fst (_calculate_camera_angles
                    (default ∅ (default_camera_info ≫= ci_position))
                    (default ∅ (default_camera_info ≫= ci_target)))))
       (snd (_calculate_camera_angles
               (default ∅ (default_camera_info ≫= ci_position))
               (default ∅ (default_camera_info ≫= ci_target))))
     <> Some "dutch angle"%string
  /\ exists fields : list (string * json),
      (forall json_dumps : json -> string,
          snd (generate_prompt (fun _ => ""%string) json_dumps default_camera_info
                 50 None "")
          = json_dumps (JObj [("camera"%string, JObj fields)]))
      /\ json_lookup "roll_deg" fields = Some (JFloat 0).
Proof.
  assert (H : not_camera_info default_camera_info = false) by reflexivity.
  split; [exact H |].
  destruct (dutch_angle_unreachable (fun _ => ""%string) default_camera_info 50 None "")
    as (_ & Hd & _ & _ & Hrec).
  split; [exact Hd |].
  destruct (proj2 (Hrec H)) as (fields & Hj & Hfloat & _).
  exists fields. split; [exact Hj |].
  apply Hfloat. split; apply insert_non_empty.
Defined.

(** C9 as the specification states it fails on the record: with no
    camera_info the document is [{}] and has no [roll_deg] field, and a
    camera_info that holds a zoom and no pose has the integer 0 there,
    which is written [0] and not [0.0]. *)
Lemma roll_deg_not_always_float :
  generate_prompt (fun _ => ""%string) (fun _ => ""%string) None 50 None ""
  = (""%string, "{}"%string)
  /\ (exists fields : list (string * json),
        (forall json_dumps : json -> string,
            snd (generate_prompt (fun _ => ""%string) json_dumps zoom_only_camera_info
                   50 None "")
            = json_dumps (JObj [("camera"%string, JObj fields)]))
        /\ json_lookup "roll_deg" fields = Some (JInt 0))
  /\ JInt 0 <> JFloat 0.
Proof.
  split; [reflexivity | split; [| discriminate]].
  eexists. split.
  - intros json_dumps.
    apply (generate_prompt_json (fun _ => ""%string) json_dumps zoom_only_camera_info
             50 None "").
    reflexivity.
  - reflexivity.
Qed.

(** ** C10 *)

(** C10: whenever the lateral offset is below 0.1 in absolute value and
    the camera is more than 0.1 in front of the target, the position
    phrase is empty, whatever the bearing. *)
Theorem position_phrase_suppressed_in_front (position target : Point3)
  (pitch yaw : R) :
  Rabs (Spec.offset position target "x") < 0.1 ->
  Spec.offset position target "z" > 0.1 ->
  _get_camera_position_prompt position target pitch yaw = ""%string.
Proof.
  unfold Spec.offset. intros Hx Hz. unfold _get_camera_position_prompt, safe_float.
  destruct (is_empty position || is_empty target); [reflexivity |].
  cbv zeta.
  set (pos_x := get position "x" 0 - get target "x" 0) in *.
  set (pos_z := get position "z" 0 - get target "z" 0) in *.
  pose proof (horizontal_ge_dz pos_x pos_z ltac:(lra)) as Hh.
  rewrite (Rltb_false (sqrt _) 0.001) by lra.
  unfold Rgtb. rewrite (Rltb_true 0.1 pos_z) by lra.
  rewrite andb_true_r.
  match goal with |- (if ?b then _ else _) = _ => destruct b end; [reflexivity |].
  rewrite (Rltb_false pos_z (-0.1)) by lra.
  rewrite (Rltb_true (Rabs pos_x) 0.1) by lra.
  reflexivity.
Qed.

Lemma oblique_offsets :
  Spec.offset oblique_position origin_target "x" = 0.09
  /\ Spec.offset oblique_position origin_target "z" = 0.11.
Proof.
  unfold Spec.offset.
  change (get oblique_position "x" 0) with 0.09.
  change (get oblique_position "z" 0) with 0.11.
  change (get origin_target "x" 0) with 0.
  change (get origin_target "z" 0) with 0.
  split; lra.
Qed.

(** The example given with C10: 0.09 to the side and 0.11 ahead, a bearing
    between 39 and 40 degrees, and no position phrase. *)
Lemma position_phrase_suppressed_in_front_witness :
  Rabs (Spec.offset oblique_position origin_target "x") < 0.1
  /\ Spec.offset oblique_position origin_target "z" > 0.1
  /\ 39 <= degrees (atan2 (Spec.offset oblique_position origin_target "x")
                      (Spec.offset oblique_position origin_target "z")) < 40
  /\ _get_camera_position_prompt oblique_position origin_target 0 0 = ""%string.
Proof.
  destruct oblique_offsets as [Ex Ez].
  assert (Hx : Rabs (Spec.offset oblique_position origin_target "x") < 0.1)
    by (rewrite Ex, Rabs_pos_eq; lra).
  assert (Hz : Spec.offset oblique_position origin_target "z" > 0.1)
    by (rewrite Ez; lra).
  split; [exact Hx | split; [exact Hz | split]].
  - rewrite Ex, Ez. exact oblique_bearing.
  - exact (position_phrase_suppressed_in_front oblique_position origin_target 0 0 Hx Hz).
Defined.

(** * Further properties *)

(** ** The angle classifier *)

(** Decides the comparisons one at a time, dropping after each one the
    branch that is not taken. *)
Ltac decide_branches :=
  unfold Rgeb, Rgtb in *;
  repeat (match goal with
          | |- context [Rleb ?a ?b] =>
              first [ rewrite (Rleb_true a b) by lra | rewrite (Rleb_false a b) by lra ]
          | |- context [Rltb ?a ?b] =>
              first [ rewrite (Rltb_true a b) by lra | rewrite (Rltb_false a b) by lra ]
          end; rewrite ?andb_false_r, ?andb_true_r; cbv iota; cbn [andb orb]).

(** A range declared with its ends reversed contains nothing. *)
Lemma in_range_reversed (lo hi v : R) : hi < lo -> in_range (lo, hi) v = false.
Proof.
  intros H. unfold in_range. cbn [fst snd].
  destruct (Rle_lt_dec lo v).
  - rewrite (Rleb_false v hi) by lra. apply andb_false_r.
  - rewrite (Rleb_false lo v) by lra. reflexivity.
Qed.

(** Settles the angle classifier once pitch and roll are placed by
    hypotheses. *)
Ltac settle_angle_name :=
  unfold _get_angle_type_name, CAMERA_ANGLES, angle_fallback;
  cbn [scan_dutch_low scan_tilt angle_name angle_tilt_deg angle_roll_deg
         String.eqb Ascii.eqb Bool.eqb];
  rewrite !(in_range_reversed (-20) (-45)), !(in_range_reversed (-80) (-90)) by lra;
  unfold in_range; cbn [fst snd]; unfold_constants;
  decide_branches;
  repeat match goal with
         | |- context [Rleb ?a ?b] => destruct (Rleb a b)
         | |- context [Rltb ?a ?b] => destruct (Rltb a b)
         end;
  reflexivity.

(** X1: without roll the angle name is decided by the pitch alone: a
    positive pitch is "high angle" below 75 and "bird's eye view" from 75
    on; a pitch in (-5, 0] is "low angle"; below, the low angles follow
    the tilt table, "slight" down to -15, "standard" down to -30, "deep"
    down to -45 and "extreme" beyond.  The table entries for High Angle
    and Bird's Eye never decide. *)
Theorem angle_name_by_pitch (pitch : R) :
  (75 <= pitch -> _get_angle_type_name pitch 0 = "bird's eye view"%string)
  /\ (0 < pitch < 75 -> _get_angle_type_name pitch 0 = "high angle"%string)
  /\ (-5 < pitch <= 0 -> _get_angle_type_name pitch 0 = "low angle"%string)
  /\ (-15 <= pitch <= -5 -> _get_angle_type_name pitch 0 = "slight low angle"%string)
  /\ (-30 <= pitch < -15 -> _get_angle_type_name pitch 0 = "standard low angle"%string)
  /\ (-45 <= pitch < -30 -> _get_angle_type_name pitch 0 = "deep low angle"%string)
  /\ (pitch < -45 -> _get_angle_type_name pitch 0 = "extreme low angle"%string).
Proof.
  repeat split; intros H;
    unfold _get_angle_type_name; rewrite Rabs_R0;
    destruct (Rle_lt_dec (-90) pitch); try (exfalso; lra); settle_angle_name.
Qed.

(** X2: a roll below 5 degrees in absolute value plays no part: the
    angle name is the one of the pitch alone. *)
Theorem small_roll_is_ignored (pitch roll : R) :
  Rabs roll < 5 ->
  _get_angle_type_name pitch roll = _get_angle_type_name pitch 0.
Proof.
  intros H. unfold _get_angle_type_name. rewrite Rabs_R0.
  unfold Rgeb, DUTCH_ANGLE_ROLL_MIN.
  rewrite (Rleb_false 10 (Rabs roll)), (Rleb_false 5.0 (Rabs roll)) by lra.
  rewrite (Rleb_false 10 0), (Rleb_false 5.0 0) by lra.
  reflexivity.
Qed.

Lemma small_roll_is_ignored_witness :
  Rabs 3 < 5 /\ _get_angle_type_name (-20) 3 = _get_angle_type_name (-20) 0.
Proof.
  assert (H : Rabs 3 < 5) by (rewrite Rabs_pos_eq; lra).
  split; [exact H | exact (small_roll_is_ignored (-20) 3 H)].
Defined.

(** X3: from a roll of 5 degrees on, the pitch no longer names the
    angle: the name is "dutch low angle" when the camera looks up
    (negative pitch) with a roll between 10 and 45 degrees, and
    "dutch angle" in every other case, also beyond the 30 degrees of the
    Dutch Angle entry of the table. *)
Theorem roll_names_the_angle (pitch roll : R) :
  5 <= Rabs roll ->
  (10 <= Rabs roll <= 45 /\ pitch < 0 ->
   _get_angle_type_name pitch roll = "dutch low angle"%string)
  /\ (Rabs roll < 10 \/ 45 < Rabs roll \/ 0 <= pitch ->
      _get_angle_type_name pitch roll = "dutch angle"%string).
Proof.
  intros H. split.
  - intros [[H1 H2] Hp]. settle_angle_name.
  - intros [H1 | [H1 | H1]].
    + settle_angle_name.
    + destruct (Rlt_le_dec pitch 0); settle_angle_name.
    + settle_angle_name.
Qed.

Lemma roll_names_the_angle_witness :
  5 <= Rabs 40
  /\ _get_angle_type_name 20 40 = "dutch angle"%string
  /\ _get_angle_type_name (-20) 40 = "dutch low angle"%string.
Proof.
  assert (E : Rabs 40 = 40) by (apply Rabs_pos_eq; lra).
  assert (H : 5 <= Rabs 40) by (rewrite E; lra).
  split; [exact H | split].
  - apply (proj2 (roll_names_the_angle 20 40 H)). right. right. lra.
  - apply (proj1 (roll_names_the_angle (-20) 40 H)). rewrite E. lra.
Defined.

(** The names the angle classifier can answer. *)
Lemma angle_name_without_roll_is_known (pitch : R) :
  In (_get_angle_type_name pitch 0) Cover.angle_names.
Proof.
  unfold _get_angle_type_name. rewrite Rabs_R0. unfold_constants. decide_cmp.
  cbn [andb]. unfold CAMERA_ANGLES. cbn [scan_tilt angle_tilt_deg angle_name].
  repeat match goal with
         | |- context [in_range ?r ?v] => destruct (in_range r v)
         end; cbn [angle_label String.eqb Ascii.eqb Bool.eqb];
    try (unfold Cover.angle_names; cbn [In]; tauto).
  all: unfold angle_fallback, Rgeb, Rgtb.
  all: repeat match goal with
         | |- context [Rleb ?a ?b] => destruct (Rleb a b)
         | |- context [Rltb ?a ?b] => destruct (Rltb a b)
         end;
    unfold Cover.angle_names; cbn [In]; tauto.
Qed.

Lemma angle_name_with_roll (pitch roll : R) :
  _get_angle_type_name pitch roll = "dutch low angle"%string
  \/ _get_angle_type_name pitch roll = "dutch angle"%string
  \/ _get_angle_type_name pitch roll = _get_angle_type_name pitch 0.
Proof.
  destruct (Rlt_le_dec (Rabs roll) 5) as [H | H].
  - right. right. unfold _get_angle_type_name. rewrite Rabs_R0.
    unfold Rgeb, DUTCH_ANGLE_ROLL_MIN.
    rewrite (Rleb_false 10 (Rabs roll)), (Rleb_false 5.0 (Rabs roll)) by lra.
    rewrite (Rleb_false 10 0), (Rleb_false 5.0 0) by lra.
    reflexivity.
  - unfold _get_angle_type_name at 1 2. unfold Rgeb, DUTCH_ANGLE_ROLL_MIN.
    rewrite (Rleb_true 5.0 (Rabs roll)) by lra.
    unfold CAMERA_ANGLES.
    cbn [scan_dutch_low angle_name angle_roll_deg String.eqb Ascii.eqb Bool.eqb].
    destruct (Rleb 10 (Rabs roll) && Rltb pitch 0);
      [destruct (in_range (10, 45) (Rabs roll)) |]; auto.
Qed.

Lemma angle_name_in_names (pitch roll : R) :
  In (_get_angle_type_name pitch roll) Cover.angle_names.
Proof.
  destruct (angle_name_with_roll pitch roll) as [-> | [-> | ->]].
  - unfold Cover.angle_names; cbn [In]; tauto.
  - unfold Cover.angle_names; cbn [In]; tauto.
  - apply angle_name_without_roll_is_known.
Qed.

Lemma angle_name_truthy (pitch roll : R) :
  PyStr.truthy (_get_angle_type_name pitch roll) = true.
Proof.
  pose proof (angle_name_in_names pitch roll) as H.
  unfold Cover.angle_names in H. cbn [In] in H.
  repeat destruct H as [H | H]; try (rewrite <- H; reflexivity). contradiction.
Qed.

(** X4: whatever the pitch and the roll, the angle classifier answers
    one of nine names; it has no empty answer and no name for eye
    level. *)
Theorem angle_name_is_known (pitch roll : R) :
  In (_get_angle_type_name pitch roll) Cover.angle_names
  /\ _get_angle_type_name pitch roll <> ""%string.
Proof.
  split; [apply angle_name_in_names |].
  intros E. pose proof (angle_name_truthy pitch roll) as H.
  rewrite E in H. discriminate H.
Qed.

Lemma py_int_floor (x : R) :
  0 <= x -> IZR (py_int x) <= x < IZR (py_int x) + 1.
Proof.
  intros H. unfold py_int. rewrite Rleb_true by exact H.
  destruct (base_Int_part x) as [H1 H2]. lra.
Qed.

(** X5: the tilt phrase and the angle name come together, exactly when
    the pitch is more than 5 degrees away from level: the phrase is
    "tilt down at N degree" for a positive pitch and "tilt up at N degree"
    for a negative one, N being the magnitude of the pitch truncated to
    an integer, at least 5. *)
Theorem tilt_phrase_with_angle_name (pitch roll : pynum) :
  (Rabs (num_val pitch) <= 5 ->
   angle_type_of pitch roll = None
   /\ vertical_angle_text_of pitch (angle_type_of pitch roll) = None)
  /\ (Rabs (num_val pitch) > 5 ->
      angle_type_of pitch roll
      = Some (_get_angle_type_name (num_val pitch) (num_val roll))
      /\ exists degree : Z,
          (5 <= degree)%Z
          /\ IZR degree <= Rabs (num_val pitch) < IZR degree + 1
          /\ vertical_angle_text_of pitch (angle_type_of pitch roll)
             = Some ((if Rltb 0 (num_val pitch) then "tilt down at " else "tilt up at ")
                       +:+ Z_to_string degree +:+ " degree")).
Proof.
  split; intros H.
  - assert (E : angle_type_of pitch roll = None).
    { unfold angle_type_of, Rgtb, EYE_LEVEL_TOLERANCE.
      rewrite Rltb_false by lra. reflexivity. }
    rewrite E. split; [reflexivity |].
    unfold vertical_angle_text_of, Rgtb, EYE_LEVEL_TOLERANCE.
    rewrite Rltb_false by lra. reflexivity.
  - assert (E : angle_type_of pitch roll
                = Some (_get_angle_type_name (num_val pitch) (num_val roll))).
    { unfold angle_type_of, Rgtb, EYE_LEVEL_TOLERANCE.
      rewrite Rltb_true by lra. reflexivity. }
    rewrite E. split; [reflexivity |].
    exists (py_int (Rabs (num_val pitch))).
    pose proof (py_int_floor (Rabs (num_val pitch)) (Rabs_pos _)) as [F1 F2].
    split; [| split; [split; assumption |]].
    + assert (IZR 4 < IZR (py_int (Rabs (num_val pitch)))) by lra.
      apply lt_IZR in H0. lia.
    + unfold vertical_angle_text_of, Rgtb, EYE_LEVEL_TOLERANCE, opt_truthy.
      rewrite Rltb_true by lra. rewrite angle_name_truthy. cbn [andb].
      destruct (Rltb 0 (num_val pitch)); reflexivity.
Qed.

(** ** Distance and angles *)

(** X6: the distance is never negative, is the same from the target to
    the position as from the position to the target, and is 0 when the
    three offsets are 0. *)
Theorem distance_is_symmetric (position target : Point3) :
  0 <= _calculate_distance position target
  /\ _calculate_distance position target = _calculate_distance target position
  /\ (Spec.offset position target "x" = 0 ->
      Spec.offset position target "y" = 0 ->
      Spec.offset position target "z" = 0 ->
      _calculate_distance position target = 0).
Proof.
  split; [| split].
  - unfold _calculate_distance.
    destruct (is_empty position || is_empty target); [apply Rle_refl | apply sqrt_pos].
  - unfold _calculate_distance. rewrite (orb_comm (is_empty target)).
    destruct (is_empty position || is_empty target); [reflexivity |].
    cbv zeta. f_equal. ring.
  - unfold Spec.offset, _calculate_distance. intros -> -> ->.
    destruct (is_empty position || is_empty target); [reflexivity |].
    cbv zeta. replace (0 * 0 + 0 * 0 + 0 * 0) with 0 by ring. apply sqrt_0.
Qed.

Lemma atan_pos (x : R) : 0 < x -> 0 < atan x.
Proof. intros H. rewrite <- atan_0. apply atan_increasing. exact H. Qed.

Lemma atan_neg (x : R) : x < 0 -> atan x < 0.
Proof. intros H. rewrite <- atan_0. apply atan_increasing. exact H. Qed.

Lemma Rdiv_neg_pos (y x : R) : y < 0 -> x < 0 -> 0 < y / x.
Proof.
  intros Hy Hx. unfold Rdiv.
  assert (/ x < 0) by (apply Rinv_lt_0_compat; exact Hx). nra.
Qed.

Lemma Rdiv_pos_neg (y x : R) : 0 <= y -> x < 0 -> y / x <= 0.
Proof.
  intros Hy Hx. unfold Rdiv.
  assert (/ x < 0) by (apply Rinv_lt_0_compat; exact Hx). nra.
Qed.

Lemma atan2_range (y x : R) : - PI < atan2 y x <= PI.
Proof.
  pose proof PI_pos as Hpi. pose proof (atan_bound (y / x)) as [B1 B2].
  unfold atan2.
  destruct (Rlt_le_dec 0 x) as [Hx | Hx].
  - rewrite Rltb_true by exact Hx. lra.
  - rewrite Rltb_false by exact Hx.
    destruct (Rlt_le_dec x 0) as [Hx' | Hx'].
    + rewrite Rltb_true by exact Hx'.
      destruct (Rle_lt_dec 0 y) as [Hy | Hy].
      * rewrite Rleb_true by exact Hy.
        pose proof (Rdiv_pos_neg y x Hy Hx') as Hq.
        destruct (Req_dec (y / x) 0) as [E | E].
        -- rewrite E, atan_0. lra.
        -- pose proof (atan_neg (y / x) ltac:(lra)). lra.
      * rewrite Rleb_false by exact Hy.
        pose proof (atan_pos _ (Rdiv_neg_pos y x Hy Hx')). lra.
    + rewrite Rltb_false by exact Hx'.
      destruct (Rltb 0 y); [lra |]. destruct (Rltb y 0); lra.
Qed.

Lemma degrees_range (x : R) : - PI < x <= PI -> -180 < degrees x <= 180.
Proof.
  intros [H1 H2]. unfold degrees. pose proof PI_pos as Hpi.
  assert (Hk : 0 < 180 / PI) by (apply Rdiv_lt_0_compat; lra).
  assert (E : PI * (180 / PI) = 180) by (field; lra).
  split.
  - apply Rle_lt_trans with (- PI * (180 / PI)); [lra |].
    apply Rmult_lt_compat_r; assumption.
  - apply Rle_trans with (PI * (180 / PI)); [| lra].
    apply Rmult_le_compat_r; lra.
Qed.



(** X8: the pitch always lies between -90 and 90 degrees and the yaw
    between -180 and 180 degrees, the bounds included. *)
Theorem camera_angles_ranges (position target : Point3) :
  -90 <= num_val (fst (fst (_calculate_camera_angles position target))) <= 90
  /\ -180 <= num_val (snd (fst (_calculate_camera_angles position target))) <= 180.
Proof.
  destruct (is_empty position || is_empty target) eqn:E.
  - unfold _calculate_camera_angles. rewrite E. cbn [fst snd num_val]. lra.
  - apply orb_false_elim in E. destruct E as [E1 E2].
    apply is_empty_false in E1, E2.
    rewrite (camera_angles_unfold _ _ E1 E2). cbn [fst snd num_val].
    pose proof (horizontal_nonneg position target) as Hh.
    split.
    + destruct (Rlt_le_dec 0.001 (Spec.horizontal position target)) as [H | H].
      * rewrite Rltb_true by exact H.
        pose proof (degrees_atan2_lt_90 (Spec.offset position target "y")
                      (Spec.horizontal position target) ltac:(lra)). lra.
      * rewrite Rltb_false by exact H. destruct (Rltb 0 _); lra.
    + destruct (Rltb 0.001 _); [| lra].
      pose proof (degrees_range _ (atan2_range (Spec.offset position target "x")
                                     (- Spec.offset position target "z"))).
      lra.
Qed.



(** ** On the vertical and on the axis *)

Lemma abs_dz_le_horizontal (position target : Point3) :
  Rabs (Spec.offset position target "z") <= Spec.horizontal position target.
Proof.
  unfold Spec.horizontal. rewrite <- sqrt_Rsqr_abs.
  apply sqrt_le_1_alt. pose proof (Rle_0_sqr (Spec.offset position target "x")). lra.
Qed.

Lemma position_prompt_unfold (position target : Point3) (pitch yaw : R) :
  position <> ∅ -> target <> ∅ ->
  Spec.horizontal position target
  = sqrt ((safe_float (get position "x" 0) 0.0 - safe_float (get target "x" 0) 0.0)
          * (safe_float (get position "x" 0) 0.0 - safe_float (get target "x" 0) 0.0)
          + (safe_float (get position "z" 0) 0.0 - safe_float (get target "z" 0) 0.0)
            * (safe_float (get position "z" 0) 0.0 - safe_float (get target "z" 0) 0.0)).
Proof. intros _ _. reflexivity. Qed.

(** X10: when a non-empty position and target are less than 0.001 apart
    horizontally, the camera is taken to be on the vertical of its
    target: above it (pitch 90, "above object") when it is higher, below
    it (pitch -90, "below object") otherwise, also at the very same
    point; the yaw is 0. *)
Theorem camera_on_the_vertical (position target : Point3) (pitch yaw : R) :
  position <> ∅ -> target <> ∅ ->
  Spec.horizontal position target < 0.001 ->
  (0 < Spec.offset position target "y" ->
   _calculate_camera_angles position target = (PyFloat 90, PyFloat 0, PyFloat 0)
   /\ _get_camera_position_prompt position target pitch yaw = "above object"%string)
  /\ (Spec.offset position target "y" <= 0 ->
      _calculate_camera_angles position target = (PyFloat (-90), PyFloat 0, PyFloat 0)
      /\ _get_camera_position_prompt position target pitch yaw = "below object"%string).
Proof.
  intros E1 E2 H.
  pose proof (abs_dz_le_horizontal position target) as Hz.
  assert (Hp : forall dy_pos : bool,
             Rltb 0 (Spec.offset position target "y") = dy_pos ->
             _calculate_camera_angles position target
             = (PyFloat (if dy_pos then 90 else -90), PyFloat 0, PyFloat 0)
             /\ _get_camera_position_prompt position target pitch yaw
                = (if dy_pos then "above object" else "below object")%string).
  { intros dy_pos Hdy. split.
    - rewrite (camera_angles_unfold _ _ E1 E2).
      rewrite (Rltb_false 0.001 (Spec.horizontal position target)) by lra.
      rewrite (Rltb_false 0.001 (Rabs _)) by lra. rewrite Hdy. reflexivity.
    - unfold _get_camera_position_prompt. rewrite (neither_empty _ _ E1 E2).
      cbv zeta. rewrite <- (position_prompt_unfold _ _ pitch yaw E1 E2).
      rewrite (Rltb_true _ 0.001) by exact H.
      unfold Rgtb, safe_float. fold (Spec.offset position target "y").
      rewrite Hdy. reflexivity. }
  split; intros Hy.
  - apply (Hp true). apply Rltb_true. exact Hy.
  - apply (Hp false). apply Rltb_false. exact Hy.
Qed.

Lemma overhead_offsets :
  Spec.offset overhead_position origin_target "x" = 0
  /\ Spec.offset overhead_position origin_target "y" = 5
  /\ Spec.offset overhead_position origin_target "z" = 0.
Proof.
  unfold Spec.offset.
  change (get overhead_position "x" 0) with 0.
  change (get overhead_position "y" 0) with 5.
  change (get overhead_position "z" 0) with 0.
  change (get origin_target "x" 0) with 0.
  change (get origin_target "y" 0) with 0.
  change (get origin_target "z" 0) with 0.
  repeat split; lra.
Qed.

Lemma camera_on_the_vertical_witness :
  Spec.horizontal overhead_position origin_target < 0.001
  /\ 0 < Spec.offset overhead_position origin_target "y"
  /\ _calculate_camera_angles overhead_position origin_target
     = (PyFloat 90, PyFloat 0, PyFloat 0)
  /\ _get_camera_position_prompt overhead_position origin_target 90 0
     = "above object"%string.
Proof.
  destruct overhead_offsets as (Ex & Ey & Ez).
  assert (Hh : Spec.horizontal overhead_position origin_target < 0.001).
  { unfold Spec.horizontal. rewrite Ex, Ez.
    replace (Rsqr 0 + Rsqr 0) with 0 by (unfold Rsqr; ring). rewrite sqrt_0. lra. }
  assert (Hy : 0 < Spec.offset overhead_position origin_target "y")
    by (rewrite Ey; lra).
  split; [exact Hh | split; [exact Hy |]].
  exact (proj1 (camera_on_the_vertical overhead_position origin_target 90 0
                  (insert_non_empty _ _ _) (insert_non_empty _ _ _) Hh) Hy).
Defined.

(** X11: with the camera on the axis of its target (no lateral offset),
    the yaw is a half turn, 180 degrees in absolute value, when the
    camera is in front of the target, on the side of positive z, and 0
    when it is behind.  The sign of the half turn is left open: it is the
    sign of the zero offset, which the real numbers do not carry. *)
Theorem yaw_on_the_axis (position target : Point3) :
  position <> ∅ -> target <> ∅ ->
  Spec.offset position target "x" = 0 ->
  let yaw := snd (fst (_calculate_camera_angles position target)) in
  (0.001 < Spec.offset position target "z" ->
   exists yaw_deg : R, yaw = PyFloat yaw_deg /\ Rabs yaw_deg = 180)
  /\ (Spec.offset position target "z" < -0.001 -> yaw = PyFloat 0).
Proof.
  intros E1 E2 Hx. cbv zeta.
  rewrite (camera_angles_unfold _ _ E1 E2). cbn [fst snd]. rewrite Hx.
  split; intros Hz.
  - rewrite Rabs_pos_eq by lra. rewrite Rltb_true by lra.
    eexists. split; [reflexivity |].
    rewrite atan2_zero_behind by lra. rewrite degrees_PI.
    apply Rabs_pos_eq. lra.
  - rewrite Rabs_left by lra. rewrite Rltb_true by lra.
    rewrite atan2_zero_ahead by lra. rewrite degrees_0. reflexivity.
Qed.

Lemma yaw_on_the_axis_witness :
  Spec.offset DEFAULT_POSITION DEFAULT_TARGET "x" = 0
  /\ 0.001 < Spec.offset DEFAULT_POSITION DEFAULT_TARGET "z"
  /\ exists yaw_deg : R,
      snd (fst (_calculate_camera_angles DEFAULT_POSITION DEFAULT_TARGET))
      = PyFloat yaw_deg
      /\ Rabs yaw_deg = 180.
Proof.
  assert (Hz : 0.001 < Spec.offset DEFAULT_POSITION DEFAULT_TARGET "z")
    by (rewrite default_offset_z; lra).
  split; [exact default_offset_x | split; [exact Hz |]].
  exact (proj1 (yaw_on_the_axis DEFAULT_POSITION DEFAULT_TARGET
                  (insert_non_empty _ _ _) (insert_non_empty _ _ _) default_offset_x) Hz).
Defined.

(** X12: with a lateral offset below 0.1, a camera that is not more
    than 0.1 in front of its target (and at least 0.001 away from its
    vertical) gets the phrase "looking from behind", also when it stands
    in front of the target, between 0 and 0.1. *)
Theorem looking_from_behind (position target : Point3) (pitch yaw : R) :
  position <> ∅ -> target <> ∅ ->
  0.001 <= Spec.horizontal position target ->
  Rabs (Spec.offset position target "x") < 0.1 ->
  Spec.offset position target "z" <= 0.1 ->
  _get_camera_position_prompt position target pitch yaw = "looking from behind"%string.
Proof.
  intros E1 E2 Hh Hx Hz.
  unfold _get_camera_position_prompt. rewrite (neither_empty _ _ E1 E2).
  cbv zeta. rewrite <- (position_prompt_unfold _ _ pitch yaw E1 E2).
  rewrite (Rltb_false _ 0.001) by exact Hh.
  unfold safe_float.
  fold (Spec.offset position target "x"). fold (Spec.offset position target "z").
  unfold Rgtb. rewrite (Rltb_false 0.1 (Spec.offset position target "z")) by exact Hz.
  rewrite andb_false_r.
  rewrite (Rltb_true (Rabs _) 0.1) by exact Hx.
  destruct (Rltb (Spec.offset position target "z") (-0.1)); reflexivity.
Qed.

Lemma near_front_offsets :
  Spec.offset near_front_position origin_target "x" = 0
  /\ Spec.offset near_front_position origin_target "z" = 0.05.
Proof.
  unfold Spec.offset.
  change (get near_front_position "x" 0) with 0.
  change (get near_front_position "z" 0) with 0.05.
  change (get origin_target "x" 0) with 0.
  change (get origin_target "z" 0) with 0.
  split; lra.
Qed.

Lemma looking_from_behind_witness :
  0.001 <= Spec.horizontal near_front_position origin_target
  /\ Rabs (Spec.offset near_front_position origin_target "x") < 0.1
  /\ 0 < Spec.offset near_front_position origin_target "z" <= 0.1
  /\ _get_camera_position_prompt near_front_position origin_target 0 180
     = "looking from behind"%string.
Proof.
  destruct near_front_offsets as [Ex Ez].
  assert (Hh : 0.001 <= Spec.horizontal near_front_position origin_target).
  { unfold Spec.horizontal. rewrite Ex, Ez.
    rewrite (sqrt_of_square 0.05) by (unfold Rsqr; lra). lra. }
  assert (Hx : Rabs (Spec.offset near_front_position origin_target "x") < 0.1)
    by (rewrite Ex, Rabs_R0; lra).
  assert (Hz : Spec.offset near_front_position origin_target "z" <= 0.1)
    by (rewrite Ez; lra).
  split; [exact Hh | split; [exact Hx | split; [rewrite Ez; lra |]]].
  exact (looking_from_behind near_front_position origin_target 0 180
           (insert_non_empty _ _ _) (insert_non_empty _ _ _) Hh Hx Hz).
Defined.

(** ** Strings *)

Lemma append_cons (a : ascii) (s t : string) : String a s +:+ t = String a (s +:+ t).
Proof. reflexivity. Qed.

Lemma append_empty (t : string) : "" +:+ t = t.
Proof. reflexivity. Qed.

Lemma contains_app (c : ascii) (s t : string) :
  PyStr.contains c (s +:+ t) = PyStr.contains c s || PyStr.contains c t.
Proof.
  induction s as [| a s IH]; [reflexivity |].
  rewrite append_cons. cbn [PyStr.contains]. rewrite IH. apply orb_assoc.
Qed.

Lemma split_without (c : ascii) (s : string) :
  PyStr.contains c s = false -> PyStr.split c s = [s].
Proof.
  induction s as [| a s IH]; [reflexivity |].
  cbn [PyStr.contains PyStr.split]. intros H.
  apply orb_false_elim in H as [Ha Hs]. rewrite Ha, (IH Hs). reflexivity.
Qed.

Lemma split_at_first (c : ascii) (s t : string) :
  PyStr.contains c s = false ->
  PyStr.split c (s +:+ String c t) = s :: PyStr.split c t.
Proof.
  induction s as [| a s IH]; intros H.
  - rewrite append_empty. cbn [PyStr.split]. rewrite Ascii.eqb_refl. reflexivity.
  - cbn [PyStr.contains] in H. apply orb_false_elim in H as [Ha Hs].
    rewrite append_cons. cbn [PyStr.split]. rewrite Ha, (IH Hs). reflexivity.
Qed.

Lemma rstrip_keeps_end (a : ascii) (s : string) :
  PyStr.is_space a = false -> PyStr.rstrip (s +:+ String a "") = s +:+ String a "".
Proof.
  intros Ha. induction s as [| b s IH].
  - rewrite append_empty. cbn [PyStr.rstrip]. rewrite Ha. reflexivity.
  - rewrite append_cons. cbn [PyStr.rstrip]. rewrite IH.
    destruct s; reflexivity.
Qed.

Lemma rstrip_idempotent (s : string) : PyStr.rstrip (PyStr.rstrip s) = PyStr.rstrip s.
Proof.
  induction s as [| a s IH]; [reflexivity |].
  cbn [PyStr.rstrip]. destruct (PyStr.rstrip s) as [| b r] eqn:E.
  - destruct (PyStr.is_space a) eqn:Ha; [reflexivity |].
    cbn [PyStr.rstrip]. rewrite Ha. reflexivity.
  - cbn [PyStr.rstrip] in *. rewrite IH. reflexivity.
Qed.

Lemma lstrip_starts_without_space (s : string) :
  match PyStr.lstrip s with
  | EmptyString => True
  | String a _ => PyStr.is_space a = false
  end.
Proof.
  induction s as [| a s IH]; [exact I |].
  cbn [PyStr.lstrip]. destruct (PyStr.is_space a) eqn:Ha; [exact IH | exact Ha].
Qed.

Lemma rstrip_keeps_start (a : ascii) (s : string) :
  PyStr.is_space a = false ->
  exists r : string, PyStr.rstrip (String a s) = String a r.
Proof.
  intros Ha. cbn [PyStr.rstrip].
  destruct (PyStr.rstrip s); [rewrite Ha |]; eexists; reflexivity.
Qed.

Lemma strip_idempotent (s : string) : PyStr.strip (PyStr.strip s) = PyStr.strip s.
Proof.
  unfold PyStr.strip.
  pose proof (lstrip_starts_without_space s) as H.
  destruct (PyStr.lstrip s) as [| a t]; [reflexivity |].
  destruct (rstrip_keeps_start a t H) as [r E]. rewrite E.
  cbn [PyStr.lstrip]. rewrite H. rewrite <- E. apply rstrip_idempotent.
Qed.

Lemma digits_without (c : ascii) (d : Decimal.uint) :
  (nat_of_ascii c < 48)%nat ->
  PyStr.contains c (NilEmpty.string_of_uint d) = false.
Proof.
  intros Hc.
  assert (Hd : forall a : ascii, (48 <= nat_of_ascii a)%nat -> Ascii.eqb a c = false).
  { intros a Ha. apply Ascii.eqb_neq. intros ->. lia. }
  induction d; cbn [NilEmpty.string_of_uint PyStr.contains]; [reflexivity | ..];
    rewrite IHd; rewrite Hd by (apply Nat.leb_le; reflexivity); reflexivity.
Qed.

Lemma Z_to_string_without (c : ascii) (n : Z) :
  (nat_of_ascii c < 45)%nat -> PyStr.contains c (Z_to_string n) = false.
Proof.
  intros Hc.
  assert (Hu : forall d, PyStr.contains c (NilZero.string_of_uint d) = false).
  { intros d. unfold NilZero.string_of_uint.
    destruct d; try (apply digits_without; lia).
    cbn [PyStr.contains]. rewrite orb_false_r. apply Ascii.eqb_neq.
    intros <-. apply Nat.ltb_lt in Hc. discriminate Hc. }
  unfold Z_to_string, NilZero.string_of_int.
  destruct (Z.to_int n); [apply Hu |].
  cbn [PyStr.contains]. rewrite Hu, orb_false_r.
  apply Ascii.eqb_neq. intros <-. apply Nat.ltb_lt in Hc. discriminate Hc.
Qed.

Lemma format_1f_without_paren (x : R) : PyStr.contains "(" (format_1f x) = false.
Proof.
  unfold format_1f. cbv zeta. rewrite !contains_app.
  rewrite !(Z_to_string_without "(") by (apply Nat.ltb_lt; reflexivity).
  destruct (Rltb x 0); reflexivity.
Qed.

(** ** The shot classifier *)

(** Settles a scan of a table once the scanned value is placed by
    hypotheses. *)
Ltac settle_scan :=
  unfold FRAMING_THRESHOLDS, CAMERA_SHOTS;
  cbn [scan_framing scan_shots shot_name shot_distance_m shot_focal_length_mm
         shot_fov_deg];
  unfold in_range; cbn [fst snd];
  decide_branches; rewrite ?orb_true_r, ?orb_false_r;
  cbn [shot_label String.eqb Ascii.eqb Bool.eqb];
  try reflexivity.

Lemma scan_framing_by_percentage (pct : R) :
  (90 <= pct -> scan_framing pct FRAMING_THRESHOLDS = Some "extreme close-up"%string)
  /\ (60 <= pct < 90 -> scan_framing pct FRAMING_THRESHOLDS = Some "close-up"%string)
  /\ (45 <= pct < 60 -> scan_framing pct FRAMING_THRESHOLDS = Some "medium close-up"%string)
  /\ (30 <= pct < 45 -> scan_framing pct FRAMING_THRESHOLDS = Some "medium shot"%string)
  /\ (20 <= pct < 30 -> scan_framing pct FRAMING_THRESHOLDS = Some "medium long shot"%string)
  /\ (15 <= pct < 20 -> scan_framing pct FRAMING_THRESHOLDS = Some "full shot"%string)
  /\ (5 <= pct < 15 -> scan_framing pct FRAMING_THRESHOLDS = Some "wide shot"%string)
  /\ (0 <= pct < 5 -> scan_framing pct FRAMING_THRESHOLDS = Some "extreme wide shot"%string).
Proof. repeat split; intros H; settle_scan. Qed.

Lemma framing_unfold (object_scale distance_meters focal_length_mm : R)
  (use_horizontal : bool) :
  0 < object_scale -> 0 < distance_meters -> 0 < focal_length_mm ->
  _calculate_framing_shot_type (Some object_scale) distance_meters focal_length_mm
    use_horizontal
  = let pct := 100.0 * (focal_length_mm * (object_scale / distance_meters))
               / (if use_horizontal then SENSOR_WIDTH_MM else SENSOR_HEIGHT_MM) in
    match scan_framing pct FRAMING_THRESHOLDS with
    | Some shot_name => Some shot_name
    | None =>
        if Rgeb pct 100 then Some "extreme close-up"%string
        else if Rltb pct 0.1 then Some "extreme wide shot"%string
        else None
    end.
Proof.
  intros Hs Hd Hf. unfold _calculate_framing_shot_type.
  rewrite (Rleb_false object_scale 0), (Rleb_false distance_meters 0),
    (Rleb_false focal_length_mm 0) by lra.
  reflexivity.
Qed.

Lemma percentage_pos (object_scale distance_meters focal_length_mm : R)
  (use_horizontal : bool) :
  0 < object_scale -> 0 < distance_meters -> 0 < focal_length_mm ->
  0 < 100.0 * (focal_length_mm * (object_scale / distance_meters))
      / (if use_horizontal then SENSOR_WIDTH_MM else SENSOR_HEIGHT_MM).
Proof.
  intros Hs Hd Hf.
  apply Rdiv_lt_0_compat; [| destruct use_horizontal; unfold_constants; lra].
  apply Rmult_lt_0_compat; [lra |].
  apply Rmult_lt_0_compat; [lra |].
  apply Rdiv_lt_0_compat; lra.
Qed.

(** X13: with an object scale, a distance and a focal length that are
    positive, the framing classifier names the shot by the share of the
    sensor height that the object fills,
    100 * focal * (scale / distance) / 24 percent: "extreme close-up"
    from 90 on, "close-up" from 60, "medium close-up" from 45, "medium
    shot" from 30, "medium long shot" from 20, "full shot" from 15, "wide
    shot" from 5 and "extreme wide shot" below.  The overlapping entries
    of the table (30-60 and 15-30) are cut by the entry before them. *)
Theorem framing_shot_by_percentage (object_scale distance_meters focal_length_mm : R) :
  0 < object_scale -> 0 < distance_meters -> 0 < focal_length_mm ->
  let pct := 100 * (focal_length_mm * (object_scale / distance_meters)) / 24 in
  let shot :=
    _calculate_framing_shot_type (Some object_scale) distance_meters focal_length_mm
      false in
  (90 <= pct -> shot = Some "extreme close-up"%string)
  /\ (60 <= pct < 90 -> shot = Some "close-up"%string)
  /\ (45 <= pct < 60 -> shot = Some "medium close-up"%string)
  /\ (30 <= pct < 45 -> shot = Some "medium shot"%string)
  /\ (20 <= pct < 30 -> shot = Some "medium long shot"%string)
  /\ (15 <= pct < 20 -> shot = Some "full shot"%string)
  /\ (5 <= pct < 15 -> shot = Some "wide shot"%string)
  /\ (pct < 5 -> shot = Some "extreme wide shot"%string).
Proof.
  intros Hs Hd Hf. cbv zeta.
  rewrite (framing_unfold _ _ _ false Hs Hd Hf). cbv zeta.
  pose proof (percentage_pos _ _ _ false Hs Hd Hf) as Hp.
  unfold SENSOR_HEIGHT_MM in *.
  replace (100 * (focal_length_mm * (object_scale / distance_meters)) / 24)
    with (100.0 * (focal_length_mm * (object_scale / distance_meters)) / 24.0)
    by lra.
  set (pct := 100.0 * _ / 24.0) in *.
  destruct (scan_framing_by_percentage pct) as (H1 & H2 & H3 & H4 & H5 & H6 & H7 & H8).
  repeat split; intros H;
    [ rewrite H1 | rewrite H2 | rewrite H3 | rewrite H4 | rewrite H5 | rewrite H6
    | rewrite H7 | rewrite H8 ]; (reflexivity || lra).
Qed.

Lemma framing_shot_by_percentage_witness :
  90 <= 100 * (50 * (1 / 2)) / 24
  /\ _calculate_framing_shot_type (Some 1) 2 50 false = Some "extreme close-up"%string.
Proof.
  assert (H : 90 <= 100 * (50 * (1 / 2)) / 24) by lra.
  split; [exact H |].
  exact (proj1 (framing_shot_by_percentage 1 2 50 ltac:(lra) ltac:(lra) ltac:(lra)) H).
Defined.

Lemma scan_framing_some (pct : R) :
  0 <= pct ->
  exists name : string,
    scan_framing pct FRAMING_THRESHOLDS = Some name /\ In name Cover.shot_names.
Proof.
  intros H0.
  destruct (scan_framing_by_percentage pct) as (H1 & H2 & H3 & H4 & H5 & H6 & H7 & H8).
  destruct (Rle_lt_dec 90 pct); [rewrite H1 by lra |
  destruct (Rle_lt_dec 60 pct); [rewrite H2 by lra |
  destruct (Rle_lt_dec 45 pct); [rewrite H3 by lra |
  destruct (Rle_lt_dec 30 pct); [rewrite H4 by lra |
  destruct (Rle_lt_dec 20 pct); [rewrite H5 by lra |
  destruct (Rle_lt_dec 15 pct); [rewrite H6 by lra |
  destruct (Rle_lt_dec 5 pct); [rewrite H7 by lra | rewrite H8 by lra]]]]]]];
    eexists; (split; [reflexivity | unfold Cover.shot_names; cbn [In]; tauto]).
Qed.

(** The two outcomes of the framing classifier. *)
Lemma framing_shot_cases (object_scale_meters : option R)
  (distance_meters focal_length_mm : R) (use_horizontal : bool) :
  let shot :=
    _calculate_framing_shot_type object_scale_meters distance_meters focal_length_mm
      use_horizontal in
  (shot = None
   /\ (object_scale_meters = None
       \/ (exists object_scale, object_scale_meters = Some object_scale
                                /\ object_scale <= 0)
       \/ distance_meters <= 0 \/ focal_length_mm <= 0))
  \/ (exists object_scale name,
        object_scale_meters = Some object_scale /\ 0 < object_scale
        /\ 0 < distance_meters /\ 0 < focal_length_mm
        /\ shot = Some name /\ In name Cover.shot_names).
Proof.
  cbv zeta. destruct object_scale_meters as [object_scale |].
  2:{ left. split; [reflexivity | left; reflexivity]. }
  destruct (Rle_lt_dec object_scale 0) as [Hs | Hs].
  { left. split.
    - unfold _calculate_framing_shot_type. rewrite Rleb_true by exact Hs. reflexivity.
    - right. left. exists object_scale. auto. }
  destruct (Rle_lt_dec distance_meters 0) as [Hd | Hd].
  { left. split.
    - unfold _calculate_framing_shot_type. rewrite (Rleb_false object_scale) by exact Hs.
      rewrite (Rleb_true distance_meters) by exact Hd. reflexivity.
    - right. right. left. exact Hd. }
  destruct (Rle_lt_dec focal_length_mm 0) as [Hf | Hf].
  { left. split.
    - unfold _calculate_framing_shot_type. rewrite (Rleb_false object_scale) by exact Hs.
      rewrite (Rleb_true focal_length_mm) by exact Hf. rewrite orb_true_r. reflexivity.
    - right. right. right. exact Hf. }
  right. exists object_scale.
  rewrite (framing_unfold _ _ _ use_horizontal Hs Hd Hf). cbv zeta.
  pose proof (percentage_pos _ _ _ use_horizontal Hs Hd Hf) as Hp.
  destruct (scan_framing_some _ (Rlt_le _ _ Hp)) as (name & -> & Hin).
  exists name. auto 10.
Qed.

(** X14: the framing classifier gives no answer exactly when the object
    scale is missing or not positive, or the distance or the focal length
    is not positive; otherwise it answers one of the eight shot names, on
    either sensor dimension.  The tests after its table are never
    reached. *)
Theorem framing_shot_is_defined (object_scale_meters : option R)
  (distance_meters focal_length_mm : R) (use_horizontal : bool) :
  let shot :=
    _calculate_framing_shot_type object_scale_meters distance_meters focal_length_mm
      use_horizontal in
  (shot = None
   <-> object_scale_meters = None
       \/ (exists object_scale, object_scale_meters = Some object_scale
                                /\ object_scale <= 0)
       \/ distance_meters <= 0 \/ focal_length_mm <= 0)
  /\ (forall name : string, shot = Some name -> In name Cover.shot_names).
Proof.
  cbv zeta.
  destruct (framing_shot_cases object_scale_meters distance_meters focal_length_mm
              use_horizontal)
    as [[E H] | (s & name & Es & Hs & Hd & Hf & E & Hin)]; rewrite E.
  - split; [split; [intros _; exact H | reflexivity] | discriminate].
  - split.
    + split; [discriminate |]. subst object_scale_meters.
      intros [H | [(s' & H & Hle) | [H | H]]]; [discriminate | | lra | lra].
      injection H as <-. lra.
    + intros name' H. injection H as <-. exact Hin.
Qed.

Lemma scan_distance_by_range (distance_meters : R) :
  let scan := scan_shots shot_distance_m distance_meters CAMERA_SHOTS in
  (0.3 <= distance_meters <= 0.6 -> scan = Some "extreme close-up"%string)
  /\ (0.6 < distance_meters <= 1.2 -> scan = Some "close-up"%string)
  /\ (1.2 < distance_meters <= 1.8 -> scan = Some "medium close-up"%string)
  /\ (1.8 < distance_meters <= 3 -> scan = Some "medium shot"%string)
  /\ (3 < distance_meters <= 4 -> scan = Some "medium long shot"%string)
  /\ (4 < distance_meters <= 5 -> scan = Some "full shot"%string)
  /\ (5 < distance_meters <= 10 -> scan = Some "wide shot"%string)
  /\ (10 < distance_meters <= 50 -> scan = Some "extreme wide shot"%string)
  /\ (distance_meters < 0.3 \/ 50 < distance_meters -> scan = None).
Proof.
  cbv zeta. repeat split; intros H; try (destruct H as [H | H]); settle_scan.
Qed.

Lemma scan_fov_by_range (fov_deg : R) :
  let scan := scan_shots shot_fov_deg fov_deg CAMERA_SHOTS in
  (10 <= fov_deg <= 20 -> scan = Some "extreme close-up"%string)
  /\ (20 < fov_deg <= 30 -> scan = Some "close-up"%string)
  /\ (30 < fov_deg <= 40 -> scan = Some "medium close-up"%string)
  /\ (40 < fov_deg <= 45 -> scan = Some "medium shot"%string)
  /\ (45 < fov_deg <= 55 -> scan = Some "medium long shot"%string)
  /\ (55 < fov_deg <= 60 -> scan = Some "full shot"%string)
  /\ (60 < fov_deg <= 90 -> scan = Some "wide shot"%string)
  /\ (90 < fov_deg <= 120 -> scan = Some "extreme wide shot"%string)
  /\ (fov_deg < 10 \/ 120 < fov_deg -> scan = None).
Proof.
  cbv zeta. repeat split; intros H; try (destruct H as [H | H]); settle_scan.
Qed.

Lemma scan_focal_outside (focal : R) :
  focal < 14 \/ 135 < focal ->
  scan_shots shot_focal_length_mm focal CAMERA_SHOTS = None.
Proof. intros [H | H]; settle_scan. Qed.

(** X15: when the framing gives no answer, a distance between 0.3 m and
    50 m names the shot by the distance table alone, whatever the lens:
    the first entry that contains the distance decides, so that each
    overlapping range is cut by the one before it. *)
Theorem shot_by_distance (distance_meters : R)
  (fov estimated_focal object_scale_meters : option R) :
  framing_tier distance_meters estimated_focal object_scale_meters = None ->
  let shot := shot_type_of distance_meters fov estimated_focal object_scale_meters in
  (0.3 <= distance_meters <= 0.6 -> shot = "extreme close-up"%string)
  /\ (0.6 < distance_meters <= 1.2 -> shot = "close-up"%string)
  /\ (1.2 < distance_meters <= 1.8 -> shot = "medium close-up"%string)
  /\ (1.8 < distance_meters <= 3 -> shot = "medium shot"%string)
  /\ (3 < distance_meters <= 4 -> shot = "medium long shot"%string)
  /\ (4 < distance_meters <= 5 -> shot = "full shot"%string)
  /\ (5 < distance_meters <= 10 -> shot = "wide shot"%string)
  /\ (10 < distance_meters <= 50 -> shot = "extreme wide shot"%string).
Proof.
  intros Hf. cbv zeta.
  destruct (scan_distance_by_range distance_meters)
    as (H1 & H2 & H3 & H4 & H5 & H6 & H7 & H8 & _).
  repeat split; intros H; apply shot_type_of_distance_tier; auto.
Qed.

Lemma shot_by_distance_witness :
  framing_tier 4.5 (Some 50) None = None
  /\ shot_type_of 4.5 (Some 39.6) (Some 50) None = "full shot"%string.
Proof.
  assert (Hf : framing_tier 4.5 (Some 50) None = None) by reflexivity.
  split; [exact Hf |].
  apply (shot_by_distance 4.5 (Some 39.6) (Some 50) None Hf). lra.
Defined.

Lemma shot_type_of_fov_tier (distance_meters fov_deg : R)
  (estimated_focal object_scale_meters : option R) (name : string) :
  framing_tier distance_meters estimated_focal object_scale_meters = None ->
  scan_shots shot_distance_m distance_meters CAMERA_SHOTS = None ->
  scan_shots shot_fov_deg fov_deg CAMERA_SHOTS = Some name ->
  shot_type_of distance_meters (Some fov_deg) estimated_focal object_scale_meters = name.
Proof.
  intros Hf Hd Hs. unfold shot_type_of. rewrite Hf, Hd, Hs.
  destruct estimated_focal; reflexivity.
Qed.

(** X16: when the framing gives no answer and the distance is outside
    the distance table (below 0.3 m, as at distance 0, or above 50 m), a
    field of view between 10 and 120 degrees names the shot, by the first
    entry of the table whose range contains it. *)
Theorem shot_by_field_of_view (distance_meters fov_deg : R)
  (estimated_focal object_scale_meters : option R) :
  framing_tier distance_meters estimated_focal object_scale_meters = None ->
  distance_meters < 0.3 \/ 50 < distance_meters ->
  let shot :=
    shot_type_of distance_meters (Some fov_deg) estimated_focal object_scale_meters in
  (10 <= fov_deg <= 20 -> shot = "extreme close-up"%string)
  /\ (20 < fov_deg <= 30 -> shot = "close-up"%string)
  /\ (30 < fov_deg <= 40 -> shot = "medium close-up"%string)
  /\ (40 < fov_deg <= 45 -> shot = "medium shot"%string)
  /\ (45 < fov_deg <= 55 -> shot = "medium long shot"%string)
  /\ (55 < fov_deg <= 60 -> shot = "full shot"%string)
  /\ (60 < fov_deg <= 90 -> shot = "wide shot"%string)
  /\ (90 < fov_deg <= 120 -> shot = "extreme wide shot"%string).
Proof.
  intros Hf Hd. cbv zeta.
  pose proof (proj2 (proj2 (proj2 (proj2 (proj2 (proj2 (proj2 (proj2
    (scan_distance_by_range distance_meters)))))))) Hd) as Hnone.
  destruct (scan_fov_by_range fov_deg)
    as (H1 & H2 & H3 & H4 & H5 & H6 & H7 & H8 & _).
  repeat split; intros H; apply shot_type_of_fov_tier; auto.
Qed.

Lemma shot_by_field_of_view_witness :
  framing_tier 0 (Some 50) None = None
  /\ (0 < 0.3 \/ 50 < 0)
  /\ shot_type_of 0 (Some 39.6) (Some 50) None = "medium close-up"%string.
Proof.
  assert (Hf : framing_tier 0 (Some 50) None = None) by reflexivity.
  assert (Hd : 0 < 0.3 \/ 50 < 0) by (left; lra).
  split; [exact Hf | split; [exact Hd |]].
  apply (shot_by_field_of_view 0 39.6 (Some 50) None Hf Hd). lra.
Defined.

Lemma shot_label_known (shot : Shot) (name : string) :
  In shot CAMERA_SHOTS -> shot_label (shot_name shot) = Some name ->
  In name Cover.shot_names.
Proof.
  unfold CAMERA_SHOTS. cbn [In].
  intros [<- | [<- | [<- | [<- | [<- | [<- | [<- | [<- | []]]]]]]]];
    cbn [shot_name shot_label String.eqb Ascii.eqb Bool.eqb];
    intros E; injection E as <-; unfold Cover.shot_names; cbn [In]; tauto.
Qed.

Lemma scan_shots_known (key : Shot -> R * R) (value : R) (shots : list Shot)
  (name : string) :
  (forall shot, In shot shots -> In shot CAMERA_SHOTS) ->
  scan_shots key value shots = Some name -> In name Cover.shot_names.
Proof.
  induction shots as [| shot rest IH]; [discriminate |].
  intros Hsub. cbn [scan_shots].
  destruct (in_range (key shot) value).
  - apply shot_label_known. apply Hsub. left. reflexivity.
  - apply IH. intros s Hs. apply Hsub. right. exact Hs.
Qed.

Lemma distance_fallback_known (distance_meters : R) :
  In (distance_fallback distance_meters) Cover.shot_names.
Proof.
  unfold distance_fallback.
  repeat match goal with
         | |- context [Rltb ?a ?b] => destruct (Rltb a b)
         end; unfold Cover.shot_names; cbn [In]; tauto.
Qed.

Lemma shot_type_known (distance_meters : R)
  (fov estimated_focal object_scale_meters : option R) :
  In (shot_type_of distance_meters fov estimated_focal object_scale_meters)
    Cover.shot_names.
Proof.
  assert (Hscan : forall key value name,
             scan_shots key value CAMERA_SHOTS = Some name ->
             In name Cover.shot_names).
  { intros key value name. apply scan_shots_known. auto. }
  unfold shot_type_of.
  destruct (framing_tier _ _ _) as [name |] eqn:Ef.
  - assert (Hin : In name Cover.shot_names).
    { unfold framing_tier in Ef.
      destruct object_scale_meters as [s |]; [| discriminate].
      destruct estimated_focal as [f |]; [| discriminate].
      destruct (framing_shot_cases (Some s) distance_meters f false)
        as [[E _] | (s' & name' & _ & _ & _ & _ & E & Hin)];
        cbv zeta in E; rewrite E in Ef; [discriminate |].
      injection Ef as <-. exact Hin. }
    destruct fov, estimated_focal; exact Hin.
  - destruct (scan_shots shot_distance_m _ _) as [name |] eqn:Ed.
    + destruct fov, estimated_focal; exact (Hscan _ _ _ Ed).
    + destruct fov as [fov_deg |].
      * destruct (scan_shots shot_fov_deg _ _) as [name |] eqn:Ev.
        -- destruct estimated_focal; exact (Hscan _ _ _ Ev).
        -- destruct estimated_focal as [focal |]; [| apply distance_fallback_known].
           destruct (scan_shots shot_focal_length_mm _ _) as [name |] eqn:El;
             [exact (Hscan _ _ _ El) | apply distance_fallback_known].
      * destruct estimated_focal as [focal |]; [| apply distance_fallback_known].
        destruct (scan_shots shot_focal_length_mm _ _) as [name |] eqn:El;
          [exact (Hscan _ _ _ El) | apply distance_fallback_known].
Qed.

(** ** The prompt and the record *)

Lemma shot_prompt_unfold (distance : R) (zoom : pynum)
  (fov focal_length_mm object_scale_meters : option R) :
  _get_shot_type_prompt distance zoom fov focal_length_mm object_scale_meters
  = shot_type_of (distance * GRID_TO_METERS) fov
      (estimated_focal_of fov focal_length_mm) object_scale_meters
    +:+ " (" +:+ Cover.camera_info_text distance fov focal_length_mm +:+ ")".
Proof. reflexivity. Qed.

Lemma camera_info_text_start (distance : R) (fov focal_length_mm : option R) :
  exists rest : string,
    Cover.camera_info_text distance fov focal_length_mm = String "c" rest.
Proof.
  unfold Cover.camera_info_text. cbv zeta.
  destruct (match focal_length_mm with Some _ => _ | None => _ end);
    destruct fov as [fov_value |]; try destruct (py_int fov_value =? 0)%Z;
    cbn [app PyStr.join String.concat]; rewrite !append_cons; eexists; reflexivity.
Qed.

Lemma camera_info_text_without_paren (distance : R) (fov focal_length_mm : option R) :
  PyStr.contains "(" (Cover.camera_info_text distance fov focal_length_mm) = false.
Proof.
  unfold Cover.camera_info_text. cbv zeta.
  destruct (match focal_length_mm with Some _ => _ | None => _ end);
    destruct fov as [fov_value |]; try destruct (py_int fov_value =? 0)%Z;
    cbn [app PyStr.join String.concat];
    rewrite ?contains_app, ?format_1f_without_paren;
    rewrite ?(Z_to_string_without "(") by (apply Nat.ltb_lt; reflexivity);
    reflexivity.
Qed.

Lemma append_space_paren (s t : string) :
  s +:+ " (" +:+ t = (s +:+ " ") +:+ String "(" t.
Proof.
  induction s as [| a s IH]; [reflexivity |].
  rewrite (append_cons a s (" (" +:+ t)), (append_cons a s " "),
    (append_cons a (s +:+ " ")), IH.
  reflexivity.
Qed.

Lemma shot_name_facts (name : string) :
  In name Cover.shot_names ->
  PyStr.truthy name = true
  /\ PyStr.contains "(" (name +:+ " ") = false
  /\ PyStr.strip (name +:+ " ") = name
  /\ In (PyStr.lower (PyStr.replace "-" "_" (PyStr.replace " " "_" name)))
       Cover.shot_type_json_names.
Proof.
  unfold Cover.shot_names. cbn [In].
  intros [<- | [<- | [<- | [<- | [<- | [<- | [<- | [<- | []]]]]]]]];
    (repeat split; [reflexivity .. |]);
    unfold Cover.shot_type_json_names; cbn; tauto.
Qed.

Lemma split_shot_prompt_of (name info : string) :
  In name Cover.shot_names ->
  PyStr.contains "(" info = false ->
  (exists rest, info = String "c" rest) ->
  split_shot_prompt (name +:+ " (" +:+ info +:+ ")")
  = (Some name, Some ("(" +:+ info +:+ ")")).
Proof.
  intros Hin Hinfo [rest Hrest].
  destruct (shot_name_facts name Hin) as (Ht & Hc & Hs & _).
  assert (Hx : PyStr.contains "(" (info +:+ ")") = false)
    by (rewrite contains_app, Hinfo; reflexivity).
  assert (Hstrip : PyStr.strip (info +:+ ")") = info +:+ ")").
  { unfold PyStr.strip. rewrite Hrest at 1. rewrite append_cons.
    cbn [PyStr.lstrip]. change (PyStr.is_space "c") with false. cbv iota.
    rewrite <- append_cons, <- Hrest. apply rstrip_keeps_end. reflexivity. }
  rewrite append_space_paren. unfold split_shot_prompt.
  assert (Htruthy : PyStr.truthy ((name +:+ " ") +:+ String "(" (info +:+ ")")) = true).
  { destruct name; [discriminate Ht | reflexivity]. }
  rewrite Htruthy, contains_app. cbn [PyStr.contains]. rewrite Ascii.eqb_refl.
  rewrite orb_true_r. cbn [orb].
  rewrite (split_at_first "(" _ _ Hc), (split_without "(" _ Hx).
  cbn [nth]. rewrite Hs, Hstrip. reflexivity.
Qed.

(** X17: the shot prompt that [_get_shot_type_prompt] composes is taken
    apart again by [generate_prompt] without loss: the text before the
    parenthesis is the shot type, one of the eight shot names, and the
    rest is the parenthesis with distance, focal length and field of
    view, whatever the numbers are. *)
Theorem shot_prompt_splits_back (distance : R) (zoom : pynum)
  (fov focal_length_mm object_scale_meters : option R) :
  let shot_type :=
    shot_type_of (distance * GRID_TO_METERS) fov
      (estimated_focal_of fov focal_length_mm) object_scale_meters in
  In shot_type Cover.shot_names
  /\ split_shot_prompt
       (_get_shot_type_prompt distance zoom fov focal_length_mm object_scale_meters)
     = (Some shot_type,
        Some ("(" +:+ Cover.camera_info_text distance fov focal_length_mm +:+ ")")).
Proof.
  cbv zeta. split; [apply shot_type_known |].
  rewrite shot_prompt_unfold. apply split_shot_prompt_of.
  - apply shot_type_known.
  - apply camera_info_text_without_paren.
  - apply camera_info_text_start.
Qed.

Lemma estimated_focal_given (fov : option R) (focal_length_mm : R) :
  estimated_focal_of fov (Some focal_length_mm) = Some focal_length_mm.
Proof. reflexivity. Qed.

Lemma truthy_of_strip (s : string) :
  PyStr.truthy s && PyStr.truthy (PyStr.strip s) = PyStr.truthy (PyStr.strip s).
Proof. destruct s; reflexivity. Qed.

Lemma angle_type_truthy (pitch roll : pynum) (name : string) :
  angle_type_of pitch roll = Some name -> PyStr.truthy name = true.
Proof.
  unfold angle_type_of. destruct (Rgtb _ _); [| discriminate].
  intros E. injection E as <-. apply angle_name_truthy.
Qed.

Lemma vertical_angle_text_truthy (pitch : pynum) (angle_type : option string)
  (text : string) :
  vertical_angle_text_of pitch angle_type = Some text -> PyStr.truthy text = true.
Proof.
  unfold vertical_angle_text_of. destruct (_ && _); [| discriminate].
  intros E. injection E as <-. destruct (Rgtb _ _); reflexivity.
Qed.

(** The prompt when the shot clause is there, as it always is. *)
Lemma assemble_prompt_layout (place : string) (tilt angle : option string)
  (shot info custom_description : string) :
  PyStr.truthy shot = true -> PyStr.truthy info = true ->
  (forall text, tilt = Some text -> PyStr.truthy text = true) ->
  (forall text, angle = Some text -> PyStr.truthy text = true) ->
  assemble_prompt (if PyStr.truthy place then Some place else None) tilt angle
    (Some shot) (Some info) custom_description
  = let movement_parts :=
      (if PyStr.truthy place then [place] else []) ++ option_list tilt in
    let angle_shot_str := PyStr.join " " (option_list angle ++ [shot]) in
    let clause :=
      match movement_parts with
      | [] => angle_shot_str +:+ "."
      | _ :: _ => PyStr.join " and " movement_parts +:+ ", " +:+ angle_shot_str
      end in
    PyStr.join " "
      ([clause; info]
         ++ (if PyStr.truthy (PyStr.strip custom_description)
             then [PyStr.strip custom_description] else [])).
Proof.
  intros Hshot Hinfo Htilt Hangle. unfold assemble_prompt.
  rewrite Hshot, Hinfo, truthy_of_strip. cbv zeta.
  destruct tilt as [tilt |]; [rewrite (Htilt tilt eq_refl) |];
    (destruct angle as [angle |]; [rewrite (Hangle angle eq_refl) |]);
    destruct (PyStr.truthy place) eqn:Hplace; try rewrite Hplace;
    cbn [option_list app];
    destruct (PyStr.truthy (PyStr.strip custom_description)); reflexivity.
Qed.

Lemma generate_prompt_shot (camera_info : option CameraInfo) (focal_length_mm : R)
  (object_scale_meters : option R) :
  let position := default ∅ (camera_info ≫= ci_position) in
  let target := default ∅ (camera_info ≫= ci_target) in
  let zoom := default (PyInt 1) (camera_info ≫= ci_zoom) in
  let distance := _calculate_distance position target in
  let fov := _calculate_fov_from_focal_length focal_length_mm true in
  let shot_type :=
    shot_type_of (distance * GRID_TO_METERS) fov (Some focal_length_mm)
      object_scale_meters in
  split_shot_prompt
    (_get_shot_type_prompt distance zoom fov (Some focal_length_mm) object_scale_meters)
  = (Some shot_type,
     Some ("(" +:+ Cover.camera_info_text distance fov (Some focal_length_mm) +:+ ")")).
Proof.
  cbv zeta. rewrite shot_prompt_unfold. apply split_shot_prompt_of.
  - apply shot_type_known.
  - apply camera_info_text_without_paren.
  - apply camera_info_text_start.
Qed.

(** X18: for every camera_info that is not empty, the record names the
    shot: its [shot_type] field is never null, and holds the shot type
    of the prompt in lower case with underscores, one of eight names. *)
Theorem json_shot_type_is_named (float_repr : R -> string)
  (camera_info : option CameraInfo) (focal_length_mm : R)
  (object_scale_meters : option R) (custom_description : string) :
  not_camera_info camera_info = false ->
  let position := default ∅ (camera_info ≫= ci_position) in
  let target := default ∅ (camera_info ≫= ci_target) in
  let distance := _calculate_distance position target in
  let fov := _calculate_fov_from_focal_length focal_length_mm true in
  let shot_type :=
    shot_type_of (distance * GRID_TO_METERS) fov (Some focal_length_mm)
      object_scale_meters in
  let shot_type_json :=
    PyStr.lower (PyStr.replace "-" "_" (PyStr.replace " " "_" shot_type)) in
  In shot_type_json Cover.shot_type_json_names
  /\ exists fields : list (string * json),
      (forall json_dumps : json -> string,
          snd (generate_prompt float_repr json_dumps camera_info focal_length_mm
                 object_scale_meters custom_description)
          = json_dumps (JObj [("camera"%string, JObj fields)]))
      /\ json_lookup "shot_type" fields = Some (JStr shot_type_json).
Proof.
  intros H. cbv zeta.
  set (distance := _calculate_distance _ _).
  set (fov := _calculate_fov_from_focal_length focal_length_mm true).
  pose proof (shot_type_known (distance * GRID_TO_METERS) fov (Some focal_length_mm)
                object_scale_meters) as Hin.
  destruct (shot_name_facts _ Hin) as (Ht & _ & _ & Hjson).
  split; [exact Hjson |].
  eexists. split.
  - intros json_dumps. apply (generate_prompt_json _ _ _ _ _ _ H).
  - cbv zeta. rewrite generate_prompt_shot.
    cbn [camera_data json_lookup String.eqb Ascii.eqb Bool.eqb fst].
    fold distance fov. rewrite Ht. reflexivity.
Qed.

Lemma json_shot_type_is_named_witness :
  not_camera_info default_camera_info = false
  /\ exists (name : string) (fields : list (string * json)),
      In name Cover.shot_type_json_names
      /\ (forall json_dumps : json -> string,
             snd (generate_prompt (fun _ => ""%string) json_dumps default_camera_info
                    50 None "")
             = json_dumps (JObj [("camera"%string, JObj fields)]))
      /\ json_lookup "shot_type" fields = Some (JStr name).
Proof.
  assert (H : not_camera_info default_camera_info = false) by reflexivity.
  split; [exact H |].
  destruct (json_shot_type_is_named (fun _ => ""%string) default_camera_info 50 None
              "" H) as (Hin & fields & Hj & Hl).
  eexists. exists fields. split; [exact Hin | split; [exact Hj | exact Hl]].
Defined.

Lemma level_pitch (pitch roll : pynum) :
  Rabs (num_val pitch) <= 5 ->
  angle_type_of pitch roll = None /\ vertical_angle_text_of pitch None = None.
Proof.
  intros H. unfold angle_type_of, vertical_angle_text_of, Rgtb, EYE_LEVEL_TOLERANCE.
  rewrite Rltb_false by lra. split; reflexivity.
Qed.

Lemma tilted_pitch (pitch roll : pynum) :
  Rabs (num_val pitch) > 5 ->
  let name := _get_angle_type_name (num_val pitch) (num_val roll) in
  angle_type_of pitch roll = Some name
  /\ vertical_angle_text_of pitch (Some name)
     = Some ((if Rltb 0 (num_val pitch) then "tilt down at " else "tilt up at ")
               +:+ Z_to_string (py_int (Rabs (num_val pitch))) +:+ " degree").
Proof.
  intros H. cbv zeta.
  unfold angle_type_of, vertical_angle_text_of, Rgtb, EYE_LEVEL_TOLERANCE, opt_truthy.
  rewrite Rltb_true by lra. rewrite angle_name_truthy. cbn [andb].
  split; [reflexivity |]. destruct (Rltb 0 (num_val pitch)); reflexivity.
Qed.

(** X19: the prompt of a camera_info that is not empty is made of the
    description clause, the parenthesis with the camera numbers and, when
    it is not blank, the custom description without its surrounding
    white space, joined by single spaces.  Within 5 degrees of level the
    clause is the shot type, after the position phrase and a comma when
    there is one, and followed by a period when there is none.  Beyond,
    it is the position phrase if any, "and", the tilt phrase, a comma,
    the angle name and the shot type, with no period. *)
Theorem prompt_layout (float_repr : R -> string) (json_dumps : json -> string)
  (camera_info : option CameraInfo) (focal_length_mm : R)
  (object_scale_meters : option R) (custom_description : string) :
  not_camera_info camera_info = false ->
  let position := default ∅ (camera_info ≫= ci_position) in
  let target := default ∅ (camera_info ≫= ci_target) in
  let distance := _calculate_distance position target in
  let angles := _calculate_camera_angles position target in
  let pitch := num_val (fst (fst angles)) in
  let yaw := num_val (snd (fst angles)) in
  let roll := num_val (snd angles) in
  let fov := _calculate_fov_from_focal_length focal_length_mm true in
  let shot :=
    shot_type_of (distance * GRID_TO_METERS) fov (Some focal_length_mm)
      object_scale_meters in
  let info := "(" +:+ Cover.camera_info_text distance fov (Some focal_length_mm) +:+ ")" in
  let place := _get_camera_position_prompt position target pitch yaw in
  let tilt :=
    (if Rltb 0 pitch then "tilt down at " else "tilt up at ")
      +:+ Z_to_string (py_int (Rabs pitch)) +:+ " degree" in
  let custom :=
    if PyStr.truthy (PyStr.strip custom_description)
    then [PyStr.strip custom_description] else [] in
  let prompt :=
    fst (generate_prompt float_repr json_dumps camera_info focal_length_mm
           object_scale_meters custom_description) in
  (Rabs pitch <= 5 ->
   prompt
   = PyStr.join " "
       ([if PyStr.truthy place then place +:+ ", " +:+ shot else shot +:+ "."; info]
          ++ custom))
  /\ (Rabs pitch > 5 ->
      prompt
      = PyStr.join " "
          ([(if PyStr.truthy place then place +:+ " and " +:+ tilt else tilt)
              +:+ ", " +:+ _get_angle_type_name pitch roll +:+ " " +:+ shot; info]
             ++ custom)).
Proof.
  intros H. cbv zeta.
  rewrite (generate_prompt_text _ _ _ _ _ _ H). cbv zeta.
  rewrite generate_prompt_shot. cbn [fst snd].
  set (angles := _calculate_camera_angles _ _).
  set (distance := _calculate_distance _ _).
  set (fov := _calculate_fov_from_focal_length focal_length_mm true).
  set (place := _get_camera_position_prompt _ _ _ _).
  pose proof (shot_type_known (distance * GRID_TO_METERS) fov (Some focal_length_mm)
                object_scale_meters) as Hin.
  destruct (shot_name_facts _ Hin) as (Ht & _).
  rewrite assemble_prompt_layout;
    [ | exact Ht | reflexivity | apply vertical_angle_text_truthy
      | apply angle_type_truthy ].
  cbv zeta. split; intros Hp.
  - destruct (level_pitch (fst (fst angles)) (snd angles) Hp) as [-> ->].
    cbn [option_list app]. destruct (PyStr.truthy place); reflexivity.
  - destruct (tilted_pitch (fst (fst angles)) (snd angles) Hp) as [-> ->].
    cbn [option_list app]. destruct (PyStr.truthy place); reflexivity.
Qed.

Lemma prompt_layout_witness :
  not_camera_info default_camera_info = false
  /\ exists shot info : string,
      fst (generate_prompt (fun _ => ""%string) (fun _ => ""%string)
             default_camera_info 50 None "  at dusk ")
      = PyStr.join " " [shot +:+ "."; info; "at dusk"]%string.
Proof.
  assert (H : not_camera_info default_camera_info = false) by reflexivity.
  split; [exact H |].
  pose proof (proj1 (prompt_layout (fun _ => ""%string) (fun _ => ""%string)
                       default_camera_info 50 None "  at dusk " H)) as P.
  cbv zeta in P. unfold default_camera_info in P.
  cbn [mbind option_bind ci_position ci_target ci_zoom default from_option
         Datatypes.id] in P.
  rewrite default_angles in P. cbn [fst snd num_val] in P.
  rewrite default_position_prompt in P.
  rewrite Rabs_R0 in P. specialize (P ltac:(lra)).
  do 2 eexists. exact P.
Defined.

Lemma assemble_prompt_strip (place tilt angle shot info : option string)
  (custom_description : string) :
  assemble_prompt place tilt angle shot info custom_description
  = assemble_prompt place tilt angle shot info (PyStr.strip custom_description).
Proof.
  unfold assemble_prompt. cbv zeta.
  rewrite (truthy_of_strip custom_description),
    (truthy_of_strip (PyStr.strip custom_description)), strip_idempotent.
  reflexivity.
Qed.

(** X20: white space around the custom description is ignored: the
    description and its stripped form give the same prompt and the same
    record, and so a description of white space alone counts as none. *)
Theorem custom_description_is_stripped (float_repr : R -> string)
  (json_dumps : json -> string) (camera_info : option CameraInfo)
  (focal_length_mm : R) (object_scale_meters : option R)
  (custom_description : string) :
  generate_prompt float_repr json_dumps camera_info focal_length_mm
    object_scale_meters custom_description
  = generate_prompt float_repr json_dumps camera_info focal_length_mm
      object_scale_meters (PyStr.strip custom_description)
  /\ (PyStr.strip custom_description = ""%string ->
      generate_prompt float_repr json_dumps camera_info focal_length_mm
        object_scale_meters custom_description
      = generate_prompt float_repr json_dumps camera_info focal_length_mm
          object_scale_meters "").
Proof.
  assert (E : generate_prompt float_repr json_dumps camera_info focal_length_mm
                object_scale_meters custom_description
              = generate_prompt float_repr json_dumps camera_info focal_length_mm
                  object_scale_meters (PyStr.strip custom_description)).
  { unfold generate_prompt.
    destruct (not_camera_info camera_info); [reflexivity |].
    destruct (_calculate_camera_angles _ _) as [[pitch yaw] roll].
    destruct (split_shot_prompt _) as [shot_type_name camera_info_text].
    rewrite assemble_prompt_strip. reflexivity. }
  split; [exact E |].
  intros Hs. rewrite E, Hs. reflexivity.
Qed.

Lemma pose_missing (position target : Point3) (pitch yaw : R) :
  position = ∅ \/ target = ∅ ->
  _calculate_distance position target = 0
  /\ _calculate_camera_angles position target = (PyInt 0, PyInt 0, PyInt 0)
  /\ _get_camera_position_prompt position target pitch yaw = ""%string.
Proof.
  intros H. apply either_empty in H.
  unfold _calculate_distance, _calculate_camera_angles, _get_camera_position_prompt.
  rewrite H. repeat split; reflexivity.
Qed.

(** X21: when a camera_info that is not empty lacks its position or its
    target, or holds an empty one, no pose is computed: the record has
    distance 0, "tilt 0", "pan 0" and the integer roll 0, the prompt has
    neither position phrase nor angle, and the shot type is chosen for a
    distance of 0 m, that is by the lens. *)
Theorem generate_prompt_without_pose (float_repr : R -> string)
  (camera_info : option CameraInfo) (focal_length_mm : R)
  (object_scale_meters : option R) (custom_description : string) :
  not_camera_info camera_info = false ->
  default ∅ (camera_info ≫= ci_position) = ∅
  \/ default ∅ (camera_info ≫= ci_target) = ∅ ->
  let fov := _calculate_fov_from_focal_length focal_length_mm true in
  let shot := shot_type_of 0 fov (Some focal_length_mm) object_scale_meters in
  let info := "(" +:+ Cover.camera_info_text 0 fov (Some focal_length_mm) +:+ ")" in
  let custom :=
    if PyStr.truthy (PyStr.strip custom_description)
    then [PyStr.strip custom_description] else [] in
  (forall json_dumps : json -> string,
      fst (generate_prompt float_repr json_dumps camera_info focal_length_mm
             object_scale_meters custom_description)
      = PyStr.join " " ([shot +:+ "."; info] ++ custom))
  /\ (exists fields : list (string * json),
        (forall json_dumps : json -> string,
            snd (generate_prompt float_repr json_dumps camera_info focal_length_mm
                   object_scale_meters custom_description)
            = json_dumps (JObj [("camera"%string, JObj fields)]))
        /\ json_lookup "distance_m" fields = Some (JFloat 0)
        /\ json_lookup "tilt_deg" fields = Some (JStr "tilt 0")
        /\ json_lookup "pan_deg" fields = Some (JStr "pan 0")
        /\ json_lookup "roll_deg" fields = Some (JInt 0)).
Proof.
  intros H Hpose. cbv zeta.
  set (position := default ∅ (camera_info ≫= ci_position)) in *.
  set (target := default ∅ (camera_info ≫= ci_target)) in *.
  destruct (pose_missing position target 0 0 Hpose) as (Hd & Ha & Hp).
  assert (H0 : 0 * GRID_TO_METERS = 0) by (unfold GRID_TO_METERS; lra).
  split.
  - intros json_dumps.
    rewrite (generate_prompt_text _ _ _ _ _ _ H). cbv zeta.
    rewrite generate_prompt_shot. fold position target.
    rewrite Hd, Ha, H0. cbn [fst snd num_val]. rewrite Hp.
    set (fov := _calculate_fov_from_focal_length focal_length_mm true).
    pose proof (shot_type_known 0 fov (Some focal_length_mm) object_scale_meters)
      as Hin.
    destruct (shot_name_facts _ Hin) as (Ht & _).
    rewrite (assemble_prompt_layout "");
      [ | exact Ht | reflexivity | apply vertical_angle_text_truthy
        | apply angle_type_truthy ].
    cbv zeta.
    destruct (level_pitch (PyInt 0) (PyInt 0)) as [-> ->];
      [cbn [num_val]; rewrite Rabs_R0; lra |].
    reflexivity.
  - eexists. split.
    + intros json_dumps. apply (generate_prompt_json _ _ _ _ _ _ H).
    + cbv zeta. fold position target. rewrite Hd, Ha, H0.
      cbn [fst snd camera_data json_lookup String.eqb Ascii.eqb Bool.eqb].
      cbn [py_round_num num_val json_of_num num_str]. unfold Rgtb.
      rewrite (Rltb_false 0 0) by lra. rewrite py_round_0.
      repeat split; reflexivity.
Qed.

Lemma generate_prompt_without_pose_witness :
  not_camera_info zoom_only_camera_info = false
  /\ exists fields : list (string * json),
      (forall json_dumps : json -> string,
          snd (generate_prompt (fun _ => ""%string) json_dumps zoom_only_camera_info
                 50 None "")
          = json_dumps (JObj [("camera"%string, JObj fields)]))
      /\ json_lookup "distance_m" fields = Some (JFloat 0)
      /\ json_lookup "tilt_deg" fields = Some (JStr "tilt 0")
      /\ json_lookup "pan_deg" fields = Some (JStr "pan 0")
      /\ json_lookup "roll_deg" fields = Some (JInt 0).
Proof.
  assert (H : not_camera_info zoom_only_camera_info = false) by reflexivity.
  split; [exact H |].
  exact (proj2 (generate_prompt_without_pose (fun _ => ""%string)
                  zoom_only_camera_info 50 None "" H (or_introl eq_refl))).
Defined.

(** ** The lens *)

Lemma degrees_radians (x : R) : radians (degrees x) = x.
Proof. unfold radians, degrees. pose proof PI_pos. field. lra. Qed.

Lemma degrees_increasing (x y : R) : x < y -> degrees x < degrees y.
Proof.
  intros H. unfold degrees. pose proof PI_pos as Hpi.
  apply Rmult_lt_compat_r; [apply Rdiv_lt_0_compat; lra | exact H].
Qed.

Lemma fov_unfold (focal_length_mm : R) (use_horizontal : bool) :
  0 < focal_length_mm ->
  _calculate_fov_from_focal_length focal_length_mm use_horizontal
  = Some (degrees (2 * atan ((if use_horizontal then 18 else 12) / focal_length_mm))).
Proof.
  intros H. unfold _calculate_fov_from_focal_length.
  rewrite Rleb_false by exact H. cbv zeta.
  replace ((if use_horizontal then SENSOR_WIDTH_MM else SENSOR_HEIGHT_MM)
           / (2.0 * focal_length_mm))
    with ((if use_horizontal then 18 else 12) / focal_length_mm)
    by (destruct use_horizontal; cbv iota; unfold_constants; unfold Rdiv;
        rewrite Rinv_mult; lra).
  replace 2.0 with 2 by lra. reflexivity.
Qed.



(** X23: for a focal length of the declared range, 1 to 1000 mm, the
    focal length estimated from the horizontal field of view of the lens
    is the focal length of that lens, kept between 14 and 200 mm.  On
    the real numbers the two conversions are exact inverses on that
    range; the statement allows a thousandth of a millimetre, which
    leaves room for the rounding of floating-point arithmetic. *)
Theorem focal_length_round_trip (focal_length_mm : R) :
  1 <= focal_length_mm <= 1000 ->
  exists fov estimate : R,
    _calculate_fov_from_focal_length focal_length_mm true = Some fov
    /\ _estimate_focal_length fov = Some estimate
    /\ 14 <= estimate <= 200
    /\ Rabs (estimate - Rmax 14 (Rmin 200 focal_length_mm)) <= 0.001.
Proof.
  intros [H1 H2]. do 2 eexists. rewrite fov_unfold by lra.
  split; [reflexivity |].
  assert (Hq : 0 < 18 / focal_length_mm) by (apply Rdiv_lt_0_compat; lra).
  pose proof (atan_pos _ Hq) as A0.
  assert (Hfov : 0 < degrees (2 * atan (18 / focal_length_mm))).
  { rewrite <- degrees_0. apply degrees_increasing. lra. }
  split; [| split].
  - unfold _estimate_focal_length, Rtruthy, Rgtb.
    destruct (Req_dec_T _ 0) as [E0 | _]; [lra |].
    rewrite Rltb_true by exact Hfov. cbn [andb]. cbv zeta.
    rewrite degrees_radians.
    replace (2 * atan (18 / focal_length_mm) / 2.0) with (atan (18 / focal_length_mm))
      by lra.
    rewrite tan_atan.
    replace (18.0 / (18 / focal_length_mm)) with focal_length_mm
      by (replace 18.0 with 18 by lra; field; lra).
    replace 14.0 with 14 by lra. replace 200.0 with 200 by lra. reflexivity.
  - split; [apply Rmax_l |].
    apply Rmax_lub; [lra | apply Rmin_l].
  - rewrite Rminus_diag, Rabs_R0. lra.
Qed.

Lemma focal_length_round_trip_witness :
  1 <= 50 <= 1000
  /\ exists fov estimate : R,
      _calculate_fov_from_focal_length 50 true = Some fov
      /\ _estimate_focal_length fov = Some estimate
      /\ Rabs (estimate - 50) <= 0.001.
Proof.
  assert (H : 1 <= 50 <= 1000) by lra.
  split; [exact H |].
  destruct (focal_length_round_trip 50 H) as (fov & estimate & E1 & E2 & _ & E3).
  exists fov, estimate. split; [exact E1 | split; [exact E2 |]].
  rewrite Rmin_right, Rmax_right in E3 by lra. exact E3.
Defined.

(** X24: the field of view estimated from the distance never gets
    narrower as the camera moves away; it takes the six values 15, 25,
    37.5, 52.5, 70 and 100 degrees, and changes where the distance
    fallback of the shot type changes. *)
Theorem estimated_fov_widens_with_distance (distance farther : R) :
  distance <= farther ->
  _estimate_fov_from_distance distance <= _estimate_fov_from_distance farther
  /\ In (_estimate_fov_from_distance distance) [15; 25; 37.5; 52.5; 70; 100]
  /\ (_estimate_fov_from_distance distance < _estimate_fov_from_distance farther ->
      distance_fallback (distance * GRID_TO_METERS)
      <> distance_fallback (farther * GRID_TO_METERS)).
Proof.
  intros H. unfold _estimate_fov_from_distance, distance_fallback. cbv zeta.
  unfold_constants.
  assert (H4 : distance * 4.0 <= farther * 4.0) by lra.
  set (d1 := distance * 4.0) in *. set (d2 := farther * 4.0) in *.
  destruct (Rlt_le_dec d1 0.6); destruct (Rlt_le_dec d1 1.2);
    destruct (Rlt_le_dec d1 3.0); destruct (Rlt_le_dec d1 5.0);
    destruct (Rlt_le_dec d1 10.0); try (exfalso; lra);
    destruct (Rlt_le_dec d2 0.6); destruct (Rlt_le_dec d2 1.2);
    destruct (Rlt_le_dec d2 3.0); destruct (Rlt_le_dec d2 5.0);
    destruct (Rlt_le_dec d2 10.0); try (exfalso; lra);
    decide_branches;
    (split; [lra | split; [cbn [In]; lra | intros Hlt; try (exfalso; lra); discriminate]]).
Qed.

Lemma estimated_fov_widens_with_distance_witness :
  0.1 <= 0.5
  /\ _estimate_fov_from_distance 0.1 <= _estimate_fov_from_distance 0.5.
Proof.
  assert (H : 0.1 <= 0.5) by lra.
  split; [exact H | exact (proj1 (estimated_fov_widens_with_distance 0.1 0.5 H))].
Defined.

(** ** The lens tables *)

Lemma atan_2_15_lower : 0.13 < atan (2 / 15).
Proof.
  assert (H : 0 < 2 / 15 < 1) by lra.
  pose proof (atan_series_bounds (2 / 15) 0 H) as [L _].
  unfold sum_f_R0, tg_alt, Ratan_seq in L. simpl in L. lra.
Qed.

Lemma atan_9_7_upper : atan (9 / 7) < PI / 3.
Proof.
  pose proof PI_bounds as [P1 P2].
  assert (H : 0 < 7 / 9 < 1) by lra.
  pose proof (atan_series_bounds (7 / 9) 0 H) as [L _].
  unfold sum_f_R0, tg_alt, Ratan_seq in L. simpl in L.
  pose proof (atan_inv (7 / 9) ltac:(lra)) as E.
  replace (/ (7 / 9)) with (9 / 7) in E by lra.
  rewrite E. lra.
Qed.

(** The horizontal field of view of the focal lengths of the table. *)
Lemma fov_of_table_focal_lengths (focal_length_mm : R) :
  14 <= focal_length_mm <= 135 ->
  10 <= degrees (2 * atan (18 / focal_length_mm)) <= 120.
Proof.
  intros [H1 H2]. pose proof PI_bounds as [P1 P2].
  assert (Q1 : 2 / 15 <= 18 / focal_length_mm).
  { replace (2 / 15) with (18 / 135) by lra. unfold Rdiv.
    apply Rmult_le_compat_l; [lra |]. apply Rinv_le_contravar; lra. }
  assert (Q2 : 18 / focal_length_mm <= 9 / 7).
  { replace (9 / 7) with (18 / 14) by lra. unfold Rdiv.
    apply Rmult_le_compat_l; [lra |]. apply Rinv_le_contravar; lra. }
  assert (A1 : 0.13 < atan (18 / focal_length_mm)).
  { destruct Q1 as [Q1 | <-]; [| exact atan_2_15_lower].
    pose proof (atan_increasing _ _ Q1). pose proof atan_2_15_lower. lra. }
  assert (A2 : atan (18 / focal_length_mm) < PI / 3).
  { destruct Q2 as [Q2 | ->]; [| exact atan_9_7_upper].
    pose proof (atan_increasing _ _ Q2). pose proof atan_9_7_upper. lra. }
  split.
  - apply (degrees_bounds (2 * atan (18 / focal_length_mm)) 10 181); lra.
  - apply Rlt_le.
    replace 120 with (degrees (2 * (PI / 3))) by (unfold degrees; field; lra).
    apply degrees_increasing. lra.
Qed.

Lemma scan_fov_none (fov_deg : R) :
  scan_shots shot_fov_deg fov_deg CAMERA_SHOTS = None -> fov_deg < 10 \/ 120 < fov_deg.
Proof.
  intros E.
  destruct (scan_fov_by_range fov_deg) as (H1 & H2 & H3 & H4 & H5 & H6 & H7 & H8 & _).
  cbv zeta in *.
  destruct (Rlt_le_dec fov_deg 10); [left; assumption |].
  destruct (Rlt_le_dec 120 fov_deg); [right; assumption |].
  exfalso.
  destruct (Rle_lt_dec fov_deg 20); [rewrite H1 in E by lra; discriminate |].
  destruct (Rle_lt_dec fov_deg 30); [rewrite H2 in E by lra; discriminate |].
  destruct (Rle_lt_dec fov_deg 40); [rewrite H3 in E by lra; discriminate |].
  destruct (Rle_lt_dec fov_deg 45); [rewrite H4 in E by lra; discriminate |].
  destruct (Rle_lt_dec fov_deg 55); [rewrite H5 in E by lra; discriminate |].
  destruct (Rle_lt_dec fov_deg 60); [rewrite H6 in E by lra; discriminate |].
  destruct (Rle_lt_dec fov_deg 90); [rewrite H7 in E by lra; discriminate |].
  rewrite H8 in E by lra. discriminate.
Qed.

(** X25: in [generate_prompt], where the field of view is the one of the
    focal length, the table of focal lengths never names the shot: every
    focal length of that table (14 to 135 mm) has a field of view that
    the table of fields of view (10 to 120 degrees) names first.  The
    shot type is the answer of the framing, else of the distance table,
    else of the table of fields of view, else of the distance
    thresholds. *)
Theorem focal_length_table_never_decides (distance_meters focal_length_mm : R)
  (object_scale_meters : option R) :
  let fov := _calculate_fov_from_focal_length focal_length_mm true in
  shot_type_of distance_meters fov (Some focal_length_mm) object_scale_meters
  = match framing_tier distance_meters (Some focal_length_mm) object_scale_meters with
    | Some name => name
    | None =>
        match scan_shots shot_distance_m distance_meters CAMERA_SHOTS with
        | Some name => name
        | None =>
            match fov ≫= (fun fov_deg => scan_shots shot_fov_deg fov_deg CAMERA_SHOTS) with
            | Some name => name
            | None => distance_fallback distance_meters
            end
        end
    end.
Proof.
  cbv zeta. unfold shot_type_of.
  destruct (framing_tier _ _ _) as [name |].
  { destruct (_calculate_fov_from_focal_length focal_length_mm true); reflexivity. }
  destruct (scan_shots shot_distance_m _ _) as [name |].
  { destruct (_calculate_fov_from_focal_length focal_length_mm true); reflexivity. }
  destruct (Rle_lt_dec focal_length_mm 0) as [Hf | Hf].
  - unfold _calculate_fov_from_focal_length. rewrite Rleb_true by exact Hf.
    cbn [mbind option_bind].
    rewrite scan_focal_outside by (left; lra). reflexivity.
  - rewrite fov_unfold by exact Hf. cbn [mbind option_bind].
    destruct (scan_shots shot_fov_deg _ _) as [name |] eqn:E; [reflexivity |].
    apply scan_fov_none in E.
    assert (Hout : focal_length_mm < 14 \/ 135 < focal_length_mm).
    { destruct (Rlt_le_dec focal_length_mm 14); [left; assumption |].
      destruct (Rlt_le_dec 135 focal_length_mm); [right; assumption |].
      pose proof (fov_of_table_focal_lengths focal_length_mm ltac:(lra)). lra. }
    rewrite (scan_focal_outside _ Hout). reflexivity.
Qed.

(** ** The position phrase *)







Lemma degrees_scale (k : R) : degrees (k * PI) = k * 180.
Proof. unfold degrees. pose proof PI_pos. field. lra. Qed.

Lemma degrees_le (x y : R) : x <= y -> degrees x <= degrees y.
Proof.
  intros [H | ->]; [apply Rlt_le, degrees_increasing, H | apply Rle_refl].
Qed.

Lemma py_int_between (a : R) (lo hi : Z) :
  0 <= a -> IZR lo <= a < IZR hi -> (lo <= py_int a < hi)%Z.
Proof.
  intros H0 [H1 H2]. destruct (py_int_floor a H0) as [F1 F2].
  split.
  - assert (IZR lo < IZR (py_int a + 1)) by (rewrite plus_IZR; lra).
    apply lt_IZR in H. lia.
  - apply lt_IZR. lra.
Qed.

Lemma abs_dx_le_horizontal (position target : Point3) :
  Rabs (Spec.offset position target "x") <= Spec.horizontal position target.
Proof.
  unfold Spec.horizontal. rewrite <- sqrt_Rsqr_abs.
  apply sqrt_le_1_alt. pose proof (Rle_0_sqr (Spec.offset position target "z")). lra.
Qed.

(** The position phrase away from the vertical of the target, on the
    offsets [dx] and [dz] and the bearing. *)
Lemma position_prompt_away (position target : Point3) (pitch yaw : R) :
  position <> ∅ -> target <> ∅ ->
  0.001 <= Spec.horizontal position target ->
  let pos_x := Spec.offset position target "x" in
  let pos_z := Spec.offset position target "z" in
  let angle_deg := degrees (atan2 pos_x pos_z) in
  let angle_int := py_int (if Rltb angle_deg 0 then angle_deg + 360 else angle_deg) in
  let angle_str := Z_to_string angle_int in
  _get_camera_position_prompt position target pitch yaw
  = if ((Z.abs angle_int <? 2)%Z || (Z.abs (angle_int - 360) <? 2)%Z)
       && Rltb 0.1 pos_z
    then ""
    else if Rltb pos_z (-0.1) then
      if Rltb (Rabs pos_x) 0.1 then "looking from behind"
      else if (90 <=? angle_int)%Z && (angle_int <=? 180)%Z then
        "Pan the camera " +:+ angle_str +:+ " degrees to the right-back side"
      else if (180 <? angle_int)%Z && (angle_int <=? 270)%Z then
        "Pan the camera " +:+ angle_str +:+ " degrees to the left-back side"
      else "looking from behind at " +:+ angle_str +:+ " degree"
    else if Rltb (Rabs pos_x) 0.1 then
      (if Rltb 0.1 pos_z then "" else "looking from behind")
    else if Rltb 0.1 pos_x then
      "Pan the camera " +:+ angle_str +:+ " degrees to the right"
    else if Rltb pos_x (-0.1) then
      (if (270 <=? angle_int)%Z
       then "Pan the camera " +:+ Z_to_string (360 - angle_int) +:+ " degrees to the left"
       else "Pan the camera " +:+ angle_str +:+ " degrees to the left")
    else "".
Proof.
  intros E1 E2 Hh. cbv zeta.
  unfold _get_camera_position_prompt. rewrite (neither_empty _ _ E1 E2).
  cbv zeta. rewrite <- (position_prompt_unfold _ _ pitch yaw E1 E2).
  rewrite (Rltb_false _ 0.001) by exact Hh.
  unfold safe_float, Rgtb.
  fold (Spec.offset position target "x"). fold (Spec.offset position target "z").
  repeat match goal with
         | |- context [if ?b then _ else _] => destruct b
         end; reflexivity.
Qed.

Lemma horizontal_beside (position target : Point3) :
  0.1 <= Rabs (Spec.offset position target "x") ->
  0.001 <= Spec.horizontal position target.
Proof. intros H. pose proof (abs_dx_le_horizontal position target). lra. Qed.



Ltac decide_Z_tests :=
  repeat match goal with
         | |- context [(?a <? ?b)%Z] =>
             first [ replace (a <? b)%Z with true by (symmetry; apply Z.ltb_lt; lia)
                   | replace (a <? b)%Z with false by (symmetry; apply Z.ltb_ge; lia) ]
         | |- context [(?a <=? ?b)%Z] =>
             first [ replace (a <=? b)%Z with true by (symmetry; apply Z.leb_le; lia)
                   | replace (a <=? b)%Z with false by (symmetry; apply Z.leb_gt; lia) ]
         | |- context [(?a =? ?b)%Z] =>
             first [ replace (a =? b)%Z with true by (symmetry; apply Z.eqb_eq; lia)
                   | replace (a =? b)%Z with false by (symmetry; apply Z.eqb_neq; lia) ]
         end.


Lemma right_offsets :
  Spec.offset right_position close_target "x" = 1
  /\ Spec.offset right_position close_target "z" = 0.
Proof.
  unfold Spec.offset, right_position, close_target. rewrite !get_singleton.
  cbn [String.eqb Ascii.eqb Bool.eqb]. split; lra.
Qed.

Lemma atan2_on_the_side (y : R) :
  (0 < y -> atan2 y 0 = PI / 2) /\ (y < 0 -> atan2 y 0 = - (PI / 2)).
Proof.
  unfold atan2. rewrite (Rltb_false 0 0) by lra. split; intros H.
  - rewrite (Rltb_true 0 y) by lra. reflexivity.
  - rewrite (Rltb_false 0 y), (Rltb_true y 0) by lra. reflexivity.
Qed.








(** X29: a lateral offset of exactly 0.1, to either side, belongs to
    neither the axis nor a side: unless the camera is more than 0.1
    behind its target, it gets no position phrase at all. *)
Theorem no_phrase_at_the_edge (position target : Point3) (pitch yaw : R) :
  position <> ∅ -> target <> ∅ ->
  Rabs (Spec.offset position target "x") = 0.1 ->
  -0.1 <= Spec.offset position target "z" ->
  _get_camera_position_prompt position target pitch yaw = ""%string.
Proof.
  intros E1 E2 Hx Hz.
  rewrite (position_prompt_away _ _ pitch yaw E1 E2)
    by (apply horizontal_beside; lra).
  cbv zeta. rewrite Hx.
  set (dx := Spec.offset position target "x") in *.
  set (dz := Spec.offset position target "z") in *.
  assert (Hdx : dx = 0.1 \/ dx = -0.1).
  { unfold Rabs in Hx. destruct (Rcase_abs dx); [right | left]; lra. }
  rewrite (Rltb_false dz (-0.1)), (Rltb_false 0.1 0.1) by lra.
  rewrite (Rltb_false 0.1 dx), (Rltb_false dx (-0.1)) by lra.
  match goal with |- (if ?b then _ else _) = _ => destruct b end; reflexivity.
Qed.

Lemma edge_offsets :
  Spec.offset edge_position close_target "x" = 0.1
  /\ Spec.offset edge_position close_target "z" = 0.
Proof.
  unfold Spec.offset, edge_position, close_target. rewrite !get_singleton.
  cbn [String.eqb Ascii.eqb Bool.eqb]. split; lra.
Qed.

Lemma no_phrase_at_the_edge_witness :
  Rabs (Spec.offset edge_position close_target "x") = 0.1
  /\ -0.1 <= Spec.offset edge_position close_target "z"
  /\ _get_camera_position_prompt edge_position close_target 0 90 = ""%string.
Proof.
  destruct edge_offsets as [Ex Ez].
  assert (Hx : Rabs (Spec.offset edge_position close_target "x") = 0.1)
    by (rewrite Ex; apply Rabs_pos_eq; lra).
  assert (Hz : -0.1 <= Spec.offset edge_position close_target "z")
    by (rewrite Ez; lra).
  split; [exact Hx | split; [exact Hz |]].
  exact (no_phrase_at_the_edge edge_position close_target 0 90
           (insert_non_empty _ _ _) (insert_non_empty _ _ _) Hx Hz).
Defined.

(** ** The record against the prompt *)

Lemma atan_le_arg (q : R) : 0 <= q < 1 -> 0 <= atan q <= q.
Proof.
  intros [[H0 | <-] H1]; [| rewrite atan_0; lra].
  pose proof (atan_series_bounds q 0 ltac:(lra)) as [_ U].
  unfold sum_f_R0, tg_alt, Ratan_seq in U. simpl in U.
  pose proof (atan_pos q H0). lra.
Qed.

(** The bearing of a camera beside its target. *)
Lemma bearing_beside (dx dz : R) :
  0.1 < dx -> Rabs dz <= 0.001 -> 89 < degrees (atan2 dx dz) < 91.
Proof.
  intros Hx Hz. pose proof PI_bounds as [P1 P2].
  assert (Hq : forall q, 0 <= q < 0.011 -> 0 <= degrees (atan q) < 1).
  { intros q Hq. destruct (atan_le_arg q ltac:(lra)) as [A1 A2].
    split.
    - rewrite <- degrees_0. apply degrees_le, A1.
    - destruct A1 as [A1 | <-]; [| rewrite degrees_0; lra].
      apply (degrees_bounds (atan q) 0 1); lra. }
  assert (E90 : degrees (PI / 2) = 90).
  { replace (PI / 2) with (1 / 2 * PI) by lra. rewrite degrees_scale. lra. }
  assert (Hi : 0 < / dx < 10).
  { split; [apply Rinv_0_lt_compat; lra |].
    replace 10 with (/ 0.1) by lra. apply Rinv_lt_contravar; nra. }
  assert (Hlin : forall u v, degrees (u + v) = degrees u + degrees v)
    by (intros; unfold degrees; ring).
  assert (Hopp : forall u, degrees (- u) = - degrees u)
    by (intros; unfold degrees; ring).
  destruct (Rtotal_order dz 0) as [Hneg | [-> | Hpos]].
  - rewrite Rabs_left in Hz by exact Hneg.
    assert (Hr : 0 <= - dz / dx < 0.011) by (unfold Rdiv; nra).
    specialize (Hq _ Hr).
    unfold atan2. rewrite (Rltb_false 0 dz), (Rltb_true dz 0), (Rleb_true 0 dx) by lra.
    replace (dx / dz) with (- / (- dz / dx)) by (field; lra).
    rewrite atan_opp, atan_inv by (unfold Rdiv; nra).
    replace (- (PI / 2 - atan (- dz / dx)) + PI) with (PI / 2 + atan (- dz / dx))
      by lra.
    rewrite Hlin, E90. lra.
  - rewrite (proj1 (atan2_on_the_side dx)) by lra. rewrite E90. lra.
  - rewrite Rabs_pos_eq in Hz by lra.
    assert (Hr : 0 <= dz / dx < 0.011) by (unfold Rdiv; nra).
    specialize (Hq _ Hr).
    rewrite atan2_pos by exact Hpos.
    replace (dx / dz) with (/ (dz / dx)) by (field; lra).
    rewrite atan_inv by (unfold Rdiv; nra).
    replace (PI / 2 - atan (dz / dx)) with (PI / 2 + - atan (dz / dx)) by lra.
    rewrite Hlin, Hopp, E90. lra.
Qed.

(** X30: for a camera beside its target, more than 0.1 to the right
    and within 0.001 of its line, the record and the prompt disagree:
    the yaw is set to 0, so that the record reads "pan" followed by the
    number 0.0, while the prompt reads "Pan the camera N degrees to the
    right" with N equal to 89 or 90. *)
Theorem pan_beside_the_target (float_repr : R -> string) (position target : Point3) :
  position <> ∅ -> target <> ∅ ->
  0.1 < Spec.offset position target "x" ->
  Rabs (Spec.offset position target "z") <= 0.001 ->
  let yaw := snd (fst (_calculate_camera_angles position target)) in
  yaw = PyFloat 0
  /\ (forall (pitch roll : pynum) (distance_meters focal_length_mm : R)
        (shot_type_name : option string),
         json_lookup "pan_deg"
           (camera_data float_repr pitch yaw roll distance_meters focal_length_mm
              shot_type_name)
         = Some (JStr ("pan " +:+ float_repr 0)))
  /\ (exists bearing : Z,
         (89 <= bearing <= 90)%Z
         /\ forall pitch_deg yaw_deg : R,
             _get_camera_position_prompt position target pitch_deg yaw_deg
             = "Pan the camera " +:+ Z_to_string bearing +:+ " degrees to the right").
Proof.
  intros E1 E2 Hx Hz. cbv zeta.
  assert (Hyaw : snd (fst (_calculate_camera_angles position target)) = PyFloat 0).
  { rewrite (camera_angles_unfold _ _ E1 E2). cbn [fst snd].
    rewrite (Rltb_false 0.001 (Rabs _)) by exact Hz. reflexivity. }
  rewrite Hyaw. split; [reflexivity | split].
  - intros pitch roll distance_meters focal_length_mm shot_type_name.
    cbn [camera_data json_lookup String.eqb Ascii.eqb Bool.eqb].
    cbn [py_round_num num_val num_str]. unfold Rgtb.
    rewrite (Rltb_false 0 0) by lra. rewrite py_round_0. reflexivity.
  - set (dx := Spec.offset position target "x") in *.
    set (dz := Spec.offset position target "z") in *.
    pose proof (bearing_beside dx dz Hx Hz) as [B1 B2].
    exists (py_int (degrees (atan2 dx dz))).
    pose proof (py_int_between (degrees (atan2 dx dz)) 89 91 ltac:(lra) ltac:(lra))
      as HN.
    split; [lia |].
    intros pitch_deg yaw_deg.
    assert (Hax : Rabs dx = dx) by (apply Rabs_pos_eq; lra).
    rewrite (position_prompt_away _ _ pitch_deg yaw_deg E1 E2)
      by (apply horizontal_beside; fold dx; rewrite Hax; lra).
    cbv zeta. fold dx dz. rewrite Hax.
    set (a := degrees (atan2 dx dz)) in *.
    rewrite (Rltb_false a 0) by lra.
    set (N := py_int a) in *.
    assert (Hzb : -0.001 <= dz <= 0.001).
    { unfold Rabs in Hz. destruct (Rcase_abs dz); lra. }
    decide_Z_tests. cbn [orb andb].
    rewrite (Rltb_false dz (-0.1)), (Rltb_false dx 0.1), (Rltb_true 0.1 dx) by lra.
    reflexivity.
Qed.

Lemma pan_beside_the_target_witness :
  0.1 < Spec.offset right_position close_target "x"
  /\ Rabs (Spec.offset right_position close_target "z") <= 0.001
  /\ snd (fst (_calculate_camera_angles right_position close_target)) = PyFloat 0
  /\ exists bearing : Z,
      (89 <= bearing <= 90)%Z
      /\ _get_camera_position_prompt right_position close_target 0 0
         = "Pan the camera " +:+ Z_to_string bearing +:+ " degrees to the right".
Proof.
  destruct right_offsets as [Ex Ez].
  assert (Hx : 0.1 < Spec.offset right_position close_target "x") by (rewrite Ex; lra).
  assert (Hz : Rabs (Spec.offset right_position close_target "z") <= 0.001)
    by (rewrite Ez, Rabs_R0; lra).
  split; [exact Hx | split; [exact Hz |]].
  destruct (pan_beside_the_target (fun _ => ""%string) right_position close_target
              (insert_non_empty _ _ _) (insert_non_empty _ _ _) Hx Hz)
    as (Hyaw & _ & bearing & Hb & Hp).
  split; [exact Hyaw |].
  exists bearing. split; [exact Hb | apply Hp].
Defined.
